(** * Dimension reduction notebook: PCA and random-forest feature selection

    A shallow embedding of [4_dimension_reduction.ipynb]: the two functions
    [process_heart_disease_data] and [feature_selection_and_split], the
    pandas and scikit-learn calls they are made of, and the files they
    write.

    The notebook is a sequence of library calls.  The bookkeeping of those
    calls (frames, row labels, column names, positional selection, argument
    validation, the split sizes, file names) is modelled by definitions; the
    numerical routines (the conversion to float64, the mean of a float
    vector, the principal component projection, the forest's importances,
    the sort behind [argsort], the Mersenne Twister permutation, the CSV
    tokenizer and the float formatter)
    are the fields of the class [Runtime], constrained only by the contracts
    the libraries document. *)

From Stdlib Require Import Ascii SpecFloat.
From stdpp Require Import gmap strings list pretty sorting.

Set Default Proof Using "Type".

(** ** Exceptions and results *)

(** The Python exceptions the library calls of the notebook raise. *)
Inductive exn : Type :=
  | FileNotFoundError
  | ParserError
  | KeyError
  | ValueError
  | IndexError
  | InvalidIndexError
  | OSError.

Global Instance exn_eq_dec : EqDecision exn.
Proof. solve_decision. Defined.

(** A call either returns a value or raises. *)
Inductive result (A : Type) : Type :=
  | Ok (a : A)
  | Raise (e : exn).
Global Arguments Ok {A} a.
Global Arguments Raise {A} e.

Global Instance result_ret : MRet result := @Ok.
Global Instance result_bind : MBind result := λ A B f r,
  match r with
  | Ok a => f a
  | Raise e => Raise e
  end.

Global Instance result_fmap : FMap result := λ A B f r,
  match r with
  | Ok a => Ok (f a)
  | Raise e => Raise e
  end.

(** [o] when present, the exception [e] otherwise. *)
Definition or_raise {A} (e : exn) (o : option A) : result A :=
  match o with
  | Some a => Ok a
  | None => Raise e
  end.

(** ** Arrays and frames *)

(** An entry of a float64 numpy array over the numbers [R]: [None] is NaN.
    A two-dimensional float64 array is given row by row. *)
Abbreviation float R := (option R) (only parsing).
Abbreviation ndarray R := (list (list (option R))) (only parsing).

(** A cell of a pandas frame as [read_csv] produces it. *)
Inductive cell (R : Type) : Type :=
  | CNum (r : R)
  | CNaN
  | CStr (s : string).
Global Arguments CNum {R} r.
Global Arguments CNaN {R}.
Global Arguments CStr {R} s.

(** A pandas Series: name, row labels, values. *)
Record Series (R : Type) : Type := mkSeries {
  s_name : string;
  s_index : list Z;
  s_values : list (cell R)
}.
Global Arguments mkSeries {R} _ _ _.
Global Arguments s_name {R} _.
Global Arguments s_index {R} _.
Global Arguments s_values {R} _.

(** A pandas DataFrame: column names, row labels, and the rows. *)
Record DataFrame (R : Type) : Type := mkDataFrame {
  columns : list string;
  index : list Z;
  values : list (list (cell R))
}.
Global Arguments mkDataFrame {R} _ _ _.
Global Arguments columns {R} _.
Global Arguments index {R} _.
Global Arguments values {R} _.

Section Frames.

Context {R : Type}.

Definition cell_of_float (x : float R) : cell R :=
  match x with
  | Some r => CNum r
  | None => CNaN
  end.

(** [len(df)]. *)
Definition nrows (df : DataFrame R) : nat := length (values df).

(** Every row of [X] has [m] cells. *)
Definition rectangular {A} (m : nat) (X : list (list A)) : Prop :=
  Forall (λ row, length row = m) X.

Definition rectangularb {A} (m : nat) (X : list (list A)) : bool :=
  forallb (λ row, length row =? m) X.

(** [X.shape[1]] of an array that has a row. *)
Definition shape1 {A} (X : list (list A)) : nat :=
  from_option length 0 (head X).

(** What every frame built by pandas satisfies: one label per row, one
    cell per column in every row. *)
Record wf_frame (df : DataFrame R) : Prop := {
  wf_index : length (index df) = length (values df);
  wf_width : rectangular (length (columns df)) (values df)
}.

(** [RangeIndex(n)], the default row labels 0, 1, ..., n-1. *)
Definition RangeIndex (n : nat) : list Z := Z.of_nat <$> seq 0 n.

(** [X[:, js]]: numpy raises [IndexError] for an index out of bounds. *)
Definition take_columns {A} (js : list nat) (X : list (list A))
  : result (list (list A)) :=
  or_raise IndexError (mapM (λ row, mapM (λ j, row !! j) js) X).

(** [df[c]]: the column labelled [c], with the frame's row labels. *)
Definition getitem (df : DataFrame R) (c : string) : result (Series R) :=
  match list_find (λ x, x = c) (columns df) with
  | None => Raise KeyError
  | Some (j, _) =>
      Ok (mkSeries c (index df) ((λ row, default CNaN (row !! j)) <$> values df))
  end.

(** [df.drop([c], axis=1)]: the frame without the column labelled [c]. *)
Definition drop_column (df : DataFrame R) (c : string) : result (DataFrame R) :=
  if decide (c ∈ columns df) then
    Ok (mkDataFrame
          (filter (λ x, x ≠ c) (columns df))
          (index df)
          ((λ row, (λ p, p.2) <$> filter (λ p, p.1 ≠ c) (zip (columns df) row))
             <$> values df))
  else Raise KeyError.

(** [pd.DataFrame(data, columns=cols)] for a two-dimensional array: the rows
    get the default labels; a width other than [len(cols)] raises
    ("Shape of passed values is ..., indices imply ..."). *)
Definition DataFrame_of_array (data : ndarray R) (cols : list string)
  : result (DataFrame R) :=
  if rectangularb (length cols) data then
    Ok (mkDataFrame cols (RangeIndex (length data)) ((λ row : list (float R), cell_of_float <$> row) <$> data))
  else Raise ValueError.

(** [pd.DataFrame(s, columns=[c])] for a Series: when [c] is the name of
    the Series, the frame has its row labels and its values as the one
    column; another name selects nothing, and the frame has no row. *)
Definition DataFrame_of_Series (s : Series R) (c : string) : DataFrame R :=
  if decide (s_name s = c) then
    mkDataFrame [c] (s_index s) ((λ v, [v]) <$> s_values s)
  else mkDataFrame [c] [] [].

(** [df.reset_index(drop=True)]. *)
Definition reset_index (df : DataFrame R) : DataFrame R :=
  mkDataFrame (columns df) (RangeIndex (length (index df))) (values df).

(** [df.reindex(labels)]: the row of each label, a row of NaN for a label
    the frame does not have. *)
Definition reindex (labels : list Z) (df : DataFrame R) : list (list (cell R)) :=
  (λ l, match list_find (λ x, x = l) (index df) with
        | Some (i, _) =>
            default (replicate (length (columns df)) CNaN) (values df !! i)
        | None => replicate (length (columns df)) CNaN
        end) <$> labels.

(** [pd.concat([a, b], axis=1)]: the columns of [a] followed by those of
    [b], joined on the row labels.  Equal labels: the rows are put side by
    side.  Otherwise both frames are reindexed to the union of the labels
    (outer join, labels in order of first appearance), which pandas refuses
    when labels repeat. *)
Definition concat (a b : DataFrame R) : result (DataFrame R) :=
  if decide (index a = index b) then
    Ok (mkDataFrame (columns a ++ columns b) (index a)
          (zip_with app (values a) (values b)))
  else if decide (NoDup (index a) ∧ NoDup (index b)) then
    let labels := index a ++ filter (λ l, l ∉ index a) (index b) in
    Ok (mkDataFrame (columns a ++ columns b) labels
          (zip_with app (reindex labels a) (reindex labels b)))
  else Raise InvalidIndexError.

(** [df.iloc[rows]]: rows by position, each with its label. *)
Definition iloc (df : DataFrame R) (rows : list nat) : result (DataFrame R) :=
  or_raise IndexError (mapM (λ i, index df !! i) rows) ≫= λ labels : list Z,
  or_raise IndexError (mapM (λ i, values df !! i) rows) ≫= λ vals : list (list (cell R)),
  Ok (mkDataFrame (columns df) labels vals).

End Frames.

(** ** CSV text *)

(** The line feed, character 10. *)
Definition newline : string :=
  String (Ascii.Ascii false true false true false false false false) "".

(** The fields of a line, separated by commas. *)
Fixpoint join_fields (fields : list string) : string :=
  match fields with
  | [] => ""
  | [f] => f
  | f :: rest => f +:+ "," +:+ join_fields rest
  end.

Definition csv_line (fields : list string) : string :=
  join_fields fields +:+ newline.

Definition unlines (lines : list string) : string :=
  foldr (λ l acc, l +:+ acc) "" lines.

(** ** The runtime the notebook calls into *)

(** The routines of numpy, pandas and scikit-learn that the development
    does not look inside, and the file permissions of the machine. *)
Class Runtime : Type := {
  (** the numbers a cell or an array entry holds (int64 and float64 values
      other than NaN), and their order *)
  R : Type;
  Rle : R → R → Prop;
  (** the conversion of a number to float64: the nearest float64, which for
      an int64 beyond 2^53 is another number *)
  to_float64 : R → R;
  (** the mean of a non-empty float vector without NaN *)
  mean : list R → R;
  (** the tokenizer and type inference of [pd.read_csv] on a file's text *)
  parse_csv : string → result (DataFrame R);
  (** how [to_csv] prints a cell (float repr, quoting, the empty field for NaN) *)
  format_cell : cell R → string;
  (** the state of numpy's global generator, which nothing in the notebook seeds *)
  RandomState : Type;
  (** the singular value decomposition and projection behind [PCA.fit_transform],
      called with [random_state=None]: it may draw from the global generator *)
  pca_kernel : RandomState → nat → list (list R) → result (list (list R)) * RandomState;
  (** [RandomForestClassifier(n_estimators, random_state=seed).fit(X, y)
      .feature_importances_] *)
  forest_importances : Z → Z → ndarray R → list (cell R) → result (list R);
  (** [np.argsort] *)
  argsort : list R → list nat;
  (** [RandomState(seed).permutation(n)] *)
  rng_permutation : Z → nat → list nat;
  (** whether a path can be opened for writing *)
  writable : string → bool
}.

(** The contracts of those routines that the properties below rely on. *)

(** [read_csv] returns a well-formed frame, and no two of its columns have
    the same name (a repeated name of the header gets a suffix). *)
Definition parse_csv_wf `{Runtime} : Prop :=
  ∀ text df, parse_csv text = Ok df → wf_frame df ∧ NoDup (columns df).

(** The projection has one row per sample. *)
Definition pca_kernel_rows `{Runtime} : Prop :=
  ∀ g k X Y g', pca_kernel g k X = (Ok Y, g') → length Y = length X.

(** The projection has [k] columns, for the [k] the validation lets
    through. *)
Definition pca_kernel_columns `{Runtime} : Prop :=
  ∀ g k m X Y g',
    rectangular m X → k ≤ m →
    pca_kernel g k X = (Ok Y, g') → rectangular k Y.

(** A fitted forest has one importance per feature. *)
Definition forest_importances_length `{Runtime} : Prop :=
  ∀ n seed X y imp,
    forest_importances n seed X y = Ok imp → length imp = shape1 X.

(** [argsort] returns the positions of its argument, each once, in
    ascending order of the values (the order among equal values is not
    specified for the default quicksort). *)
Definition argsort_permutation `{Runtime} : Prop :=
  ∀ l, argsort l ≡ₚ seq 0 (length l).

Definition argsort_ascending `{Runtime} : Prop :=
  ∀ l i j a b x y,
    i ≤ j → argsort l !! i = Some a → argsort l !! j = Some b →
    l !! a = Some x → l !! b = Some y → Rle x y.

(** [permutation(n)] is a permutation of 0, ..., n-1. *)
Definition rng_permutation_permutation `{Runtime} : Prop :=
  ∀ seed n, rng_permutation seed n ≡ₚ seq 0 n.

(** ** sklearn.impute.SimpleImputer *)

Section Imputer.

Context `{Runtime}.

(** The non-missing entries of column [j]. *)
Definition observed (j : nat) (X : ndarray R) : list R :=
  omap (λ row, mjoin (row !! j)) X.

(** [SimpleImputer.fit] with [strategy='mean']: the statistic of a column is
    the mean of its non-missing entries, and NaN when it has none. *)
Definition statistic (j : nat) (X : ndarray R) : float R :=
  match observed j X with
  | [] => None
  | l => Some (mean l)
  end.

Definition statistics_ (m : nat) (X : ndarray R) : list (float R) :=
  (λ j, statistic j X) <$> seq 0 m.

(** The columns whose statistic is not NaN: [np.flatnonzero(valid_mask)]. *)
Definition valid_statistics_indexes (stats : list (float R)) : list nat :=
  filter (λ j, is_Some (mjoin (stats !! j))) (seq 0 (length stats)).

(** [statistics[valid_mask]]. *)
Definition valid_statistics (stats : list (float R)) : list R :=
  omap id stats.

(** Filling one row of the retained columns. *)
Definition fill_row (vstats : list R) (row : list (float R)) : list (float R) :=
  zip_with (λ c st, Some (default st c)) row vstats.

(** [SimpleImputer(missing_values=np.nan, strategy='mean').fit_transform] on
    an array of [m] columns: [keep_empty_features] is left at its default,
    so the columns without any observed value are discarded ("Columns which
    only contained missing values at fit are discarded upon transform"),
    and the missing cells of the others receive the column's statistic.
    Input validation rejects an array with no row or no column. *)
Definition impute (m : nat) (X : ndarray R) : result (ndarray R) :=
  if bool_decide (length X = 0 ∨ m = 0) then Raise ValueError
  else
    let stats := statistics_ m X in
    take_columns (valid_statistics_indexes stats) X ≫= λ X' : ndarray R,
    Ok (fill_row (valid_statistics stats) <$> X').

(** The conversion to float64 that scikit-learn's input validation does on
    a frame: a number is rounded to the nearest float64, a string cell makes
    it raise. *)
Definition float_of_cell (c : cell R) : result (float R) :=
  match c with
  | CNum r => Ok (Some (to_float64 r))
  | CNaN => Ok None
  | CStr _ => Raise ValueError
  end.

(** The same call on a frame: the cells are first converted to float64. *)
Definition SimpleImputer_fit_transform (df : DataFrame R) : result (ndarray R) :=
  mapM (mapM float_of_cell) (values df) ≫= λ X : ndarray R,
  impute (length (columns df)) X.

End Imputer.

(** ** The interpreter state and the calls that touch it *)

Section Pipelines.

Context `{Runtime}.

(** What a call of the notebook can read and change: the files, and the
    state of numpy's global generator. *)
Record world : Type := mkWorld {
  files : gmap string string;
  np_random : RandomState
}.

(** A Python computation: it returns or raises, and leaves a world. *)
Definition Py (A : Type) : Type := world → result A * world.

Global Instance Py_ret : MRet Py := λ A a w, (Ok a, w).
Global Instance Py_bind : MBind Py := λ A B f m w,
  match m w with
  | (Ok a, w') => f a w'
  | (Raise e, w') => (Raise e, w')
  end.

(** A call that touches neither the files nor the generator. *)
Definition pure {A} (r : result A) : Py A := λ w, (r, w).

(** [pd.read_csv(path)]. *)
Definition read_csv (path : string) : Py (DataFrame R) := λ w,
  match files w !! path with
  | None => (Raise FileNotFoundError, w)
  | Some text => (parse_csv text, w)
  end.

(** The text [to_csv] writes: the header line, then one line per row; with
    [index=True] every line starts with one more field, the row label. *)
Definition csv_text (with_index : bool) (df : DataFrame R) : string :=
  csv_line ((if with_index then [""] else []) ++ columns df)
  +:+ unlines (zip_with
        (λ l row, csv_line ((if with_index then [pretty l] else [])
                              ++ (format_cell <$> row)))
        (index df) (values df)).

(** [df.to_csv(path, index=with_index)]: the file at [path] is created or
    replaced.  The lines end with the line feed (pandas uses the platform's
    line terminator). *)
Definition to_csv (df : DataFrame R) (path : string) (with_index : bool)
  : Py unit := λ w,
  if writable path then
    (Ok (), mkWorld (<[path := csv_text with_index df]> (files w)) (np_random w))
  else (Raise OSError, w).

(** [PCA(n_components=k).fit_transform(X)]: input validation rejects NaN,
    an empty array and [k > min(n_samples, n_features)]; the decomposition
    itself is the runtime's. *)
Definition PCA_fit_transform (n_components : nat) (X : ndarray R)
  : Py (ndarray R) := λ w,
  match mapM (mapM id) X with
  | None => (Raise ValueError, w)
  | Some Xr =>
      let n_samples := length X in
      let n_features := shape1 X in
      if bool_decide (n_samples = 0 ∨ n_features = 0) then (Raise ValueError, w)
      else if bool_decide (n_components ≤ n_samples `min` n_features) then
        let '(Y, g) := pca_kernel (np_random w) n_components Xr in
        ((λ Y' : list (list R), (λ row : list R, Some <$> row) <$> Y') <$> Y,
         mkWorld (files w) g)
      else (Raise ValueError, w)
  end.

(** [ceil(0.1 * n)], the number of test samples.  The double nearest to 0.1
    is 0.1 * (1 + 2^-54): for a multiple of ten the product rounds to the
    exact tenth, and for another count the excess is far below the distance
    to the next integer, so the float [ceil] is the exact one for every row
    count a frame can have.  [n_test_of_binary64] below checks the agreement
    with the binary64 computation for the counts up to 7000. *)
Definition n_test_of (n_samples : nat) : nat := (n_samples + 9) / 10.

(** [train_test_split(X, y, test_size=0.1, random_state=seed)]: the first
    [n_test] positions of the permutation are the test rows, the next
    [n_train] the train rows. *)
Definition train_test_split (X y : DataFrame R) (seed : Z)
  : result (DataFrame R * DataFrame R * DataFrame R * DataFrame R) :=
  let n_samples := nrows X in
  if bool_decide (nrows y = n_samples) then
    let n_test := n_test_of n_samples in
    let n_train := n_samples - n_test in
    if bool_decide (n_train = 0) then Raise ValueError
    else
      let permutation := rng_permutation seed n_samples in
      let test := take n_test permutation in
      let train := take n_train (drop n_test permutation) in
      iloc X train ≫= λ X_train : DataFrame R,
      iloc X test ≫= λ X_test : DataFrame R,
      iloc y train ≫= λ y_train : DataFrame R,
      iloc y test ≫= λ y_test : DataFrame R,
      Ok (X_train, X_test, y_train, y_test)
  else Raise ValueError.

(** The six values both functions return. *)
Definition outputs : Type :=
  DataFrame R * DataFrame R * DataFrame R * DataFrame R * DataFrame R * DataFrame R.

(** ** The two functions of the notebook *)

Definition PC_names : list string := (λ i, "PC" +:+ pretty (i + 1)) <$> seq 0 6.

Definition process_heart_disease_data (input_filename output_filename_prefix : string)
  : Py outputs :=
  wine_quality ← read_csv input_filename;
  y ← pure (getitem wine_quality "quality");
  features ← pure (drop_column wine_quality "quality");
  X ← pure (SimpleImputer_fit_transform features);
  X_pca ← PCA_fit_transform 6 X;
  X_pca_df ← pure (DataFrame_of_array X_pca PC_names);
  let y_df := reset_index (DataFrame_of_Series y "quality") in
  combined_df ← pure (concat X_pca_df y_df);
  to_csv combined_df (output_filename_prefix +:+ ".csv") false;;
  split ← pure (train_test_split X_pca_df y_df 42);
  let '(X_train_pca, X_test_pca, y_train_pca, y_test_pca) := split in
  train_pca_df ← pure (concat X_train_pca y_train_pca);
  test_pca_df ← pure (concat X_test_pca y_test_pca);
  to_csv train_pca_df (output_filename_prefix +:+ "_train.csv") false;;
  to_csv test_pca_df (output_filename_prefix +:+ "_test.csv") false;;
  mret (X_pca_df, y_df, X_train_pca, X_test_pca, y_train_pca, y_test_pca).

Definition Feature_names (num_features : nat) : list string :=
  (λ i, "Feature_" +:+ pretty (i + 1)) <$> seq 0 num_features.

Definition feature_selection_and_split
    (input_filename output_filename_prefix : string) (n_estimators_num : Z)
  : Py outputs :=
  wine_quality ← read_csv input_filename;
  features ← pure (drop_column wine_quality "quality");
  X ← pure (SimpleImputer_fit_transform features);
  y ← pure (getitem wine_quality "quality");
  importances ← pure (forest_importances n_estimators_num 42 X (s_values y));
  let indices := reverse (argsort importances) in
  let num_features := length indices / 2 in
  let selected_indices := take num_features indices in
  X_selected ← pure (take_columns selected_indices X);
  X_selected_df ← pure (DataFrame_of_array X_selected (Feature_names num_features));
  let y_df := DataFrame_of_Series y "quality" in
  combined_df ← pure (concat X_selected_df y_df);
  to_csv combined_df (output_filename_prefix +:+ ".csv") false;;
  split ← pure (train_test_split X_selected_df y_df 42);
  let '(X_train_selected, X_test_selected, y_train_selected, y_test_selected) := split in
  train_selected_df ← pure (concat X_train_selected y_train_selected);
  test_selected_df ← pure (concat X_test_selected y_test_selected);
  to_csv train_selected_df (output_filename_prefix +:+ "_train.csv") false;;
  to_csv test_selected_df (output_filename_prefix +:+ "_test.csv") false;;
  mret (X_selected_df, y_df,
        X_train_selected, X_test_selected, y_train_selected, y_test_selected).

(** ** The cells that call the two functions *)

(** The top-level names the cells bind to frames. *)
Definition globals : Type := gmap string (DataFrame R).

(** [X, y, X_train, X_test, y_train, y_test = out], where the first target
    is named [X_name]: the targets are assigned from left to right. *)
Definition assign_outputs (X_name : string) (out : outputs) (g : globals)
  : globals :=
  let '(X, y, X_train, X_test, y_train, y_test) := out in
  <["y_test" := y_test]>
    (<["y_train" := y_train]>
       (<["X_test" := X_test]>
          (<["X_train" := X_train]>
             (<["y" := y]> (<[X_name := X]> g))))).

(** The two calling cells, run in order in a fresh kernel: a cell that
    raises stops the run. *)
Definition notebook : Py globals :=
  out ← process_heart_disease_data
           "processed_wine_quality.csv" "processed_wine_quality_pca";
  let g := assign_outputs "X_pca" out ∅ in
  out ← feature_selection_and_split
           "processed_wine_quality.csv"
           "processed_wine_quality_feature_selected" 250;
  mret (assign_outputs "X_selected" out g).

End Pipelines.

(** ** binary64 *)

(** The double nearest to 0.1, [0x1.999999999999ap-4]. *)
Definition binary64_tenth : spec_float :=
  S754_finite false 7205759403792794 (-56).

(** [math.ceil] of a non-negative finite double. *)
Definition binary64_ceil (x : spec_float) : Z :=
  match x with
  | S754_finite false m e =>
      if (0 <=? e)%Z then (Z.pos m * 2 ^ e)%Z
      else (- ((- Z.pos m) `div` 2 ^ (- e)))%Z
  | _ => 0%Z
  end.

(** [ceil(0.1 * n)] as Python computes it: the product is rounded to the
    nearest double before [ceil]. *)
Definition n_test_binary64 (n_samples : nat) : Z :=
  match n_samples with
  | O => 0%Z
  | S _ =>
      binary64_ceil
        (SFmul 53 1024 binary64_tenth
           (S754_finite false (Pos.of_nat n_samples) 0))
  end.

(** ** The vocabulary of the properties *)

Section Vocabulary.

Context `{Runtime}.

(** The positional selection of one row, when every index is in bounds. *)
Definition select {A} (js : list nat) (row : list A) : list A :=
  omap (λ j, row !! j) js.

(** The cell of row [i] and column [k] of an array. *)
Definition at_cell {A} (X : list (list A)) (i k : nat) : option A :=
  X !! i ≫= λ row, row !! k.

(** The columns that have at least one non-missing entry. *)
Definition retained (m : nat) (X : ndarray R) : list nat :=
  filter (λ j, observed j X ≠ []) (seq 0 m).

(** Column [k] of the result, read at the rows where column [j] of the
    input is not missing. *)
Definition at_observed (j : nat) (X : ndarray R) (k : nat) (Y : ndarray R)
  : list R :=
  omap (λ p, mjoin (p.1 !! j) ≫= λ _, mjoin (p.2 !! k)) (zip X Y).

(** The label frame of the PCA path. *)
Definition y_df_pca (y : Series R) : DataFrame R :=
  reset_index (DataFrame_of_Series y "quality").

(** The label frame of the feature selection path. *)
Definition y_df_selected (y : Series R) : DataFrame R :=
  DataFrame_of_Series y "quality".

(** The positions [feature_selection_and_split] selects from the
    importances: the first half of the descending order. *)
Definition num_features_of (importances : list R) : nat :=
  length (reverse (argsort importances)) / 2.

Definition selected_indices (importances : list R) : list nat :=
  take (num_features_of importances) (reverse (argsort importances)).

(** What a run of [feature_selection_and_split] has selected: [wine] is the
    frame read, [features] its feature columns, [X0] their float array, [X]
    the imputed array, [imp] the importances and [X_selected_df] the frame
    returned. *)
Definition top_half_selection (wine features : DataFrame R) (X0 X : ndarray R)
    (imp : list R) (X_selected_df : DataFrame R) : Prop :=
  let n_columns := length (columns wine) - 1 in
  let m := length (retained n_columns X0) in
  let sel := selected_indices imp in
  length (columns features) = n_columns
  ∧ shape1 X = m ∧ length imp = m
  ∧ length sel = m / 2
  ∧ columns X_selected_df = Feature_names (m / 2)
  ∧ rectangular (m / 2) (values X_selected_df)
  ∧ values X_selected_df = (λ row, cell_of_float <$> select sel row) <$> X
  ∧ NoDup sel ∧ Forall (λ a, a < m) sel
  ∧ (∀ i j a b x y, i ≤ j → sel !! i = Some a → sel !! j = Some b →
       imp !! a = Some x → imp !! b = Some y → Rle y x)
  ∧ (∀ a b x y, a ∈ sel → b ∉ sel →
       imp !! a = Some x → imp !! b = Some y → Rle y x)
  ∧ ((∀ j, j < n_columns → observed j X0 ≠ []) → m = n_columns).

(** The positions [train_test_split] gives to the test and train sets. *)
Definition test_positions (seed : Z) (n : nat) : list nat :=
  take (n_test_of n) (rng_permutation seed n).

Definition train_positions (seed : Z) (n : nat) : list nat :=
  take (n - n_test_of n) (drop (n_test_of n) (rng_permutation seed n)).

(** [X_train], [X_test], [y_train], [y_test] are [X] and [y] read at two
    lists of positions that together hold every position once; the test
    rows are a tenth of the rows, rounded up. *)
Definition split_partitions
    (X y X_train X_test y_train y_test : DataFrame R) : Prop :=
  ∃ test train : list nat,
    test ++ train ≡ₚ seq 0 (nrows X)
    ∧ iloc X train = Ok X_train ∧ iloc X test = Ok X_test
    ∧ iloc y train = Ok y_train ∧ iloc y test = Ok y_test
    ∧ values X_test ++ values X_train ≡ₚ values X
    ∧ values y_test ++ values y_train ≡ₚ values y
    ∧ nrows X_train + nrows X_test = nrows X
    ∧ nrows y_train = nrows X_train ∧ nrows y_test = nrows X_test
    ∧ nrows X_test = n_test_of (nrows X)
    ∧ nrows X ≤ 10 * nrows X_test < nrows X + 10.

(** A run of either function that returned [out] and left the world [w']. *)
Definition returns (inp P : string) (w : world) (out : outputs) (w' : world) : Prop :=
  process_heart_disease_data inp P w = (Ok out, w')
  ∨ ∃ n, feature_selection_and_split inp P n w = (Ok out, w').

(** The three paths a run writes. *)
Definition output_paths (P : string) : list string :=
  [P +:+ ".csv"; P +:+ "_train.csv"; P +:+ "_test.csv"].

(** A CSV text without row labels: the header, then a line per row. *)
Definition csv_of (names : list string) (rows : list (list (cell R))) : string :=
  csv_line names +:+ unlines ((λ row, csv_line (format_cell <$> row)) <$> rows).

(** Row [k] of the table [t] holds the features of row [ps !! k] of [X],
    followed by the label of the same position of [q]. *)
Definition aligned (X : DataFrame R) (q : list (cell R)) (ps : list nat)
    (t : DataFrame R) : Prop :=
  Forall2 (λ p row, ∃ f c, values X !! p = Some f ∧ q !! p = Some c
                           ∧ row = f ++ [c])
    ps (values t).

(** The files a failed run leaves: those before the run, with the full
    table written or not, and then the train table written or not. *)
Definition failure_stage (P : string) (w w' : world) : Prop :=
  files w' = files w
  ∨ (∃ df, files w' = <[P +:+ ".csv" := csv_text false df]> (files w))
  ∨ (∃ df df1,
       files w' = <[P +:+ "_train.csv" := csv_text false df1]>
                    (<[P +:+ ".csv" := csv_text false df]> (files w))).

(** The world after the files [ws] have been written, in order, and the
    global generator has been left in state [g]. *)
Definition after_writes (ws : list (string * string)) (g : RandomState)
    (w : world) : world :=
  mkWorld (foldl (λ fs pc, <[pc.1 := pc.2]> fs) (files w) ws) g.

(** A computation whose result and writes depend on the world only
    through the state of the global generator. *)
Definition reads_only_generator {A} (m : Py A) : Prop :=
  ∀ g, ∃ r ws g', ∀ w, np_random w = g → m w = (r, after_writes ws g' w).

(** A computation whose result and writes do not depend on the world, and
    which leaves the global generator alone. *)
Definition reads_nothing {A} (m : Py A) : Prop :=
  ∃ r ws, ∀ w, m w = (r, after_writes ws (np_random w) w).

(** The float64 entry that the conversion makes of a number or of a
    missing cell. *)
Definition as_float64 (c : cell R) : float R :=
  match c with
  | CNum r => Some (to_float64 r)
  | _ => None
  end.

(** A text cell. *)
Definition is_text (c : cell R) : bool :=
  match c with
  | CStr _ => true
  | _ => false
  end.

(** A cell that holds a number. *)
Definition is_number (c : cell R) : bool :=
  match c with
  | CNum _ => true
  | _ => false
  end.

(** The quality of the first input row labelled [l], and NaN when no row
    carries this label. *)
Definition quality_of_label (labels : list Z) (q : list (cell R)) (l : Z)
  : cell R :=
  match list_find (λ x, x = l) labels with
  | Some (i, _) => default CNaN (q !! i)
  | None => CNaN
  end.

(** The rows of [pd.concat([Xs, ys], axis=1)] spelled out, for feature rows
    [fs] of [width] cells whose row labels are the positions [ps], and label
    cells [qs] whose row labels are [ls].  First one row per feature row:
    its cells, followed by the label cell whose row label is the position
    of the feature row, or by a missing value when no label cell has it.
    Then one row per row label that is not among the positions: missing
    features, followed by the label cell. *)
Definition joined_rows (width : nat) (ps : list nat)
    (fs : list (list (cell R))) (ls : list Z) (qs : list (cell R))
  : list (list (cell R)) :=
  zip_with (λ p f, f ++ [quality_of_label ls qs (Z.of_nat p)]) ps fs
  ++ ((λ l, replicate width CNaN ++ [quality_of_label ls qs l])
        <$> filter (λ l, l ∉ (Z.of_nat <$> ps)) ls).

(** The table a run writes for the rows at the positions [ps]: the rows of
    the feature frame [X] at these positions, joined with the cells [q] of
    the quality column at these positions, which carry the row labels that
    the label frame [y] has there. *)
Definition written_table (X y : DataFrame R) (q : list (cell R))
    (ps : list nat) : list (list (cell R)) :=
  joined_rows (length (columns X)) ps
    (select ps (values X)) (select ps (index y)) (select ps q).

(** The same rows when every label cell stays with its feature row. *)
Definition subset_rows (X : DataFrame R) (q : list (cell R)) (ps : list nat)
  : list (list (cell R)) :=
  zip_with (λ f c, f ++ [c]) (select ps (values X)) (select ps q).

(** The rows of the full table of the PCA path when the decomposition has
    returned the scores [Y]: the scores of a row, then its quality. *)
Definition pca_rows (Y : list (list R)) (q : list (cell R))
  : list (list (cell R)) :=
  zip_with (λ scores c, (CNum <$> scores) ++ [c]) Y q.

(** What both functions do once they hold the feature frame and the label
    frame: from [pd.concat] on, the two bodies are the same statements. *)
Definition save_and_split (X_df y_df : DataFrame R) (P : string) : Py outputs :=
  combined_df ← pure (concat X_df y_df);
  to_csv combined_df (P +:+ ".csv") false;;
  split ← pure (train_test_split X_df y_df 42);
  let '(X_train, X_test, y_train, y_test) := split in
  train_df ← pure (concat X_train y_train);
  test_df ← pure (concat X_test y_test);
  to_csv train_df (P +:+ "_train.csv") false;;
  to_csv test_df (P +:+ "_test.csv") false;;
  mret (X_df, y_df, X_train, X_test, y_train, y_test).

End Vocabulary.

(** ** A small runtime, for running the model on examples *)

Module Toy.

Fixpoint split_on (sep : ascii) (s : string) : list string :=
  match s with
  | EmptyString => [""]
  | String a s' =>
      let r := split_on sep s' in
      if Ascii.eqb a sep then "" :: r
      else match r with
           | [] => [String a ""]
           | f :: fs => String a f :: fs
           end
  end.

Definition digit (a : ascii) : option Z :=
  let n := nat_of_ascii a in
  if (48 <=? n) && (n <=? 57) then Some (Z.of_nat (n - 48)) else None.

Fixpoint parse_digits (acc : Z) (s : string) : option Z :=
  match s with
  | EmptyString => Some acc
  | String a s' => digit a ≫= λ d, parse_digits (10 * acc + d) s'
  end.

Definition parse_int (s : string) : option Z :=
  match s with
  | EmptyString => None
  | String a s' =>
      if Ascii.eqb a "-"%char then
        (if decide (s' = "") then None else Z.opp <$> parse_digits 0 s')
      else parse_digits 0 s
  end.

Definition parse_field (s : string) : cell Z :=
  if decide (s = "") then CNaN
  else match parse_int s with
       | Some z => CNum z
       | None => CStr s
       end.

(** Integer CSV: the first line names the columns; when every data line has
    one field more than the header, the first field is the row label. *)
Definition parse_csv (text : string) : result (DataFrame Z) :=
  match filter (λ l, l ≠ "") (split_on "010"%char text) with
  | [] => Raise ParserError
  | header :: lines =>
      let names := split_on ","%char header in
      let rows := split_on ","%char <$> lines in
      if bool_decide (NoDup names) then
        if rectangularb (length names) rows then
          Ok (mkDataFrame names (RangeIndex (length rows)) (fmap parse_field <$> rows))
        else if rectangularb (S (length names)) rows then
          match mapM (λ row, head row ≫= parse_int) rows with
          | Some labels =>
              Ok (mkDataFrame names labels ((λ row, parse_field <$> tail row) <$> rows))
          | None => Raise ParserError
          end
        else Raise ParserError
      else Raise ParserError
  end.

Definition format_cell (c : cell Z) : string :=
  match c with
  | CNum z => pretty z
  | CNaN => ""
  | CStr s => s
  end.

Definition mean (l : list Z) : Z := (foldr Z.add 0 l `div` Z.of_nat (length l))%Z.

(** Stands for the projection: the first [k] coordinates, shifted by the
    state of the global generator, which it advances.  It draws from the
    generator at every size, as scikit-learn's randomized solver does on
    the inputs for which it is chosen (more than 500 rows or columns); the
    theorems hold of every runtime and do not look at it. *)
Definition pca_kernel (g : Z) (k : nat) (X : list (list Z))
  : result (list (list Z)) * Z :=
  (Ok ((λ row, (λ x, x + g)%Z <$> take k row) <$> X), (g + 1)%Z).

(** Stands for the forest: the importance of a column is the sum of its
    entries, negated for an even number of trees; it refuses fewer than one
    tree, a missing entry and a missing label. *)
Definition forest_importances (n seed : Z) (X : list (list (option Z)))
    (y : list (cell Z)) : result (list Z) :=
  if bool_decide (0 < n)%Z then
    if forallb (λ c, match c with CNaN => false | _ => true end) y then
      match mapM (mapM id) X with
      | Some Xr =>
          Ok ((λ j, ((if Z.even n then -1 else 1)
                     * foldr Z.add 0 ((λ row, default 0 (row !! j)) <$> Xr))%Z)
                <$> seq 0 (shape1 X))
      | None => Raise ValueError
      end
    else Raise ValueError
  else Raise ValueError.

Definition pair_le (p q : nat * Z) : Prop := (p.2 ≤ q.2)%Z.

Global Instance pair_le_dec p q : Decision (pair_le p q).
Proof. unfold pair_le. apply _. Defined.

Definition argsort (l : list Z) : list nat :=
  (λ p, p.1) <$> merge_sort pair_le (imap (λ i x, (i, x)) l).

Definition rng_permutation (seed : Z) (n : nat) : list nat :=
  reverse (rotate (Z.to_nat seed) (seq 0 n)).

Definition writable (path : string) : bool :=
  negb (String.prefix "/proc/" path).

(** The integer a binary64 stands for, when it is one. *)
Definition Z_of_binary64 (x : spec_float) : Z :=
  match x with
  | S754_finite s m e =>
      let v := if (0 <=? e)%Z then (Z.pos m * 2 ^ e)%Z
               else (Z.pos m `div` 2 ^ (- e))%Z in
      if s then (- v)%Z else v
  | _ => 0%Z
  end.

(** The nearest binary64 of an integer, ties to even: the product with one
    is rounded to 53 bits. *)
Definition to_float64 (z : Z) : Z :=
  match z with
  | Z0 => 0%Z
  | Zpos p =>
      Z_of_binary64 (SFmul 53 1024 (S754_finite false p 0) (S754_finite false 1 0))
  | Zneg p =>
      Z_of_binary64 (SFmul 53 1024 (S754_finite true p 0) (S754_finite false 1 0))
  end.

Global Instance runtime : Runtime :=
  Build_Runtime Z Z.le to_float64 mean parse_csv format_cell Z pca_kernel
    forest_importances argsort rng_permutation writable.

End Toy.

(** ** Inputs for running the model, and their runs *)

Module Inputs.

Import Toy.

(** The value of a call that returned. *)
Definition unwrap {A} (d : A) (r : result A) : A :=
  match r with
  | Ok a => a
  | Raise _ => d
  end.

Definition no_frame : DataFrame Z := mkDataFrame [] [] [].

(** Seven rows of seven features and a label; one cell is missing. *)
Definition wine_text : string :=
  unlines (csv_line <$>
    [ ["a"; "b"; "c"; "d"; "e"; "f"; "g"; "quality"];
      ["1"; "2"; "3"; "4"; "5"; "6"; "7"; "5"];
      ["2"; ""; "4"; "4"; "1"; "6"; "0"; "6"];
      ["0"; "1"; "0"; "1"; "0"; "1"; "0"; "5"];
      ["9"; "8"; "7"; "6"; "5"; "4"; "3"; "7"];
      ["1"; "1"; "1"; "1"; "1"; "1"; "1"; "5"];
      ["3"; "3"; "4"; "4"; "5"; "5"; "6"; "6"];
      ["3"; "3"; "4"; "4"; "5"; "5"; "6"; "6"] ]).

Definition wine_world : world := mkWorld {[ "wine.csv" := wine_text ]} 0%Z.

(** The values the calls of the two functions go through on it. *)
Definition wine_frame : DataFrame Z :=
  Eval vm_compute in unwrap no_frame (Toy.parse_csv wine_text).

Definition wine_features : DataFrame Z :=
  Eval vm_compute in unwrap no_frame (drop_column wine_frame "quality").

Definition wine_y : Series Z :=
  Eval vm_compute in unwrap (mkSeries "" [] []) (getitem wine_frame "quality").

Definition wine_X0 : ndarray Z :=
  Eval vm_compute in unwrap [] (mapM (mapM float_of_cell) (values wine_features)).

Definition wine_X : ndarray Z :=
  Eval vm_compute in unwrap [] (SimpleImputer_fit_transform wine_features).

Definition wine_importances : list Z :=
  Eval vm_compute in unwrap [] (forest_importances 3 42 wine_X (s_values wine_y)).

Definition pca_run : result outputs * world :=
  Eval vm_compute in process_heart_disease_data "wine.csv" "out" wine_world.

Definition selection_run (n : Z) : result outputs * world :=
  feature_selection_and_split "wine.csv" "out" n wine_world.

Definition selection_run_1 : result outputs * world :=
  Eval vm_compute in selection_run 1.

Definition selection_run_2 : result outputs * world :=
  Eval vm_compute in selection_run 2.

Definition selection_run_3 : result outputs * world :=
  Eval vm_compute in selection_run 3.

Definition sparse : ndarray R :=
  [ [Some 1; None]; [None; Some 4]; [Some 5; Some 8] ]%Z.

(** A column without any observed value is dropped: the result is narrower
    than the input. *)
Definition hollow : ndarray R := [ [Some 1; None]; [Some 3; None] ]%Z.

(** Four feature columns, the second of them without any value. *)
Definition gap_text : string :=
  unlines (csv_line <$>
    [ ["a"; "b"; "c"; "d"; "quality"];
      ["5"; ""; "3"; "1"; "3"];
      ["7"; ""; "4"; "2"; "4"] ]).

Definition gap_world : world := mkWorld {[ "gap.csv" := gap_text ]} 0%Z.

Definition gap_frame : DataFrame Z :=
  Eval vm_compute in unwrap no_frame (Toy.parse_csv gap_text).

Definition gap_features : DataFrame Z :=
  Eval vm_compute in unwrap no_frame (drop_column gap_frame "quality").

Definition gap_y : Series Z :=
  Eval vm_compute in unwrap (mkSeries "" [] []) (getitem gap_frame "quality").

Definition gap_X : ndarray Z :=
  Eval vm_compute in unwrap [] (SimpleImputer_fit_transform gap_features).

Definition gap_selection_run : result outputs * world :=
  Eval vm_compute in feature_selection_and_split "gap.csv" "out" 1 gap_world.

(** Every data line has one field more than the header, so [read_csv]
    takes the first field of each line as the row label: the labels are 1
    and 0, in this order. *)
Definition shuffled_text : string :=
  unlines (csv_line <$>
    [ ["a"; "b"; "quality"];
      ["1"; "5"; "1"; "3"];
      ["0"; "7"; "2"; "4"] ]).

Definition shuffled_world : world :=
  mkWorld {[ "shuffled.csv" := shuffled_text ]} 0%Z.

Definition shuffled_frame : DataFrame Z :=
  Eval vm_compute in unwrap no_frame (Toy.parse_csv shuffled_text).

Definition shuffled_y : Series Z :=
  Eval vm_compute in
    unwrap (mkSeries "" [] []) (getitem shuffled_frame "quality").

Definition shuffled_selection_run : result outputs * world :=
  Eval vm_compute in
    feature_selection_and_split "shuffled.csv" "out" 1 shuffled_world.

Definition reseeded_world : world := mkWorld (files wine_world) 1%Z.

Definition pca_run_reseeded : result outputs * world :=
  Eval vm_compute in process_heart_disease_data "wine.csv" "out" reseeded_world.

(** One data row. *)
Definition single_text : string :=
  unlines (csv_line <$> [ ["a"; "b"; "quality"]; ["5"; "1"; "3"] ]).

Definition single_world : world := mkWorld {[ "single.csv" := single_text ]} 0%Z.

Definition single_frame : DataFrame Z :=
  Eval vm_compute in unwrap no_frame (Toy.parse_csv single_text).

Definition single_features : DataFrame Z :=
  Eval vm_compute in unwrap no_frame (drop_column single_frame "quality").

Definition single_y : Series Z :=
  Eval vm_compute in unwrap (mkSeries "" [] []) (getitem single_frame "quality").

Definition single_X : ndarray Z :=
  Eval vm_compute in unwrap [] (SimpleImputer_fit_transform single_features).

Definition single_importances : list Z :=
  Eval vm_compute in
    unwrap [] (forest_importances 1 42 single_X (s_values single_y)).

Definition single_selection_run : result outputs * world :=
  Eval vm_compute in
    feature_selection_and_split "single.csv" "out" 1 single_world.

(** Two data lines that start with the same row label. *)
Definition twin_text : string :=
  unlines (csv_line <$>
    [ ["a"; "b"; "quality"];
      ["1"; "5"; "1"; "3"];
      ["1"; "7"; "2"; "4"] ]).

Definition twin_world : world := mkWorld {[ "twin.csv" := twin_text ]} 0%Z.

Definition twin_frame : DataFrame Z :=
  Eval vm_compute in unwrap no_frame (Toy.parse_csv twin_text).

Definition twin_features : DataFrame Z :=
  Eval vm_compute in unwrap no_frame (drop_column twin_frame "quality").

Definition twin_y : Series Z :=
  Eval vm_compute in unwrap (mkSeries "" [] []) (getitem twin_frame "quality").

Definition twin_X : ndarray Z :=
  Eval vm_compute in unwrap [] (SimpleImputer_fit_transform twin_features).

Definition twin_importances : list Z :=
  Eval vm_compute in
    unwrap [] (forest_importances 1 42 twin_X (s_values twin_y)).

(** A feature column that holds a word. *)
Definition worded_text : string :=
  unlines (csv_line <$>
    [ ["a"; "b"; "quality"];
      ["1"; "low"; "3"];
      ["2"; "5"; "4"] ]).

Definition worded_world : world :=
  mkWorld {[ "worded.csv" := worded_text ]} 0%Z.

Definition worded_frame : DataFrame Z :=
  Eval vm_compute in unwrap no_frame (Toy.parse_csv worded_text).

Definition worded_features : DataFrame Z :=
  Eval vm_compute in unwrap no_frame (drop_column worded_frame "quality").

(** The file the calling cells read. *)
Definition notebook_world : world :=
  mkWorld {[ "processed_wine_quality.csv" := wine_text ]} 0%Z.

Definition notebook_globals : globals :=
  Eval vm_compute in unwrap ∅ (notebook notebook_world).1.

Definition notebook_end : world :=
  Eval vm_compute in (notebook notebook_world).2.

Definition pca_run_unwritable : result outputs * world :=
  Eval vm_compute in
    process_heart_disease_data "wine.csv" "/proc/out" wine_world.

Definition sparse_imputed : ndarray R :=
  Eval vm_compute in unwrap [] (impute 2 sparse).

End Inputs.

(** * Properties *)

(** ** Results *)

Lemma bind_Ok {A B} (f : A → result B) (r : result A) (b : B) :
  r ≫= f = Ok b ↔ ∃ a, r = Ok a ∧ f a = Ok b.
Proof.
  destruct r as [a|e]; unfold mbind, result_bind.
  - split; [eauto | intros (a' & Ha & ?); by simplify_eq].
  - split; [done | by intros (? & ? & ?)].
Qed.

Lemma bind_Raise {A B} (f : A → result B) (r : result A) (e : exn) :
  r ≫= f = Raise e ↔ r = Raise e ∨ ∃ a, r = Ok a ∧ f a = Raise e.
Proof.
  destruct r as [a|e']; unfold mbind, result_bind.
  - split; [eauto | intros [? | (a' & Ha & ?)]; by simplify_eq].
  - split; [intros [= ->]; by left | by intros [[= ->] | (? & ? & ?)]].
Qed.

Lemma or_raise_Ok {A} e (o : option A) a : or_raise e o = Ok a ↔ o = Some a.
Proof. destruct o; simpl; split; congruence. Qed.

(** ** Lists *)

Lemma filter_ext_elem_of {A} (P1 P2 : A → Prop)
    `{!∀ x, Decision (P1 x), !∀ x, Decision (P2 x)} (l : list A) :
  (∀ x, x ∈ l → P1 x ↔ P2 x) → filter P1 l = filter P2 l.
Proof.
  induction l as [|a l IH]; intros HP; [done|].
  rewrite !filter_cons.
  rewrite IH by (intros x Hx; apply HP; by right).
  apply decide_ext, HP. by left.
Qed.

Lemma filter_all {A} (P : A → Prop) `{!∀ x, Decision (P x)} (l : list A) :
  Forall P l → filter P l = l.
Proof.
  induction 1 as [|a l Ha _ IH]; [done|].
  by rewrite filter_cons_True, IH.
Qed.

(** ** Column selection *)

Section Selection.

Context {A : Type}.
Implicit Types (X : list (list A)) (js : list nat).

Lemma mapM_lookup_select js (row : list A) :
  Forall (λ j, j < length row) js →
  mapM (λ j, row !! j) js = Some (select js row).
Proof.
  intros Hjs. apply mapM_Some. unfold select.
  induction Hjs as [|j js Hj _ IH]; simpl; [constructor|].
  destruct (lookup_lt_is_Some_2 row j Hj) as [x Hx].
  rewrite Hx. by constructor.
Qed.

Lemma take_columns_Ok m js X :
  rectangular m X → Forall (λ j, j < m) js →
  take_columns js X = Ok (select js <$> X).
Proof.
  intros HX Hjs. unfold take_columns.
  apply or_raise_Ok, mapM_Some, Forall2_fmap_r, Forall_Forall2_diag.
  eapply Forall_impl; [exact HX|]. intros row Hrow; simpl in *.
  apply mapM_lookup_select. by rewrite Hrow.
Qed.

Lemma take_columns_Ok_inv js X Y :
  take_columns js X = Ok Y →
  Forall2 (λ row row', Forall2 (λ j x, row !! j = Some x) js row') X Y.
Proof.
  unfold take_columns. intros HY%or_raise_Ok%mapM_Some.
  eapply Forall2_impl; [exact HY|]. intros row row' Hr; simpl in *.
  by apply mapM_Some.
Qed.

Lemma length_select js (row : list A) :
  Forall (λ j, j < length row) js → length (select js row) = length js.
Proof.
  intros Hjs. apply mapM_lookup_select, mapM_Some, Forall2_length in Hjs. done.
Qed.

Lemma lookup_select js (row : list A) k j :
  Forall (λ j, j < length row) js →
  js !! k = Some j → select js row !! k = row !! j.
Proof.
  intros Hjs Hk. pose proof (mapM_lookup_select _ _ Hjs) as HS%mapM_Some.
  destruct (Forall2_lookup_l _ _ _ _ _ HS Hk) as (x & -> & ->). done.
Qed.

End Selection.

(** ** Imputation *)

Section ImputerProps.

Context `{Runtime}.
Implicit Types (X : ndarray R) (row : list (float R)).

Lemma statistic_is_Some j X : is_Some (statistic j X) ↔ observed j X ≠ [].
Proof.
  unfold statistic. destruct (observed j X); split; done.
Qed.

Lemma statistic_Some j X :
  observed j X ≠ [] → statistic j X = Some (mean (observed j X)).
Proof. unfold statistic. by destruct (observed j X). Qed.

Lemma length_statistics_ m X : length (statistics_ m X) = m.
Proof. unfold statistics_. by rewrite length_fmap, length_seq. Qed.

Lemma valid_statistics_indexes_retained m X :
  valid_statistics_indexes (statistics_ m X) = retained m X.
Proof.
  unfold valid_statistics_indexes, retained. rewrite length_statistics_.
  apply filter_ext_elem_of. intros j Hj.
  apply elem_of_seq in Hj. unfold statistics_.
  rewrite list_lookup_fmap, lookup_seq_lt by lia. simpl.
  apply statistic_is_Some.
Qed.

Lemma valid_statistics_retained m X :
  valid_statistics (statistics_ m X) = (λ j, mean (observed j X)) <$> retained m X.
Proof.
  unfold valid_statistics, statistics_, retained.
  induction (seq 0 m) as [|j js IH]; [done|]. simpl.
  rewrite filter_cons. case_decide as Hj.
  - rewrite statistic_Some by done. simpl. by f_equal.
  - unfold statistic at 1. by rewrite Hj.
Qed.

Lemma retained_lt m X j : j ∈ retained m X → j < m.
Proof.
  unfold retained. intros [_ Hj%elem_of_seq]%list_elem_of_filter. lia.
Qed.

(** What [impute] computes on a rectangular array with a row and a column. *)
Lemma impute_Ok m X :
  X ≠ [] → m ≠ 0 → rectangular m X →
  impute m X =
    Ok ((λ row, fill_row ((λ j, mean (observed j X)) <$> retained m X)
                  (select (retained m X) row)) <$> X).
Proof.
  intros HX Hm Hrect. unfold impute.
  rewrite bool_decide_false by (intros [?%nil_length_inv | ?]; done).
  simpl. rewrite valid_statistics_indexes_retained, valid_statistics_retained.
  rewrite (take_columns_Ok m); [| done |].
  - simpl. by rewrite <-list_fmap_compose.
  - apply Forall_forall. apply retained_lt.
Qed.

Lemma fill_row_is_Some (vstats : list R) row : Forall is_Some (fill_row vstats row).
Proof.
  unfold fill_row. revert vstats.
  induction row as [|c row IH]; intros [|st vstats]; simpl; try constructor; eauto.
Qed.

Lemma length_fill_row (vstats : list R) row :
  length row = length vstats → length (fill_row vstats row) = length vstats.
Proof. intros Hl. unfold fill_row. rewrite length_zip_with. lia. Qed.

Lemma retained_all m X :
  (∀ j, j < m → observed j X ≠ []) → retained m X = seq 0 m.
Proof.
  intros Hobs. unfold retained. apply filter_all, Forall_forall.
  intros j Hj%elem_of_seq. apply Hobs. lia.
Qed.

(** The shape of what [impute] returns. *)
Lemma impute_shape m X :
  X ≠ [] → m ≠ 0 → rectangular m X →
  ∃ Y, impute m X = Ok Y ∧ length Y = length X
    ∧ rectangular (length (retained m X)) Y.
Proof.
  intros HX Hm Hrect. eexists. split; [by apply impute_Ok|].
  split; [by rewrite length_fmap|].
  apply Forall_fmap. eapply Forall_impl; [exact Hrect|].
  intros row Hrow; simpl in *.
  rewrite length_fill_row; rewrite ?length_fmap, ?length_select; try done.
  all: apply Forall_forall; intros j Hj%retained_lt; lia.
Qed.

Lemma omap_zip_fmap_guard {A B} (g1 : A → option B) (g2 : A → option B)
    (f : A → A) (l : list A) :
  Forall (λ a, ∀ v, g1 a = Some v → g2 (f a) = Some v) l →
  omap (λ p, g1 p.1 ≫= λ _, g2 p.2) (zip l (f <$> l)) = omap g1 l.
Proof.
  induction 1 as [|a l Ha _ IH]; [done|]. cbn.
  destruct (g1 a) as [v|] eqn:Hg; cbn.
  - rewrite (Ha v eq_refl). f_equal. exact IH.
  - exact IH.
Qed.

End ImputerProps.

Section ImputerSpec.

Context `{Runtime}.

Lemma impute_cell m (X : ndarray R) i row k j :
  rectangular m X → X !! i = Some row → retained m X !! k = Some j →
  ∃ c, row !! j = Some c ∧
    at_cell ((λ row, fill_row ((λ j, mean (observed j X)) <$> retained m X)
                       (select (retained m X) row)) <$> X) i k
    = Some (Some (default (mean (observed j X)) c)).
Proof.
  intros Hrect Hi Hk.
  assert (length row = m) as Hlen.
  { eapply (Forall_lookup_1 _ _ _ _ Hrect Hi). }
  assert (j < m) as Hj.
  { apply (retained_lt m X), list_elem_of_lookup. eauto. }
  destruct (lookup_lt_is_Some_2 row j) as [c Hc]; [lia|].
  exists c. split; [done|].
  unfold at_cell. rewrite list_lookup_fmap, Hi. simpl.
  unfold fill_row. rewrite lookup_zip_with.
  rewrite (lookup_select _ _ k j), Hc; [| |done].
  - simpl. by rewrite list_lookup_fmap, Hk.
  - apply Forall_forall. intros j' Hj'%retained_lt. lia.
Qed.


End ImputerSpec.

(** ** Python computations *)

Section PyProps.

Context `{Runtime}.

Lemma Py_bind_Ok {A B} (m : Py A) (f : A → Py B) w b w' :
  (m ≫= f) w = (Ok b, w') ↔ ∃ a w1, m w = (Ok a, w1) ∧ f a w1 = (Ok b, w').
Proof.
  unfold mbind, Py_bind. destruct (m w) as [[a|e] w1]; split.
  - eauto.
  - intros (a' & w1' & [= <- <-] & Hf). done.
  - done.
  - intros (a' & w1' & [=] & _).
Qed.

Lemma Py_bind_Raise {A B} (m : Py A) (f : A → Py B) w e w' :
  (m ≫= f) w = (Raise e, w') ↔
  m w = (Raise e, w') ∨ ∃ a w1, m w = (Ok a, w1) ∧ f a w1 = (Raise e, w').
Proof.
  unfold mbind, Py_bind. destruct (m w) as [[a|e'] w1]; split.
  - eauto.
  - intros [[=] | (a' & w1' & [= <- <-] & Hf)]. done.
  - intros [= <- <-]. by left.
  - intros [[= <- <-] | (a' & w1' & [=] & _)]. done.
Qed.

Lemma pure_inv {A} (r x : result A) w w1 : pure r w = (x, w1) ↔ r = x ∧ w1 = w.
Proof. unfold pure. split; [by intros [= <- <-] | by intros [<- ->]]. Qed.

Lemma read_csv_Ok path w df w1 :
  read_csv path w = (Ok df, w1) ↔
  ∃ text, files w !! path = Some text ∧ parse_csv text = Ok df ∧ w1 = w.
Proof.
  unfold read_csv. destruct (files w !! path) as [text|]; split.
  - intros [= Hp <-]. eauto.
  - intros (text' & [= <-] & Hp & ->). by rewrite Hp.
  - done.
  - by intros (text' & [=] & _).
Qed.

Lemma to_csv_Ok df path b w u w1 :
  to_csv df path b w = (Ok u, w1) ↔
  writable path = true ∧
  w1 = mkWorld (<[path := csv_text b df]> (files w)) (np_random w).
Proof.
  unfold to_csv. destruct (writable path); destruct u; split.
  - by intros [= <-].
  - by intros [_ ->].
  - done.
  - by intros [[=] _].
Qed.

Lemma PCA_fit_transform_Ok k (X : ndarray R) w Y w1 :
  PCA_fit_transform k X w = (Ok Y, w1) ↔
  ∃ Xr Yr g,
    mapM (mapM id) X = Some Xr ∧ X ≠ [] ∧ shape1 X ≠ 0 ∧
    k ≤ length X `min` shape1 X ∧
    pca_kernel (np_random w) k Xr = (Ok Yr, g) ∧
    Y = (λ row : list R, Some <$> row) <$> Yr ∧
    w1 = mkWorld (files w) g.
Proof.
  unfold PCA_fit_transform.
  destruct (mapM (mapM id) X) as [Xr|]; [|split; [done | by intros (?&?&?&[=]&_)]].
  case_bool_decide as Hempty.
  { split; [done|]. intros (?&?&?&_&HX&Hs&_).
    destruct Hempty as [Hl%nil_length_inv | ?]; done. }
  case_bool_decide as Hk.
  - destruct (pca_kernel (np_random w) k Xr) as [[Yr|e] g] eqn:Hkern; simpl; split.
    + intros [= <- <-]. exists Xr, Yr, g. split_and!; try done.
      * intros ->. apply Hempty. by left.
      * intros ?. apply Hempty. by right.
    + intros (?&?&?&[= <-]&_&_&_&Hk'&->&->). rewrite Hkern in Hk'. by simplify_eq.
    + done.
    + intros (?&?&?&[= <-]&_&_&_&Hk'&_). rewrite Hkern in Hk'. by simplify_eq.
  - split; [done|]. by intros (?&?&?&_&_&_&?&_).
Qed.

End PyProps.

(** One step of a successful run. *)
Ltac py_inv H :=
  let a := fresh "a" in
  let w1 := fresh "w" in
  let Hstep := fresh "Hstep" in
  apply Py_bind_Ok in H as (a & w1 & Hstep & H);
  first
    [ apply pure_inv in Hstep as [Hstep ->]
    | apply read_csv_Ok in Hstep as (? & ? & Hstep & ->)
    | apply to_csv_Ok in Hstep as [Hstep ->]
    | apply PCA_fit_transform_Ok in Hstep as (? & ? & ? & ? & ? & ? & ? & Hstep & -> & ->) ].

Section PcaRun.

Context `{Runtime}.

(** What a run of [process_heart_disease_data] that returns went through. *)
Lemma process_heart_disease_data_Ok inp P w out w' :
  process_heart_disease_data inp P w = (Ok out, w') →
  ∃ text wine y features X Xr Yr g X_pca_df combined_df
    X_train X_test y_train y_test train_df test_df,
    files w !! inp = Some text
    ∧ parse_csv text = Ok wine
    ∧ getitem wine "quality" = Ok y
    ∧ drop_column wine "quality" = Ok features
    ∧ SimpleImputer_fit_transform features = Ok X
    ∧ mapM (mapM id) X = Some Xr
    ∧ 6 ≤ length X `min` shape1 X
    ∧ pca_kernel (np_random w) 6 Xr = (Ok Yr, g)
    ∧ DataFrame_of_array ((λ row : list R, Some <$> row) <$> Yr) PC_names
        = Ok X_pca_df
    ∧ concat X_pca_df (y_df_pca y) = Ok combined_df
    ∧ train_test_split X_pca_df (y_df_pca y) 42
        = Ok (X_train, X_test, y_train, y_test)
    ∧ concat X_train y_train = Ok train_df
    ∧ concat X_test y_test = Ok test_df
    ∧ writable (P +:+ ".csv") = true
    ∧ writable (P +:+ "_train.csv") = true
    ∧ writable (P +:+ "_test.csv") = true
    ∧ out = (X_pca_df, y_df_pca y, X_train, X_test, y_train, y_test)
    ∧ w' = mkWorld
             (<[P +:+ "_test.csv" := csv_text false test_df]>
                (<[P +:+ "_train.csv" := csv_text false train_df]>
                   (<[P +:+ ".csv" := csv_text false combined_df]> (files w))))
             g.
Proof.
  unfold process_heart_disease_data. intros Hrun.
  repeat first
    [ py_inv Hrun
    | match type of Hrun with
      | context [match ?s with pair _ _ => _ end] => destruct s as [[[? ?] ?] ?]
      end ].
  unfold mret, Py_ret in Hrun. simplify_eq/=.
  repeat eexists; eauto.
Qed.

End PcaRun.

(** ** Frames *)

Section FrameProps.

Context {R : Type}.
Implicit Types (df a b : DataFrame R) (s : Series R).

Lemma mapM_result_Ok {A B} (f : A → result B) (l : list A) (k : list B) :
  mapM f l = Ok k ↔ Forall2 (λ x y, f x = Ok y) l k.
Proof.
  revert k. induction l as [|x l IH]; intros k; simpl.
  - split; [intros [= <-]; constructor | by intros ->%Forall2_nil_inv_l].
  - split.
    + intros (y & Hy & (k' & Hk' & [= <-])%bind_Ok)%bind_Ok.
      constructor; [done | by apply IH].
    + intros (y & k' & Hy & Hk' & ->)%Forall2_cons_inv_l.
      apply bind_Ok. exists y. split; [done|].
      apply bind_Ok. exists k'. split; [by apply IH | done].
Qed.

Lemma rectangularb_spec {A} m (X : list (list A)) :
  rectangularb m X = true ↔ rectangular m X.
Proof.
  unfold rectangularb, rectangular.
  induction X as [|row X IH]; simpl; [by split; [constructor|]|].
  rewrite andb_true_iff, IH, Nat.eqb_eq, Forall_cons. done.
Qed.

Lemma shape1_rectangular {A} m (X : list (list A)) :
  rectangular m X → X ≠ [] → shape1 X = m.
Proof. intros HX Hne. destruct X as [|row X]; [done|]. by inv HX. Qed.

Lemma length_RangeIndex n : length (RangeIndex n) = n.
Proof. unfold RangeIndex. by rewrite length_fmap, length_seq. Qed.

Lemma lookup_RangeIndex n i : i < n → RangeIndex n !! i = Some (Z.of_nat i).
Proof.
  intros Hi. unfold RangeIndex. by rewrite list_lookup_fmap, lookup_seq_lt.
Qed.

Lemma NoDup_RangeIndex n : NoDup (RangeIndex n).
Proof.
  unfold RangeIndex. apply NoDup_fmap; [apply _ | apply NoDup_seq].
Qed.

Lemma DataFrame_of_array_Ok (data : ndarray R) cols df :
  DataFrame_of_array data cols = Ok df ↔
  rectangular (length cols) data ∧
  df = mkDataFrame cols (RangeIndex (length data))
         ((λ row : list (float R), cell_of_float <$> row) <$> data).
Proof.
  unfold DataFrame_of_array.
  destruct (rectangularb (length cols) data) eqn:Hr.
  - apply rectangularb_spec in Hr. split; [by intros [= <-] | by intros [_ ->]].
  - split; [done|]. intros [Hr'%rectangularb_spec _]. congruence.
Qed.

Lemma DataFrame_of_array_wf (data : ndarray R) cols df :
  DataFrame_of_array data cols = Ok df → wf_frame df.
Proof.
  intros [Hr ->]%DataFrame_of_array_Ok. split; simpl.
  - by rewrite length_RangeIndex, length_fmap.
  - apply Forall_fmap. eapply Forall_impl; [exact Hr|].
    intros row Hrow; simpl. by rewrite length_fmap.
Qed.

Lemma getitem_Ok df c s :
  getitem df c = Ok s →
  c ∈ columns df ∧ s_name s = c ∧ s_index s = index df ∧
  length (s_values s) = nrows df.
Proof.
  unfold getitem.
  destruct (list_find (λ x, x = c) (columns df)) as [[j x]|] eqn:Hf; [|done].
  intros [= <-]. simpl. apply list_find_Some in Hf as (Hj & -> & _).
  split_and!; [by eapply list_elem_of_lookup_2 | done | done |].
  by rewrite length_fmap.
Qed.

Lemma getitem_Raise df c e :
  getitem df c = Raise e → e = KeyError ∧ c ∉ columns df.
Proof.
  unfold getitem.
  destruct (list_find (λ x, x = c) (columns df)) as [[j x]|] eqn:Hf; [done|].
  intros [= <-]. split; [done|].
  apply list_find_None in Hf. intros Hc.
  by eapply Forall_forall in Hf.
Qed.

Lemma drop_column_Ok df c df' :
  drop_column df c = Ok df' →
  c ∈ columns df ∧ index df' = index df ∧ nrows df' = nrows df ∧
  columns df' = filter (λ x, x ≠ c) (columns df).
Proof.
  unfold drop_column. case_decide; [|done]. intros [= <-]. simpl.
  split_and!; try done. unfold nrows. simpl. by rewrite length_fmap.
Qed.

Lemma drop_column_Raise df c e :
  drop_column df c = Raise e → e = KeyError ∧ c ∉ columns df.
Proof. unfold drop_column. case_decide; [done|]. by intros [= <-]. Qed.

Lemma length_filter_zip_fst {A} (c : string) (names : list string) (row : list A) :
  length row = length names →
  length (filter (λ p : string * A, p.1 ≠ c) (zip names row))
  = length (filter (λ x, x ≠ c) names).
Proof.
  revert row. induction names as [|x names IH]; intros [|a row] Hl;
    simplify_eq/=; [done|].
  rewrite !filter_cons. simpl. case_decide; simpl; rewrite IH; done.
Qed.

Lemma drop_column_wf df c df' :
  wf_frame df → drop_column df c = Ok df' → wf_frame df'.
Proof.
  intros [Hi Hw]. unfold drop_column. case_decide; [|done].
  intros [= <-]. split; simpl.
  - by rewrite length_fmap.
  - apply Forall_fmap. eapply Forall_impl; [exact Hw|].
    intros row Hrow; simpl in *. rewrite length_fmap.
    by apply length_filter_zip_fst.
Qed.

Lemma iloc_Ok df rows df' :
  iloc df rows = Ok df' ↔
  ∃ labels vals,
    Forall2 (λ i l, index df !! i = Some l) rows labels ∧
    Forall2 (λ i r, values df !! i = Some r) rows vals ∧
    df' = mkDataFrame (columns df) labels vals.
Proof.
  unfold iloc. rewrite bind_Ok. split.
  - intros (labels & Hl%or_raise_Ok%mapM_Some & (vals & Hv%or_raise_Ok%mapM_Some & [= <-])%bind_Ok).
    eauto.
  - intros (labels & vals & Hl & Hv & ->). exists labels.
    split; [by apply or_raise_Ok, mapM_Some|].
    apply bind_Ok. exists vals. split; [by apply or_raise_Ok, mapM_Some | done].
Qed.

End FrameProps.

Section ConcatProps.

Context {R : Type}.
Implicit Types (df a b : DataFrame R) (s : Series R).

Lemma concat_same_index a b :
  index a = index b →
  concat a b = Ok (mkDataFrame (columns a ++ columns b) (index a)
                     (zip_with app (values a) (values b))).
Proof. intros Hi. unfold concat. by rewrite decide_True. Qed.

Lemma concat_columns a b (c : DataFrame R) :
  concat a b = Ok c → columns c = columns a ++ columns b.
Proof.
  unfold concat. repeat case_decide; intros [= <-]; done.
Qed.

Lemma rectangular_zip_with_app {A} m1 m2 (X1 X2 : list (list A)) :
  rectangular m1 X1 → rectangular m2 X2 →
  rectangular (m1 + m2) (zip_with app X1 X2).
Proof.
  intros H1. revert X2. unfold rectangular.
  induction H1 as [|r1 X1 Hr1 _ IH]; intros [|r2 X2] H2; simpl;
    try constructor.
  - inv H2. by rewrite length_app.
  - inv H2. by apply IH.
Qed.

Lemma reindex_rectangular labels df :
  wf_frame df → rectangular (length (columns df)) (reindex labels df).
Proof.
  intros [_ Hw]. unfold reindex. apply Forall_fmap, Forall_forall.
  intros l _. simpl.
  destruct (list_find _ _) as [[i x]|]; [|by rewrite length_replicate].
  destruct (values df !! i) as [row|] eqn:Hrow; simpl.
  - by eapply (Forall_lookup_1 _ _ _ _ Hw).
  - by rewrite length_replicate.
Qed.

Lemma length_reindex labels df : length (reindex labels df) = length labels.
Proof. unfold reindex. by rewrite length_fmap. Qed.

Lemma concat_wf a b (c : DataFrame R) :
  wf_frame a → wf_frame b → concat a b = Ok c → wf_frame c.
Proof.
  intros Ha Hb. unfold concat. destruct Ha as [Hia Hwa], Hb as [Hib Hwb].
  repeat case_decide; intros [= <-]; split; simpl.
  - rewrite length_zip_with.
    assert (length (index a) = length (index b)) by congruence. lia.
  - rewrite length_app. by apply rectangular_zip_with_app.
  - rewrite length_zip_with, !length_reindex. lia.
  - rewrite length_app.
    apply rectangular_zip_with_app; by apply reindex_rectangular.
Qed.

Lemma DataFrame_of_Series_wf s c :
  length (s_index s) = length (s_values s) → wf_frame (DataFrame_of_Series s c).
Proof.
  intros Hl. unfold DataFrame_of_Series. case_decide; split; simpl.
  - by rewrite length_fmap.
  - by apply Forall_fmap, Forall_forall.
  - done.
  - constructor.
Qed.

Lemma columns_DataFrame_of_Series s c : columns (DataFrame_of_Series s c) = [c].
Proof. unfold DataFrame_of_Series. by case_decide. Qed.

Lemma DataFrame_of_Series_named s c :
  s_name s = c →
  DataFrame_of_Series s c
  = mkDataFrame [c] (s_index s) ((λ v, [v]) <$> s_values s).
Proof. intros Hn. unfold DataFrame_of_Series. by rewrite decide_True. Qed.

Lemma reset_index_wf df : wf_frame df → wf_frame (reset_index df).
Proof.
  intros [Hi Hw]. split; simpl; [|done]. by rewrite length_RangeIndex.
Qed.

Lemma getitem_wf df c s :
  wf_frame df → getitem df c = Ok s → length (s_index s) = length (s_values s).
Proof.
  intros [Hi _] (_ & _ & -> & ->)%getitem_Ok. done.
Qed.

Lemma iloc_wf df rows df' : wf_frame df → iloc df rows = Ok df' → wf_frame df'.
Proof.
  intros [Hi Hw] (labels & vals & Hl & Hv & ->)%iloc_Ok. split; simpl.
  - apply Forall2_length in Hl, Hv. congruence.
  - apply Forall_lookup. intros k row Hk.
    destruct (Forall2_lookup_r _ _ _ _ _ Hv Hk) as (i & _ & Hrow).
    by eapply (Forall_lookup_1 _ _ _ _ Hw).
Qed.

(** Two frames with the same labels, read at the same positions, have the
    same labels again. *)
Lemma iloc_same_index a b rows a' b' :
  index a = index b → iloc a rows = Ok a' → iloc b rows = Ok b' →
  index a' = index b'.
Proof.
  intros Hi (la & va & Hla & _ & ->)%iloc_Ok (lb & vb & Hlb & _ & ->)%iloc_Ok.
  simpl. rewrite Hi in Hla.
  eapply Forall2_unique; [exact Hla | exact Hlb |]. intros; congruence.
Qed.

End ConcatProps.

(** ** The split *)

Section SplitProps.

Context `{Runtime}.

Lemma n_test_of_bounds n : n ≤ 10 * n_test_of n < n + 10.
Proof.
  unfold n_test_of. pose proof (Nat.div_mod (n + 9) 10).
  pose proof (Nat.mod_upper_bound (n + 9) 10). lia.
Qed.

(** Up to 7000 samples the exact [ceil(n / 10)] is what the binary64
    arithmetic of Python returns. *)
Lemma n_test_of_binary64 :
  forallb (λ n, (n_test_binary64 n =? Z.of_nat (n_test_of n))%Z) (seq 0 (Z.to_nat 7001))
  = true.
Proof. vm_compute. reflexivity. Qed.

Lemma n_test_of_le n : n_test_of n ≤ n.
Proof. pose proof (n_test_of_bounds n). lia. Qed.

Lemma positions_partition seed n :
  rng_permutation_permutation →
  test_positions seed n ++ train_positions seed n ≡ₚ seq 0 n.
Proof.
  intros Hperm. unfold test_positions, train_positions.
  pose proof (Hperm seed n) as Hp.
  pose proof (Permutation_length Hp) as Hlen. rewrite length_seq in Hlen.
  rewrite (take_ge (drop _ _)) by (rewrite length_drop; lia).
  by rewrite take_drop.
Qed.

Lemma length_test_positions seed n :
  rng_permutation_permutation → length (test_positions seed n) = n_test_of n.
Proof.
  intros Hperm. unfold test_positions.
  pose proof (Permutation_length (Hperm seed n)) as Hlen.
  rewrite length_seq in Hlen. pose proof (n_test_of_le n).
  rewrite length_take. lia.
Qed.

Lemma length_train_positions seed n :
  rng_permutation_permutation →
  length (train_positions seed n) = n - n_test_of n.
Proof.
  intros Hperm. unfold train_positions.
  pose proof (Permutation_length (Hperm seed n)) as Hlen.
  rewrite length_seq in Hlen.
  rewrite length_take, length_drop. lia.
Qed.

Lemma train_test_split_Ok (X y : DataFrame R) seed X_train X_test y_train y_test :
  train_test_split X y seed = Ok (X_train, X_test, y_train, y_test) ↔
  nrows y = nrows X ∧ nrows X - n_test_of (nrows X) ≠ 0 ∧
  iloc X (train_positions seed (nrows X)) = Ok X_train ∧
  iloc X (test_positions seed (nrows X)) = Ok X_test ∧
  iloc y (train_positions seed (nrows X)) = Ok y_train ∧
  iloc y (test_positions seed (nrows X)) = Ok y_test.
Proof.
  unfold train_test_split. fold (train_positions seed (nrows X)).
  fold (test_positions seed (nrows X)).
  case_bool_decide as Hy; [|split; [done | by intros [? _]]].
  case_bool_decide as Hn; [split; [done | by intros (_ & ? & _)]|].
  rewrite bind_Ok. split.
  - intros (a & Ha & (b & Hb & (c & Hc & (d & Hd & [= <- <- <- <-])%bind_Ok)%bind_Ok)%bind_Ok).
    done.
  - intros (_ & _ & Ha & Hb & Hc & Hd). exists X_train. split; [done|].
    rewrite Hb, Hc, Hd. done.
Qed.

End SplitProps.

Section RfRun.

Context `{Runtime}.

(** What a run of [feature_selection_and_split] that returns went through. *)
Lemma feature_selection_and_split_Ok inp P n w out w' :
  feature_selection_and_split inp P n w = (Ok out, w') →
  ∃ text wine features X y importances X_selected X_selected_df combined_df
    X_train X_test y_train y_test train_df test_df,
    files w !! inp = Some text
    ∧ parse_csv text = Ok wine
    ∧ drop_column wine "quality" = Ok features
    ∧ SimpleImputer_fit_transform features = Ok X
    ∧ getitem wine "quality" = Ok y
    ∧ forest_importances n 42 X (s_values y) = Ok importances
    ∧ take_columns (selected_indices importances) X = Ok X_selected
    ∧ DataFrame_of_array X_selected
        (Feature_names (num_features_of importances))
        = Ok X_selected_df
    ∧ concat X_selected_df (y_df_selected y) = Ok combined_df
    ∧ train_test_split X_selected_df (y_df_selected y) 42
        = Ok (X_train, X_test, y_train, y_test)
    ∧ concat X_train y_train = Ok train_df
    ∧ concat X_test y_test = Ok test_df
    ∧ writable (P +:+ ".csv") = true
    ∧ writable (P +:+ "_train.csv") = true
    ∧ writable (P +:+ "_test.csv") = true
    ∧ out = (X_selected_df, y_df_selected y, X_train, X_test, y_train, y_test)
    ∧ w' = mkWorld
             (<[P +:+ "_test.csv" := csv_text false test_df]>
                (<[P +:+ "_train.csv" := csv_text false train_df]>
                   (<[P +:+ ".csv" := csv_text false combined_df]> (files w))))
             (np_random w).
Proof.
  unfold feature_selection_and_split. intros Hrun.
  repeat first
    [ py_inv Hrun
    | match type of Hrun with
      | context [match ?s with pair _ _ => _ end] => destruct s as [[[? ?] ?] ?]
      end ].
  unfold mret, Py_ret in Hrun. simplify_eq/=.
  repeat eexists; eauto.
Qed.

End RfRun.

(** ** The imputer inside the pipelines *)

Section ImputerInPipeline.

Context `{Runtime}.

Lemma impute_length m (X0 X : ndarray R) :
  impute m X0 = Ok X → length X = length X0 ∧ X0 ≠ [] ∧ m ≠ 0.
Proof.
  unfold impute. case_bool_decide as Hempty; [done|].
  intros (X' & HX'%take_columns_Ok_inv & [= <-])%bind_Ok.
  rewrite length_fmap. split; [symmetry; by eapply Forall2_length|].
  split; [intros ->|intros ->]; apply Hempty; auto.
Qed.

Lemma SimpleImputer_fit_transform_length (features : DataFrame R) (X : ndarray R) :
  SimpleImputer_fit_transform features = Ok X →
  length X = nrows features ∧ X ≠ [].
Proof.
  unfold SimpleImputer_fit_transform.
  intros (X0 & HX0%mapM_result_Ok & (Hl & Hne & _)%impute_length)%bind_Ok.
  apply Forall2_length in HX0. unfold nrows. split; [congruence|].
  intros ->. destruct X0; done.
Qed.

(** The float array the imputer is fitted on. *)
Lemma SimpleImputer_fit_transform_Ok (features : DataFrame R) (X : ndarray R) :
  wf_frame features →
  SimpleImputer_fit_transform features = Ok X →
  ∃ X0, mapM (mapM float_of_cell) (values features) = Ok X0
    ∧ rectangular (length (columns features)) X0
    ∧ X0 ≠ [] ∧ length (columns features) ≠ 0
    ∧ impute (length (columns features)) X0 = Ok X.
Proof.
  intros [_ Hw]. unfold SimpleImputer_fit_transform.
  intros (X0 & HX0 & HX)%bind_Ok. exists X0.
  destruct (impute_length _ _ _ HX) as (_ & ? & ?).
  split_and!; try done.
  apply mapM_result_Ok in HX0. unfold rectangular in *.
  eapply Forall2_Forall_r; [exact HX0|].
  eapply Forall_impl; [exact Hw|]. intros row Hrow row' Hrow'; simpl in *.
  apply mapM_result_Ok, Forall2_length in Hrow'. congruence.
Qed.

End ImputerInPipeline.

(** ** The PCA path *)

Section PcaProps.

Context `{Runtime}.

Example PC_names_eq : PC_names = ["PC1"; "PC2"; "PC3"; "PC4"; "PC5"; "PC6"].
Proof. reflexivity. Qed.

(** C1.  When [process_heart_disease_data] returns, the reduced
    representation has exactly the six columns "PC1", ..., "PC6", every row
    of it has six cells, and it has as many rows as the frame read from the
    input file. *)
Theorem pca_output_shape inp P w text wine
    X_pca_df y_df X_train X_test y_train y_test w' :
  pca_kernel_rows →
  files w !! inp = Some text →
  parse_csv text = Ok wine →
  process_heart_disease_data inp P w
    = (Ok (X_pca_df, y_df, X_train, X_test, y_train, y_test), w') →
  columns X_pca_df = ["PC1"; "PC2"; "PC3"; "PC4"; "PC5"; "PC6"]
  ∧ rectangular 6 (values X_pca_df)
  ∧ nrows X_pca_df = nrows wine.
Proof.
  intros Hrows Htext Hwine Hrun.
  apply process_heart_disease_data_Ok in Hrun
    as (text' & wine' & y & features & X & Xr & Yr & g & df & combined
        & Xtr & Xte & ytr & yte & train_df & test_df
        & Htext' & Hwine' & Hy & Hfeat & HX & HXr & Hk & Hkern & Hdf & _
        & _ & _ & _ & _ & _ & _ & Hout & _).
  simplify_eq. assert (wine' = wine) as -> by congruence.
  apply DataFrame_of_array_Ok in Hdf as [Hrect ->]. simpl.
  split_and!; [done | |].
  - apply Forall_fmap. eapply Forall_impl; [exact Hrect|].
    intros row Hrow; simpl in *. by rewrite length_fmap.
  - unfold nrows; simpl. rewrite !length_fmap.
    rewrite (Hrows _ _ _ _ _ Hkern).
    apply mapM_Some, Forall2_length in HXr. rewrite <-HXr.
    apply SimpleImputer_fit_transform_length in HX as [-> _].
    by apply drop_column_Ok in Hfeat as (_ & _ & -> & _).
Qed.

(** C7.  When the imputed feature matrix has fewer than six rows or fewer
    than six columns, [process_heart_disease_data] raises the [ValueError]
    of the PCA step, and no file has been written. *)
Theorem pca_fails_below_six_dimensions inp P w text wine y features X :
  files w !! inp = Some text →
  parse_csv text = Ok wine →
  getitem wine "quality" = Ok y →
  drop_column wine "quality" = Ok features →
  SimpleImputer_fit_transform features = Ok X →
  length X < 6 ∨ shape1 X < 6 →
  PCA_fit_transform 6 X w = (Raise ValueError, w)
  ∧ process_heart_disease_data inp P w = (Raise ValueError, w).
Proof.
  intros Htext Hwine Hy Hfeat HX Hdim.
  assert (PCA_fit_transform 6 X w = (Raise ValueError, w)) as Hpca.
  { unfold PCA_fit_transform. destruct (mapM (mapM id) X); [|done].
    case_bool_decide; [done|]. rewrite bool_decide_false by lia. done. }
  split; [done|].
  unfold process_heart_disease_data, mbind, Py_bind, read_csv, pure.
  rewrite Htext, Hwine, Hy, Hfeat, HX, Hpca. done.
Qed.

End PcaProps.

(** ** Rows read at a permutation of the positions *)

Section RowsAt.

Context {A : Type}.
Implicit Types (l vs : list A) (ps : list nat).

Lemma Forall2_lookup_omap l ps vs :
  Forall2 (λ i x, l !! i = Some x) ps vs → vs = omap (λ i, l !! i) ps.
Proof.
  induction 1 as [|i x ps vs Hi _ IH]; [done|].
  cbn. rewrite Hi. by f_equal.
Qed.

Lemma omap_lookup_seq l : omap (λ i, l !! i) (seq 0 (length l)) = l.
Proof.
  induction l as [|x l IH] using rev_ind; [done|].
  rewrite length_app, seq_app, omap_app. simpl.
  rewrite lookup_app_r, Nat.sub_diag by done. simpl.
  f_equal. rewrite <-IH at 2.
  apply list_omap_ext, Forall2_same_length_lookup. split; [done|].
  intros i j j' Hj Hj'. simplify_eq.
  apply lookup_seq in Hj as [-> Hi]. simpl.
  by rewrite lookup_app_l.
Qed.

Lemma rows_at_permutation l ps vs :
  Forall2 (λ i x, l !! i = Some x) ps vs →
  ps ≡ₚ seq 0 (length l) → vs ≡ₚ l.
Proof.
  intros ->%Forall2_lookup_omap Hp. rewrite Hp. by rewrite omap_lookup_seq.
Qed.

End RowsAt.

(** ** C3: the split partitions the rows *)

Section SplitSpec.

Context `{Runtime}.

Lemma iloc_nrows (df df' : DataFrame R) rows :
  iloc df rows = Ok df' → nrows df' = length rows.
Proof.
  intros (labels & vals & _ & Hv & ->)%iloc_Ok. unfold nrows; simpl.
  symmetry. by eapply Forall2_length.
Qed.

Lemma iloc_values_permutation (df a b : DataFrame R) ps qs :
  iloc df ps = Ok a → iloc df qs = Ok b →
  qs ++ ps ≡ₚ seq 0 (nrows df) → values b ++ values a ≡ₚ values df.
Proof.
  intros (la & va & _ & Hva & ->)%iloc_Ok (lb & vb & _ & Hvb & ->)%iloc_Ok Hp.
  simpl. eapply rows_at_permutation; [|exact Hp].
  by apply Forall2_app.
Qed.

Lemma train_test_split_partitions (X y : DataFrame R) seed
    X_train X_test y_train y_test :
  rng_permutation_permutation →
  train_test_split X y seed = Ok (X_train, X_test, y_train, y_test) →
  split_partitions X y X_train X_test y_train y_test.
Proof.
  intros Hperm (Hy & Hn & HXtr & HXte & Hytr & Hyte)%train_test_split_Ok.
  exists (test_positions seed (nrows X)), (train_positions seed (nrows X)).
  pose proof (positions_partition seed (nrows X) Hperm) as Hpart.
  pose proof (n_test_of_le (nrows X)).
  rewrite (iloc_nrows _ _ _ HXtr), (iloc_nrows _ _ _ HXte),
    (iloc_nrows _ _ _ Hytr), (iloc_nrows _ _ _ Hyte).
  rewrite length_train_positions, length_test_positions by done.
  split_and!; try done.
  - by eapply iloc_values_permutation.
  - eapply iloc_values_permutation; [done..|]. by rewrite Hy.
  - lia.
  - apply n_test_of_bounds.
  - apply n_test_of_bounds.
Qed.

(** C3.  In both functions the split puts every row of the reduced data set
    in exactly one of the train and the test set, so that the sizes add up
    to the number of rows; the test set has [ceil(n / 10)] rows, which is
    within one row of a tenth. *)
Theorem split_partitions_rows inp P w X y X_train X_test y_train y_test w' :
  rng_permutation_permutation →
  process_heart_disease_data inp P w
    = (Ok (X, y, X_train, X_test, y_train, y_test), w')
  ∨ (∃ n, feature_selection_and_split inp P n w
            = (Ok (X, y, X_train, X_test, y_train, y_test), w')) →
  split_partitions X y X_train X_test y_train y_test.
Proof.
  intros Hperm [Hrun | [n Hrun]].
  - apply process_heart_disease_data_Ok in Hrun
      as (text & wine & y0 & features & X0 & Xr & Yr & g & df & combined
          & Xtr & Xte & ytr & yte & train_df & test_df
          & _ & _ & _ & _ & _ & _ & _ & _ & _ & _
          & Hsplit & _ & _ & _ & _ & _ & Hout & _).
    simplify_eq. by eapply train_test_split_partitions.
  - apply feature_selection_and_split_Ok in Hrun
      as (text & wine & features & X0 & y0 & imp & Xsel & df & combined
          & Xtr & Xte & ytr & yte & train_df & test_df
          & _ & _ & _ & _ & _ & _ & _ & _ & _
          & Hsplit & _ & _ & _ & _ & _ & Hout & _).
    simplify_eq. by eapply train_test_split_partitions.
Qed.

End SplitSpec.

(** ** What both functions have in common *)

Section BothRuns.

Context `{Runtime}.

Lemma output_paths_NoDup P : NoDup (output_paths P).
Proof.
  unfold output_paths.
  apply NoDup_cons; split; [|apply NoDup_cons; split; [|apply NoDup_singleton]].
  - rewrite !elem_of_cons, elem_of_nil.
    intros [Heq | [Heq | []]]; by apply (inj (String.app P)) in Heq.
  - rewrite elem_of_cons, elem_of_nil.
    intros [Heq | []]; by apply (inj (String.app P)) in Heq.
Qed.

Lemma returns_inv inp P w X y X_train X_test y_train y_test w' :
  parse_csv_wf →
  returns inp P w (X, y, X_train, X_test, y_train, y_test) w' →
  ∃ combined_df train_df test_df,
    wf_frame X ∧ wf_frame y ∧ columns y = ["quality"]
    ∧ train_test_split X y 42 = Ok (X_train, X_test, y_train, y_test)
    ∧ concat X y = Ok combined_df
    ∧ concat X_train y_train = Ok train_df
    ∧ concat X_test y_test = Ok test_df
    ∧ Forall (λ path, writable path = true) (output_paths P)
    ∧ files w' =
        <[P +:+ "_test.csv" := csv_text false test_df]>
          (<[P +:+ "_train.csv" := csv_text false train_df]>
             (<[P +:+ ".csv" := csv_text false combined_df]> (files w))).
Proof.
  intros Hwf [Hrun | [n Hrun]].
  - apply process_heart_disease_data_Ok in Hrun
      as (text & wine & y0 & features & X0 & Xr & Yr & g & df & combined
          & Xtr & Xte & ytr & yte & train_df & test_df
          & _ & Hwine & Hy & _ & _ & _ & _ & _ & Hdf & Hc
          & Hsplit & Htr & Hte & Hw1 & Hw2 & Hw3 & Hout & ->).
    simplify_eq. exists combined, train_df, test_df.
    destruct (Hwf _ _ Hwine) as [Hwine_wf _].
    split_and!; try done.
    + by eapply DataFrame_of_array_wf.
    + apply reset_index_wf, DataFrame_of_Series_wf. by eapply getitem_wf.
    + apply columns_DataFrame_of_Series.
    + unfold output_paths. by repeat constructor.
  - apply feature_selection_and_split_Ok in Hrun
      as (text & wine & features & X0 & y0 & imp & Xsel & df & combined
          & Xtr & Xte & ytr & yte & train_df & test_df
          & _ & Hwine & _ & _ & Hy & _ & _ & Hdf & Hc
          & Hsplit & Htr & Hte & Hw1 & Hw2 & Hw3 & Hout & ->).
    simplify_eq. exists combined, train_df, test_df.
    destruct (Hwf _ _ Hwine) as [Hwine_wf _].
    split_and!; try done.
    + by eapply DataFrame_of_array_wf.
    + apply DataFrame_of_Series_wf. by eapply getitem_wf.
    + apply columns_DataFrame_of_Series.
    + unfold output_paths. by repeat constructor.
Qed.

(** The three files of a run that returned, and the paths it left alone. *)
Lemma returns_files inp P w X y X_train X_test y_train y_test w' :
  parse_csv_wf →
  returns inp P w (X, y, X_train, X_test, y_train, y_test) w' →
  ∃ combined_df train_df test_df,
    concat X y = Ok combined_df
    ∧ concat X_train y_train = Ok train_df
    ∧ concat X_test y_test = Ok test_df
    ∧ files w' !! (P +:+ ".csv") = Some (csv_text false combined_df)
    ∧ files w' !! (P +:+ "_train.csv") = Some (csv_text false train_df)
    ∧ files w' !! (P +:+ "_test.csv") = Some (csv_text false test_df)
    ∧ (∀ path, path ∉ output_paths P → files w' !! path = files w !! path).
Proof.
  intros Hwf Hrun.
  destruct (returns_inv _ _ _ _ _ _ _ _ _ _ Hwf Hrun)
    as (combined & train_df & test_df & _ & _ & _ & _ & Hc & Htr & Hte
        & _ & Hfiles).
  exists combined, train_df, test_df.
  assert (P +:+ ".csv" ≠ P +:+ "_train.csv"
          ∧ P +:+ ".csv" ≠ P +:+ "_test.csv"
          ∧ P +:+ "_train.csv" ≠ P +:+ "_test.csv") as (Hn1 & Hn2 & Hn3).
  { split_and!; by intros Heq%(inj (String.app P)). }
  rewrite Hfiles. split_and!; try done.
  - rewrite lookup_insert_ne, lookup_insert_ne, lookup_insert_eq; done.
  - rewrite lookup_insert_ne, lookup_insert_eq; done.
  - by rewrite lookup_insert_eq.
  - intros path Hpath. unfold output_paths in Hpath.
    apply not_elem_of_cons in Hpath as [Hp1 Hpath].
    apply not_elem_of_cons in Hpath as [Hp2 Hpath].
    apply not_elem_of_cons in Hpath as [Hp3 _].
    by rewrite !lookup_insert_ne.
Qed.

End BothRuns.

(** ** CSV text without row labels *)

Section Files.

Context `{Runtime}.

Lemma zip_with_const_l {A B C} (f : B → C) (l : list A) (k : list B) :
  length l = length k → zip_with (λ _ b, f b) l k = f <$> k.
Proof.
  revert k. induction l as [|a l IH]; intros [|b k] Hl; simplify_eq/=; [done|].
  by rewrite IH.
Qed.

Lemma csv_text_no_index (df : DataFrame R) :
  wf_frame df → csv_text false df = csv_of (columns df) (values df).
Proof.
  intros [Hi _]. unfold csv_text, csv_of. simpl.
  by rewrite zip_with_const_l.
Qed.

End Files.

(** ** Row alignment of features and labels *)

Section Alignment.

Context `{Runtime}.

Lemma Forall2_zip_with_app {A} (P1 P2 : nat → list A → Prop) ps (l1 l2 : list (list A)) :
  Forall2 P1 ps l1 → Forall2 P2 ps l2 →
  Forall2 (λ p row, ∃ r1 r2, P1 p r1 ∧ P2 p r2 ∧ row = r1 ++ r2) ps
    (zip_with app l1 l2).
Proof.
  intros H1. revert l2. induction H1 as [|p r1 ps l1 Hp _ IH];
    intros l2 H2; inv H2; simpl; constructor; eauto.
Qed.

Lemma concat_iloc_aligned (X y Xs ys t : DataFrame R) (q : list (cell R)) ps :
  index X = index y →
  values y = (λ c, [c]) <$> q →
  iloc X ps = Ok Xs → iloc y ps = Ok ys →
  concat Xs ys = Ok t →
  aligned X q ps t.
Proof.
  intros Hi Hq HXs Hys Hcat.
  rewrite (concat_same_index Xs ys) in Hcat by (by eapply iloc_same_index).
  injection Hcat as <-. unfold aligned. simpl.
  apply iloc_Ok in HXs as (lx & vx & _ & Hvx & ->).
  apply iloc_Ok in Hys as (ly & vy & _ & Hvy & ->). simpl.
  eapply Forall2_impl; [by apply Forall2_zip_with_app|].
  intros p row (r1 & r2 & Hr1 & Hr2 & ->); simpl in *.
  rewrite Hq, list_lookup_fmap in Hr2.
  destruct (q !! p) as [c|] eqn:Hc; simplify_eq/=. eauto.
Qed.

Lemma Forall2_seq_lookup {A} (l : list A) :
  Forall2 (λ i x, l !! i = Some x) (seq 0 (length l)) l.
Proof.
  apply Forall2_same_length_lookup. split; [by rewrite length_seq|].
  intros i j x Hj Hx. apply lookup_seq in Hj as [-> _]. done.
Qed.

Lemma concat_aligned (X y t : DataFrame R) (q : list (cell R)) :
  index X = index y → nrows y = nrows X →
  values y = (λ c, [c]) <$> q →
  concat X y = Ok t →
  aligned X q (seq 0 (nrows X)) t.
Proof.
  intros Hi Hn Hq Hcat. rewrite concat_same_index in Hcat by done.
  injection Hcat as <-. unfold aligned, nrows in *. simpl.
  eapply Forall2_impl.
  - apply (Forall2_zip_with_app (λ p r, values X !! p = Some r)
             (λ p r, values y !! p = Some r)).
    + apply Forall2_seq_lookup.
    + rewrite <-Hn. apply Forall2_seq_lookup.
  - intros p row (r1 & r2 & Hr1 & Hr2 & ->); simpl in *.
    rewrite Hq, list_lookup_fmap in Hr2.
    destruct (q !! p) as [c|] eqn:Hc; simplify_eq/=. eauto.
Qed.

(** The three tables of a run are aligned with the labels [q] once the
    feature frame and the label frame carry the same row labels. *)
Lemma tables_aligned (X y X_train X_test y_train y_test : DataFrame R)
    (q : list (cell R)) combined_df train_df test_df :
  index X = index y →
  values y = (λ c, [c]) <$> q →
  train_test_split X y 42 = Ok (X_train, X_test, y_train, y_test) →
  concat X y = Ok combined_df →
  concat X_train y_train = Ok train_df →
  concat X_test y_test = Ok test_df →
  aligned X q (seq 0 (nrows X)) combined_df
  ∧ aligned X q (train_positions 42 (nrows X)) train_df
  ∧ aligned X q (test_positions 42 (nrows X)) test_df.
Proof.
  intros Hi Hq (Hn & _ & HXtr & HXte & Hytr & Hyte)%train_test_split_Ok
    Hc Htr Hte.
  split_and!.
  - by apply (concat_aligned X y).
  - by apply (concat_iloc_aligned X y X_train y_train).
  - by apply (concat_iloc_aligned X y X_test y_test).
Qed.

Lemma values_DataFrame_of_Series (wine : DataFrame R) y :
  getitem wine "quality" = Ok y →
  values (DataFrame_of_Series y "quality") = (λ c, [c]) <$> s_values y.
Proof.
  intros (_ & Hname & _)%getitem_Ok.
  by rewrite (DataFrame_of_Series_named _ _ Hname).
Qed.

Lemma y_df_pca_facts (wine : DataFrame R) y :
  wf_frame wine → getitem wine "quality" = Ok y →
  wf_frame (y_df_pca y) ∧ nrows (y_df_pca y) = nrows wine
  ∧ index (y_df_pca y) = RangeIndex (nrows wine)
  ∧ columns (y_df_pca y) = ["quality"]
  ∧ values (y_df_pca y) = (λ c, [c]) <$> s_values y.
Proof.
  intros Hwf Hy.
  pose proof (getitem_wf _ _ _ Hwf Hy) as Hlen.
  destruct (getitem_Ok _ _ _ Hy) as (_ & Hname & Hidx & Hvals).
  split; [by apply reset_index_wf, DataFrame_of_Series_wf|].
  unfold y_df_pca. rewrite (DataFrame_of_Series_named _ _ Hname).
  unfold nrows; simpl. rewrite length_fmap. split_and!; try done.
  by rewrite Hlen, Hvals.
Qed.

Lemma y_df_selected_facts (wine : DataFrame R) y :
  wf_frame wine → getitem wine "quality" = Ok y →
  wf_frame (y_df_selected y) ∧ nrows (y_df_selected y) = nrows wine
  ∧ index (y_df_selected y) = index wine
  ∧ columns (y_df_selected y) = ["quality"]
  ∧ values (y_df_selected y) = (λ c, [c]) <$> s_values y.
Proof.
  intros Hwf Hy.
  destruct (getitem_Ok _ _ _ Hy) as (_ & Hname & Hidx & Hvals).
  split; [apply DataFrame_of_Series_wf; by eapply getitem_wf|].
  unfold y_df_selected. rewrite (DataFrame_of_Series_named _ _ Hname).
  unfold nrows; simpl. rewrite length_fmap. by split_and!.
Qed.

(** In [process_heart_disease_data] the labels stay with their rows: each
    row of the full, the train and the test table holds the six scores of
    one input row followed by the "quality" of that same row. *)
Theorem pca_labels_aligned inp P w text wine y
    X y_df X_train X_test y_train y_test w' :
  parse_csv_wf →
  files w !! inp = Some text →
  parse_csv text = Ok wine →
  getitem wine "quality" = Ok y →
  process_heart_disease_data inp P w
    = (Ok (X, y_df, X_train, X_test, y_train, y_test), w') →
  ∃ combined_df train_df test_df,
    files w' !! (P +:+ ".csv") = Some (csv_text false combined_df)
    ∧ files w' !! (P +:+ "_train.csv") = Some (csv_text false train_df)
    ∧ files w' !! (P +:+ "_test.csv") = Some (csv_text false test_df)
    ∧ length (s_values y) = nrows wine
    ∧ nrows X = nrows wine
    ∧ aligned X (s_values y) (seq 0 (nrows X)) combined_df
    ∧ aligned X (s_values y) (train_positions 42 (nrows X)) train_df
    ∧ aligned X (s_values y) (test_positions 42 (nrows X)) test_df.
Proof.
  intros Hwf Htext Hwine Hy Hrun.
  destruct (returns_files inp P w _ _ _ _ _ _ w' Hwf (or_introl Hrun))
    as (combined & train_df & test_df & Hc & Htr & Hte & Hf1 & Hf2 & Hf3 & _).
  exists combined, train_df, test_df.
  apply process_heart_disease_data_Ok in Hrun
    as (text' & wine' & y' & features & X0 & Xr & Yr & g & df & combined'
        & Xtr & Xte & ytr & yte & train_df' & test_df'
        & Htext' & Hwine' & Hy' & _ & _ & _ & _ & _ & Hdf & _
        & Hsplit & _ & _ & _ & _ & _ & Hout & _).
  simplify_eq. assert (wine' = wine) as -> by congruence.
  assert (y' = y) as -> by congruence.
  destruct (Hwf _ _ Hwine) as [Hwfw _].
  pose proof (getitem_Ok _ _ _ Hy) as (_ & _ & Hyi & Hyv).
  destruct (y_df_pca_facts wine y Hwfw Hy) as (_ & Hny & Hiy & _ & Hval).
  pose proof Hsplit as (Hn & _)%train_test_split_Ok.
  assert (index df = index (y_df_pca y)) as Hidx.
  { rewrite Hiy. apply DataFrame_of_array_Ok in Hdf as [_ ->].
    simpl. f_equal. unfold nrows in Hn. rewrite Hval in Hn. simpl in Hn.
    rewrite !length_fmap in Hn. rewrite length_fmap. congruence. }
  destruct (tables_aligned _ _ _ _ _ _ (s_values y) _ _ _
              Hidx Hval Hsplit Hc Htr Hte) as (A1 & A2 & A3).
  split_and!; try done. congruence.
Qed.

End Alignment.

(** ** The feature selection path *)

Section RfProps.

Context `{Runtime}.

Lemma iloc_RangeIndex (df df' : DataFrame R) n ps :
  index df = RangeIndex n → iloc df ps = Ok df' →
  index df' = Z.of_nat <$> ps.
Proof.
  intros Hi (labels & vals & Hl & _ & ->)%iloc_Ok. simpl.
  rewrite Hi in Hl. clear Hi.
  induction Hl as [|p l ps labels Hp _ IH]; [done|].
  simpl. f_equal; [|done].
  unfold RangeIndex in Hp. rewrite list_lookup_fmap in Hp.
  destruct (seq 0 n !! p) as [p'|] eqn:Hp'; simplify_eq/=.
  apply lookup_seq in Hp' as [-> _]. done.
Qed.

(** In [feature_selection_and_split] the labels stay with their rows when
    the frame read from the file carries the default row labels
    [0, ..., n-1]: each row of the full, the train and the test table holds
    the selected features of one input row followed by the "quality" of
    that same row. *)
Theorem selected_labels_aligned inp P n w text wine y
    X y_df X_train X_test y_train y_test w' :
  parse_csv_wf →
  files w !! inp = Some text →
  parse_csv text = Ok wine →
  getitem wine "quality" = Ok y →
  index wine = RangeIndex (nrows wine) →
  feature_selection_and_split inp P n w
    = (Ok (X, y_df, X_train, X_test, y_train, y_test), w') →
  ∃ combined_df train_df test_df,
    files w' !! (P +:+ ".csv") = Some (csv_text false combined_df)
    ∧ files w' !! (P +:+ "_train.csv") = Some (csv_text false train_df)
    ∧ files w' !! (P +:+ "_test.csv") = Some (csv_text false test_df)
    ∧ length (s_values y) = nrows wine
    ∧ nrows X = nrows wine
    ∧ aligned X (s_values y) (seq 0 (nrows X)) combined_df
    ∧ aligned X (s_values y) (train_positions 42 (nrows X)) train_df
    ∧ aligned X (s_values y) (test_positions 42 (nrows X)) test_df.
Proof.
  intros Hwf Htext Hwine Hy Hrange Hrun.
  destruct (returns_files inp P w _ _ _ _ _ _ w' Hwf
              (or_intror (ex_intro _ n Hrun)))
    as (combined & train_df & test_df & Hc & Htr & Hte & Hf1 & Hf2 & Hf3 & _).
  exists combined, train_df, test_df.
  apply feature_selection_and_split_Ok in Hrun
    as (text' & wine' & features & X0 & y' & imp & Xsel & df & combined'
        & Xtr & Xte & ytr & yte & train_df' & test_df'
        & Htext' & Hwine' & _ & _ & Hy' & _ & _ & Hdf & _
        & Hsplit & _ & _ & _ & _ & _ & Hout & _).
  simplify_eq. assert (wine' = wine) as -> by congruence.
  assert (y' = y) as -> by congruence.
  pose proof (getitem_Ok _ _ _ Hy) as (_ & _ & Hyi & Hyv).
  destruct (Hwf _ _ Hwine) as [Hwfw _].
  destruct (y_df_selected_facts wine y Hwfw Hy) as (_ & Hny & Hiy & _ & Hval).
  pose proof Hsplit as (Hn & _)%train_test_split_Ok.
  assert (index df = index (y_df_selected y)) as Hidx.
  { rewrite Hiy, Hrange. apply DataFrame_of_array_Ok in Hdf as [_ ->]. simpl.
    f_equal. unfold nrows in Hn. rewrite Hval in Hn. simpl in Hn.
    rewrite !length_fmap in Hn. congruence. }
  destruct (tables_aligned _ _ _ _ _ _ (s_values y) _ _ _
              Hidx Hval Hsplit Hc Htr Hte) as (A1 & A2 & A3).
  split_and!; try done. congruence.
Qed.

(** C10.  Two runs of [feature_selection_and_split] on the same world that
    differ only in [n_estimators_num] give the same rows to the train set
    and the same rows to the test set: the row labels of the train and test
    features are the positions that the seed and the row count fix, and the
    label frames are equal. *)
Theorem split_independent_of_n_estimators inp P w n1 n2
    X1 y1 X_train1 X_test1 y_train1 y_test1 w1
    X2 y2 X_train2 X_test2 y_train2 y_test2 w2 :
  feature_selection_and_split inp P n1 w
    = (Ok (X1, y1, X_train1, X_test1, y_train1, y_test1), w1) →
  feature_selection_and_split inp P n2 w
    = (Ok (X2, y2, X_train2, X_test2, y_train2, y_test2), w2) →
  nrows X1 = nrows X2
  ∧ index X_train1 = Z.of_nat <$> train_positions 42 (nrows X1)
  ∧ index X_test1 = Z.of_nat <$> test_positions 42 (nrows X1)
  ∧ index X_train1 = index X_train2
  ∧ index X_test1 = index X_test2
  ∧ y1 = y2 ∧ y_train1 = y_train2 ∧ y_test1 = y_test2.
Proof.
  intros Hrun1 Hrun2.
  apply feature_selection_and_split_Ok in Hrun1
    as (text & wine & features & X0 & y & imp & Xsel & df & combined
        & Xtr & Xte & ytr & yte & train_df & test_df
        & Htext & Hwine & _ & _ & Hy & _ & _ & Hdf & _
        & Hsplit & _ & _ & _ & _ & _ & Hout & _).
  apply feature_selection_and_split_Ok in Hrun2
    as (text' & wine' & features' & X0' & y' & imp' & Xsel' & df' & combined'
        & Xtr' & Xte' & ytr' & yte' & train_df' & test_df'
        & Htext' & Hwine' & _ & _ & Hy' & _ & _ & Hdf' & _
        & Hsplit' & _ & _ & _ & _ & _ & Hout' & _).
  injection Hout as -> -> -> -> -> ->.
  injection Hout' as -> -> -> -> -> ->.
  assert (text' = text) as -> by congruence.
  assert (wine' = wine) as -> by congruence.
  assert (y' = y) as -> by congruence.
  apply train_test_split_Ok in Hsplit as (Hn & _ & HXtr & HXte & Hytr & Hyte).
  apply train_test_split_Ok in Hsplit'
    as (Hn' & _ & HXtr' & HXte' & Hytr' & Hyte').
  assert (nrows df = nrows df') as Hrows by congruence.
  rewrite <-Hrows in *.
  assert (∀ (df0 : DataFrame R) (data : ndarray R) cols,
            DataFrame_of_array data cols = Ok df0 →
            index df0 = RangeIndex (length data)) as Hrange.
  { by intros df0 data cols [_ ->]%DataFrame_of_array_Ok. }
  split_and!; try congruence.
  - exact (iloc_RangeIndex _ _ _ _ (Hrange _ _ _ Hdf) HXtr).
  - exact (iloc_RangeIndex _ _ _ _ (Hrange _ _ _ Hdf) HXte).
  - rewrite (iloc_RangeIndex _ _ _ _ (Hrange _ _ _ Hdf) HXtr).
    by rewrite (iloc_RangeIndex _ _ _ _ (Hrange _ _ _ Hdf') HXtr').
  - rewrite (iloc_RangeIndex _ _ _ _ (Hrange _ _ _ Hdf) HXte).
    by rewrite (iloc_RangeIndex _ _ _ _ (Hrange _ _ _ Hdf') HXte').
Qed.

End RfProps.

(** ** C2: the selected features *)

Section Selection2.

Context `{Runtime}.

Lemma length_filter_ne_NoDup (c : string) (l : list string) :
  NoDup l → c ∈ l → length (filter (λ x, x ≠ c) l) = length l - 1.
Proof.
  induction 1 as [|x l Hx Hnd IH]; intros Hc; [by apply elem_of_nil in Hc|].
  rewrite filter_cons. destruct (decide (x = c)) as [->|Hne].
  - rewrite decide_False by naive_solver. simpl.
    rewrite filter_all; [lia|].
    apply Forall_forall. intros z Hz ->. done.
  - rewrite decide_True by done. simpl.
    apply elem_of_cons in Hc as [->|Hc]; [done|].
    rewrite IH by done. destruct l; [by apply elem_of_nil in Hc | simpl; lia].
Qed.

(** The descending order [np.argsort(importances)[::-1]]. *)
Lemma reverse_argsort_descending (imp : list R) i j a b x y :
  argsort_ascending →
  i ≤ j →
  reverse (argsort imp) !! i = Some a → reverse (argsort imp) !! j = Some b →
  imp !! a = Some x → imp !! b = Some y → Rle y x.
Proof.
  intros Hasc Hij Ha Hb Hx Hy.
  pose proof (lookup_lt_Some _ _ _ Ha) as Hi.
  pose proof (lookup_lt_Some _ _ _ Hb) as Hj.
  rewrite length_reverse in Hi, Hj.
  rewrite reverse_lookup in Ha, Hb by done.
  eapply (Hasc imp _ _ b a y x); [|done..]. lia.
Qed.

Lemma selected_indices_spec (imp : list R) :
  argsort_permutation →
  let sel := selected_indices imp in
  length sel = length imp / 2
  ∧ NoDup sel
  ∧ Forall (λ a, a < length imp) sel.
Proof.
  intros Hperm sel. pose proof (Hperm imp) as Hp.
  pose proof (Permutation_length Hp) as Hlen. rewrite length_seq in Hlen.
  assert (reverse (argsort imp) ≡ₚ seq 0 (length imp)) as Hrev.
  { by rewrite reverse_Permutation. }
  unfold sel, selected_indices, num_features_of.
  rewrite length_reverse, Hlen. split_and!.
  - rewrite length_take, length_reverse, Hlen.
    pose proof (Nat.Div0.div_le_upper_bound (length imp) 2 (length imp)). lia.
  - eapply sublist_NoDup; [|apply sublist_take].
    rewrite Hrev. apply NoDup_seq.
  - apply Forall_take. rewrite Hrev. apply Forall_forall.
    intros a Ha%elem_of_seq. lia.
Qed.

(** Every feature outside the selection is at most as important as every
    selected one. *)
Lemma selected_indices_top (imp : list R) a b x y :
  argsort_permutation → argsort_ascending →
  a ∈ selected_indices imp → b ∉ selected_indices imp →
  imp !! a = Some x → imp !! b = Some y → Rle y x.
Proof.
  intros Hperm Hasc Ha Hb Hx Hy.
  pose proof (Hperm imp) as Hp.
  unfold selected_indices in *. set (k := num_features_of imp) in *.
  apply list_elem_of_lookup in Ha as [i Hi].
  pose proof (lookup_lt_Some _ _ _ Hi) as Hik.
  rewrite length_take in Hik. rewrite lookup_take_lt in Hi by lia.
  assert (b ∈ reverse (argsort imp)) as Hbin.
  { rewrite reverse_Permutation, Hp. apply elem_of_seq.
    apply lookup_lt_Some in Hy. lia. }
  apply list_elem_of_lookup in Hbin as [j Hj].
  destruct (decide (j < k)) as [Hjk|Hjk].
  { exfalso. apply Hb. apply list_elem_of_lookup. exists j.
    by rewrite lookup_take_lt. }
  eapply (reverse_argsort_descending imp i j a b); [done| |done..]. lia.
Qed.

End Selection2.

Section SelectionTheorem.

Context `{Runtime}.

Lemma length_Feature_names k : length (Feature_names k) = k.
Proof. unfold Feature_names. by rewrite length_fmap, length_seq. Qed.

Lemma num_features_of_length (imp : list R) :
  argsort_permutation → num_features_of imp = length imp / 2.
Proof.
  intros Hperm. unfold num_features_of. rewrite length_reverse.
  pose proof (Permutation_length (Hperm imp)) as Hlen.
  rewrite length_seq in Hlen. by rewrite Hlen.
Qed.

(** C2.  Let [m] be the number of feature columns of the input
    that have at least one non-missing value (the imputer discards the
    others).  When [feature_selection_and_split] returns, it has retained
    exactly [m / 2] features, named "Feature_1", ..., "Feature_(m/2)": the
    columns of the imputed matrix at the first [m / 2] positions of the
    descending order of the importances.  These positions are distinct, the
    importances along them are non-increasing, and no feature left out is
    more important than a retained one.  When no feature column is entirely
    missing, [m] is the number of feature columns. *)
Theorem selected_features_top_half inp P n w text wine features X0 X y imp
    X_selected_df y_df X_train X_test y_train y_test w' :
  parse_csv_wf → forest_importances_length →
  argsort_permutation → argsort_ascending →
  files w !! inp = Some text →
  parse_csv text = Ok wine →
  drop_column wine "quality" = Ok features →
  mapM (mapM float_of_cell) (values features) = Ok X0 →
  SimpleImputer_fit_transform features = Ok X →
  getitem wine "quality" = Ok y →
  forest_importances n 42 X (s_values y) = Ok imp →
  feature_selection_and_split inp P n w
    = (Ok (X_selected_df, y_df, X_train, X_test, y_train, y_test), w') →
  top_half_selection wine features X0 X imp X_selected_df.
Proof.
  intros Hwf Hforest Hperm Hasc Htext Hwine Hfeat HX0 HX Hy Himp Hrun.
  unfold top_half_selection.
  set (n_columns := length (columns wine) - 1).
  set (m := length (retained n_columns X0)).
  set (sel := selected_indices imp).
  destruct (Hwf _ _ Hwine) as [Hwine_wf Hnd].
  pose proof (drop_column_wf _ _ _ Hwine_wf Hfeat) as Hfeat_wf.
  pose proof (drop_column_Ok _ _ _ Hfeat) as (Hq & _ & _ & Hcols).
  assert (length (columns features) = n_columns) as Hncols.
  { rewrite Hcols. by apply length_filter_ne_NoDup. }
  destruct (SimpleImputer_fit_transform_Ok _ _ Hfeat_wf HX)
    as (X0' & HX0' & Hrect0 & Hne0 & Hm0 & Himpute).
  assert (X0' = X0) as -> by congruence.
  rewrite Hncols in Hrect0, Hm0, Himpute.
  destruct (impute_shape n_columns X0 Hne0 Hm0 Hrect0)
    as (X' & HX' & Hlen & Hrect).
  assert (X' = X) as -> by congruence. fold m in Hrect.
  assert (X ≠ []) as Hne by (intros ->; destruct X0; done).
  assert (shape1 X = m) as Hshape by (by apply shape1_rectangular).
  assert (length imp = m) as Hlimp.
  { rewrite (Hforest _ _ _ _ _ Himp). done. }
  destruct (selected_indices_spec imp Hperm) as (Hlsel & Hndsel & Hltsel).
  fold sel in Hlsel, Hndsel, Hltsel. rewrite Hlimp in Hlsel, Hltsel.
  apply feature_selection_and_split_Ok in Hrun
    as (text' & wine' & features' & X1 & y' & imp' & Xsel & df & combined
        & Xtr & Xte & ytr & yte & train_df & test_df
        & Htext' & Hwine' & Hfeat' & HX1 & Hy' & Himp' & Htake & Hdf & _
        & _ & _ & _ & _ & _ & _ & Hout & _).
  injection Hout as -> -> -> -> -> ->.
  assert (text' = text) as -> by congruence.
  assert (wine' = wine) as -> by congruence.
  assert (features' = features) as -> by congruence.
  assert (X1 = X) as -> by congruence.
  assert (y' = y) as -> by congruence.
  assert (imp' = imp) as -> by congruence.
  fold sel in Htake.
  rewrite (take_columns_Ok m) in Htake by done. injection Htake as <-.
  rewrite num_features_of_length, Hlimp in Hdf by done.
  apply DataFrame_of_array_Ok in Hdf as [Hrsel ->]. simpl.
  rewrite length_Feature_names in Hrsel.
  split_and!; try done.
  - apply Forall_fmap. eapply Forall_impl; [exact Hrsel|].
    intros row Hrow; simpl in *. by rewrite length_fmap.
  - by rewrite <-list_fmap_compose.
  - intros i j a b x y0 Hij Ha Hb Hx Hy0. unfold sel, selected_indices in Ha, Hb.
    apply lookup_take_Some in Ha as [Ha _]. apply lookup_take_Some in Hb as [Hb _].
    by eapply (reverse_argsort_descending imp i j a b).
  - intros a b x y0 Ha Hb Hx Hy0. by eapply (selected_indices_top imp a b).
  - intros Hall. unfold m. by rewrite retained_all, length_seq.
Qed.

End SelectionTheorem.

(** ** C9: failures *)

Section Failures.

Context `{Runtime}.

Lemma pure_Raise {A} (r : result A) w e w1 :
  pure r w = (Raise e, w1) → r = Raise e ∧ w1 = w.
Proof. by intros [= -> <-]. Qed.

Lemma read_csv_Raise path w e w1 :
  read_csv path w = (Raise e, w1) →
  w1 = w ∧ ((files w !! path = None ∧ e = FileNotFoundError)
            ∨ ∃ text, files w !! path = Some text ∧ parse_csv text = Raise e).
Proof.
  unfold read_csv. destruct (files w !! path) as [text|].
  - intros [= Hp <-]. eauto.
  - intros [= <- <-]. eauto.
Qed.

Lemma to_csv_Raise (df : DataFrame R) path b w e w1 :
  to_csv df path b w = (Raise e, w1) →
  w1 = w ∧ e = OSError ∧ writable path = false.
Proof. unfold to_csv. destruct (writable path); [done|]. by intros [= <- <-]. Qed.

Lemma PCA_fit_transform_files k (X : ndarray R) w r w1 :
  PCA_fit_transform k X w = (r, w1) → files w1 = files w.
Proof.
  unfold PCA_fit_transform. destruct (mapM (mapM id) X); [|by intros [= _ <-]].
  repeat case_bool_decide; try by intros [= _ <-].
  destruct (pca_kernel _ _ _). by intros [= _ <-].
Qed.

(** One step of a run that raised: either this call raised, or it
    returned and a later one raised. *)
Ltac py_fail H :=
  let a := fresh "a" in
  let w1 := fresh "w" in
  let Hstep := fresh "Hstep" in
  apply Py_bind_Raise in H as [H | (a & w1 & Hstep & H)];
  [ first
      [ apply pure_Raise in H as [_ ->]
      | apply read_csv_Raise in H as [-> _]
      | apply to_csv_Raise in H as (-> & _ & _)
      | apply PCA_fit_transform_files in H ]
  | first
      [ apply pure_inv in Hstep as [Hstep ->]
      | apply read_csv_Ok in Hstep as (? & ? & Hstep & ->)
      | apply to_csv_Ok in Hstep as [Hstep ->]
      | apply PCA_fit_transform_files in Hstep ] ].

Lemma process_heart_disease_data_failure_stage inp P w e w' :
  process_heart_disease_data inp P w = (Raise e, w') → failure_stage P w w'.
Proof.
  unfold process_heart_disease_data, failure_stage. intros Hrun.
  do 7 (py_fail Hrun; [by left|]).
  py_fail Hrun; [left; simpl in *; congruence|].
  py_fail Hrun; [right; left; simpl in *; rewrite Hstep3; eauto|].
  destruct a7 as [[[X_train X_test] y_train] y_test].
  do 2 (py_fail Hrun; [right; left; simpl in *; rewrite Hstep3; eauto|]).
  py_fail Hrun; [right; left; simpl in *; rewrite Hstep3; eauto|].
  py_fail Hrun; [right; right; simpl in *; rewrite Hstep3; eauto|].
  done.
Qed.

Lemma feature_selection_and_split_failure_stage inp P n w e w' :
  feature_selection_and_split inp P n w = (Raise e, w') → failure_stage P w w'.
Proof.
  unfold feature_selection_and_split, failure_stage. intros Hrun.
  do 8 (py_fail Hrun; [by left|]).
  py_fail Hrun; [by left|].
  py_fail Hrun; [right; left; simpl in *; eauto|].
  destruct a8 as [[[X_train X_test] y_train] y_test].
  do 2 (py_fail Hrun; [right; left; simpl in *; eauto|]).
  py_fail Hrun; [right; left; simpl in *; eauto|].
  py_fail Hrun; [right; right; simpl in *; eauto|].
  done.
Qed.


End Failures.

(** ** The small runtime meets the contracts *)

Module ToyContracts.

Import Toy.

Lemma toy_pca_kernel_rows : pca_kernel_rows.
Proof.
  intros g k X Y g' [= <- _]. by rewrite length_fmap.
Qed.

Lemma toy_pca_kernel_columns : pca_kernel_columns.
Proof.
  intros g k m X Y g' Hrect Hk [= <- _].
  apply Forall_fmap. eapply Forall_impl; [exact Hrect|].
  intros row Hrow; simpl in *. rewrite length_fmap, length_take. lia.
Qed.

Lemma toy_forest_importances_length : forest_importances_length.
Proof.
  intros n seed X y imp. simpl. unfold Toy.forest_importances.
  repeat case_match; try done.
  all: intros [= <-]; by rewrite length_fmap, length_seq.
Qed.

Lemma toy_rng_permutation_permutation : rng_permutation_permutation.
Proof.
  intros seed n. simpl. unfold Toy.rng_permutation.
  rewrite reverse_Permutation. unfold rotate.
  rewrite Permutation_app_comm. by rewrite take_drop.
Qed.

Global Instance pair_le_total : Total pair_le.
Proof. intros p q. unfold pair_le. lia. Qed.

Global Instance pair_le_trans : Transitive pair_le.
Proof. intros p q r. unfold pair_le. lia. Qed.

Lemma fst_imap_pair {A} (l : list A) :
  (λ p, p.1) <$> imap (λ i x, (i, x)) l = seq 0 (length l).
Proof.
  rewrite fmap_imap. rewrite (imap_ext _ (λ i _, i)) by done.
  rewrite (imap_seq_0 l (λ i, i)). by rewrite list_fmap_id.
Qed.

Lemma toy_argsort_permutation : argsort_permutation.
Proof.
  intros l. simpl. unfold Toy.argsort.
  rewrite merge_sort_Permutation. by rewrite fst_imap_pair.
Qed.

Lemma StronglySorted_lookup {A} (Rel : relation A) `{!Reflexive Rel} l i j x y :
  StronglySorted Rel l → i ≤ j → l !! i = Some x → l !! j = Some y → Rel x y.
Proof.
  intros Hs. revert i j. induction Hs as [|a l _ IH Hall]; intros i j Hij Hi Hj.
  - done.
  - destruct i as [|i], j as [|j]; simplify_eq/=; [done | | lia |].
    + eapply Forall_lookup_1; eauto.
    + eapply IH; [|done..]. lia.
Qed.

Global Instance pair_le_refl : Reflexive pair_le.
Proof. intros p. unfold pair_le. lia. Qed.

Lemma toy_argsort_ascending : argsort_ascending.
Proof.
  intros l i j a b x y Hij Ha Hb Hx Hy. simpl in *. unfold Toy.argsort in *.
  rewrite list_lookup_fmap in Ha, Hb.
  destruct (merge_sort pair_le (imap (λ i x, (i, x)) l) !! i)
    as [[a' x']|] eqn:Hi; simplify_eq/=.
  destruct (merge_sort pair_le (imap (λ i x, (i, x)) l) !! j)
    as [[b' y']|] eqn:Hj; simplify_eq/=.
  assert (∀ k c z,
            merge_sort pair_le (imap (λ i x, (i, x)) l) !! k = Some (c, z) →
            l !! c = Some z) as Hmem.
  { intros k c z Hk. apply list_elem_of_lookup_2 in Hk.
    rewrite merge_sort_Permutation in Hk.
    apply list_elem_of_lookup in Hk as [k' Hk'].
    rewrite list_lookup_imap in Hk'.
    destruct (l !! k') eqn:Hl; by simplify_eq/=. }
  pose proof (Hmem _ _ _ Hi). pose proof (Hmem _ _ _ Hj). simplify_eq.
  pose proof (StronglySorted_merge_sort pair_le (imap (λ i x, (i, x)) l)) as Hs.
  apply (StronglySorted_lookup pair_le _ i j (a, x) (b, y) Hs); done.
Qed.

Lemma split_on_fields sep s : split_on sep s ≠ [].
Proof.
  destruct s as [|a s]; simpl; [done|].
  destruct (Ascii.eqb a sep); [done|]. by destruct (split_on sep s).
Qed.

Lemma toy_parse_csv_wf : parse_csv_wf.
Proof.
  intros text df. simpl. unfold Toy.parse_csv.
  destruct (filter _ _) as [|header lines]; [done|].
  case_bool_decide as Hnd; [|done].
  destruct (rectangularb (length _) _) eqn:Hw1.
  { apply rectangularb_spec in Hw1.
    intros [= <-]. split; [split|]; simpl; [| |done].
    - rewrite length_RangeIndex. by rewrite !length_fmap.
    - apply Forall_fmap. eapply Forall_impl; [exact Hw1|].
      intros row Hrow. simpl in *. by rewrite length_fmap. }
  destruct (rectangularb (S _) _) eqn:Hw2; [|done].
  apply rectangularb_spec in Hw2.
  destruct (mapM _ _) as [labels|] eqn:Hl; [|done].
  intros [= <-]. split; [split|]; simpl; [| |done].
  - apply mapM_Some, Forall2_length in Hl. by rewrite length_fmap.
  - apply Forall_fmap. eapply Forall_impl; [exact Hw2|].
    intros row Hrow. simpl in *. rewrite length_fmap.
    destruct row; simplify_eq/=. done.
Qed.

End ToyContracts.

(** ** C5: what a run depends on *)

Section Determinism.

Context `{Runtime}.

Lemma after_writes_nil w : after_writes [] (np_random w) w = w.
Proof. by destruct w. Qed.

Lemma after_writes_app ws1 ws2 g1 g2 w :
  after_writes ws2 g2 (after_writes ws1 g1 w) = after_writes (ws1 ++ ws2) g2 w.
Proof. unfold after_writes. simpl. by rewrite foldl_app. Qed.

Lemma reads_nothing_generator {A} (m : Py A) :
  reads_nothing m → reads_only_generator m.
Proof.
  intros (r & ws & Hm) g. exists r, ws, g. intros w <-. apply Hm.
Qed.

Lemma reads_nothing_pure {A} (r : result A) : reads_nothing (pure r).
Proof. exists r, []. intros w. by rewrite after_writes_nil. Qed.

Lemma reads_nothing_mret {A} (a : A) : reads_nothing (mret a).
Proof. exists (Ok a), []. intros w. by rewrite after_writes_nil. Qed.

Lemma reads_nothing_to_csv (df : DataFrame R) path b :
  reads_nothing (to_csv df path b).
Proof.
  unfold to_csv. destruct (writable path).
  - exists (Ok ()), [(path, csv_text b df)]. done.
  - exists (Raise OSError), []. intros w. by rewrite after_writes_nil.
Qed.

Lemma reads_nothing_bind {A B} (m : Py A) (f : A → Py B) :
  reads_nothing m → (∀ a, reads_nothing (f a)) → reads_nothing (m ≫= f).
Proof.
  intros (r & ws & Hm) Hf. destruct r as [a|e].
  - destruct (Hf a) as (r' & ws' & Hfa). exists r', (ws ++ ws').
    intros w. unfold mbind, Py_bind. rewrite Hm, Hfa.
    by rewrite after_writes_app.
  - exists (Raise e), ws. intros w. unfold mbind, Py_bind. by rewrite Hm.
Qed.

Lemma reads_only_generator_bind {A B} (m : Py A) (f : A → Py B) :
  reads_only_generator m → (∀ a, reads_only_generator (f a)) →
  reads_only_generator (m ≫= f).
Proof.
  intros Hm Hf g. destruct (Hm g) as (r & ws & g1 & Hmg). destruct r as [a|e].
  - destruct (Hf a g1) as (r' & ws' & g2 & Hfa). exists r', (ws ++ ws'), g2.
    intros w Hw. unfold mbind, Py_bind. rewrite (Hmg w Hw), Hfa by done.
    by rewrite after_writes_app.
  - exists (Raise e), ws, g1. intros w Hw. unfold mbind, Py_bind.
    by rewrite (Hmg w Hw).
Qed.

Lemma reads_only_generator_PCA k (X : ndarray R) :
  reads_only_generator (PCA_fit_transform k X).
Proof.
  intros g. unfold PCA_fit_transform.
  destruct (mapM (mapM id) X) as [Xr|];
    [|exists (Raise ValueError), [], g; by intros [] <-].
  case_bool_decide; [exists (Raise ValueError), [], g; by intros [] <-|].
  case_bool_decide; [|exists (Raise ValueError), [], g; by intros [] <-].
  destruct (pca_kernel g k Xr) as [Y g'] eqn:Hk.
  eexists _, [], g'. intros w <-. by rewrite Hk.
Qed.

(** After the file has been read, [feature_selection_and_split] is a
    sequence of calls that read nothing from the world. *)
Theorem feature_selection_deterministic inp P n (t : option string) :
  ∃ r ws, ∀ w,
    files w !! inp = t →
    feature_selection_and_split inp P n w = (r, after_writes ws (np_random w) w).
Proof.
  assert (∀ wine : DataFrame R, reads_nothing
            (features ← pure (drop_column wine "quality");
             X ← pure (SimpleImputer_fit_transform features);
             y ← pure (getitem wine "quality");
             importances ← pure (forest_importances n 42 X (s_values y));
             let indices := reverse (argsort importances) in
             let num_features := length indices / 2 in
             let selected_indices := take num_features indices in
             X_selected ← pure (take_columns selected_indices X);
             X_selected_df ← pure (DataFrame_of_array X_selected
                                     (Feature_names num_features));
             let y_df := DataFrame_of_Series y "quality" in
             combined_df ← pure (concat X_selected_df y_df);
             to_csv combined_df (P +:+ ".csv") false;;
             split ← pure (train_test_split X_selected_df y_df 42);
             let '(X_train_selected, X_test_selected,
                   y_train_selected, y_test_selected) := split in
             train_selected_df ← pure (concat X_train_selected y_train_selected);
             test_selected_df ← pure (concat X_test_selected y_test_selected);
             to_csv train_selected_df (P +:+ "_train.csv") false;;
             to_csv test_selected_df (P +:+ "_test.csv") false;;
             mret (X_selected_df, y_df, X_train_selected, X_test_selected,
                   y_train_selected, y_test_selected))) as Hrest.
  { intros wine.
    repeat first
      [ apply reads_nothing_mret
      | apply reads_nothing_bind;
        [ first [apply reads_nothing_pure | apply reads_nothing_to_csv] | intros ? ]
      | match goal with
        | |- context [match ?s with pair _ _ => _ end] =>
            destruct s as [[[? ?] ?] ?]
        end ]. }
  destruct t as [text|].
  - destruct (parse_csv text) as [wine|e] eqn:Hparse.
    + destruct (Hrest wine) as (r & ws & Hr). exists r, ws. intros w Hw.
      rewrite <-Hr. unfold feature_selection_and_split.
      unfold mbind at 1. unfold Py_bind at 1. unfold read_csv.
      by rewrite Hw, Hparse.
    + exists (Raise e), []. intros w Hw. rewrite after_writes_nil.
      unfold feature_selection_and_split, mbind, Py_bind, read_csv.
      by rewrite Hw, Hparse.
  - exists (Raise FileNotFoundError), []. intros w Hw. rewrite after_writes_nil.
    unfold feature_selection_and_split, mbind, Py_bind, read_csv.
    by rewrite Hw.
Qed.

(** [process_heart_disease_data] reads, besides the file, the state of the
    global generator, which the PCA step receives. *)
Theorem pca_deterministic_given_generator inp P (t : option string) g :
  ∃ r ws g', ∀ w,
    files w !! inp = t → np_random w = g →
    process_heart_disease_data inp P w = (r, after_writes ws g' w).
Proof.
  assert (∀ wine : DataFrame R, reads_only_generator
            (y ← pure (getitem wine "quality");
             features ← pure (drop_column wine "quality");
             X ← pure (SimpleImputer_fit_transform features);
             X_pca ← PCA_fit_transform 6 X;
             X_pca_df ← pure (DataFrame_of_array X_pca PC_names);
             let y_df := reset_index (DataFrame_of_Series y "quality") in
             combined_df ← pure (concat X_pca_df y_df);
             to_csv combined_df (P +:+ ".csv") false;;
             split ← pure (train_test_split X_pca_df y_df 42);
             let '(X_train_pca, X_test_pca, y_train_pca, y_test_pca) := split in
             train_pca_df ← pure (concat X_train_pca y_train_pca);
             test_pca_df ← pure (concat X_test_pca y_test_pca);
             to_csv train_pca_df (P +:+ "_train.csv") false;;
             to_csv test_pca_df (P +:+ "_test.csv") false;;
             mret (X_pca_df, y_df, X_train_pca, X_test_pca,
                   y_train_pca, y_test_pca))) as Hrest.
  { intros wine.
    repeat first
      [ apply reads_nothing_generator, reads_nothing_mret
      | apply reads_only_generator_bind;
        [ first [ apply reads_nothing_generator, reads_nothing_pure
                | apply reads_nothing_generator, reads_nothing_to_csv
                | apply reads_only_generator_PCA ]
        | intros ? ]
      | match goal with
        | |- context [match ?s with pair _ _ => _ end] =>
            destruct s as [[[? ?] ?] ?]
        end ]. }
  destruct t as [text|].
  - destruct (parse_csv text) as [wine|e] eqn:Hparse.
    + destruct (Hrest wine g) as (r & ws & g' & Hr). exists r, ws, g'.
      intros w Hw Hg. rewrite <-Hr by done.
      unfold process_heart_disease_data.
      unfold mbind at 1. unfold Py_bind at 1. unfold read_csv.
      by rewrite Hw, Hparse.
    + exists (Raise e), [], g. intros w Hw <-. rewrite after_writes_nil.
      unfold process_heart_disease_data, mbind, Py_bind, read_csv.
      by rewrite Hw, Hparse.
  - exists (Raise FileNotFoundError), [], g. intros w Hw <-.
    rewrite after_writes_nil.
    unfold process_heart_disease_data, mbind, Py_bind, read_csv.
    by rewrite Hw.
Qed.

End Determinism.

(** ** The statements the two functions share *)

Section Tail.

Context `{Runtime}.

Lemma process_heart_disease_data_tail inp P w text wine y features X Xr Yr g X_pca_df :
  files w !! inp = Some text →
  parse_csv text = Ok wine →
  getitem wine "quality" = Ok y →
  drop_column wine "quality" = Ok features →
  SimpleImputer_fit_transform features = Ok X →
  mapM (mapM id) X = Some Xr →
  6 ≤ length X `min` shape1 X →
  pca_kernel (np_random w) 6 Xr = (Ok Yr, g) →
  DataFrame_of_array ((λ row : list R, Some <$> row) <$> Yr) PC_names
    = Ok X_pca_df →
  process_heart_disease_data inp P w
  = save_and_split X_pca_df (y_df_pca y) P (mkWorld (files w) g).
Proof.
  intros Htext Hwine Hy Hfeat HX HXr Hk Hkern Hdf.
  assert (PCA_fit_transform 6 X w
          = (Ok ((λ row : list R, Some <$> row) <$> Yr), mkWorld (files w) g))
    as Hpca.
  { apply PCA_fit_transform_Ok. exists Xr, Yr, g. split_and!; try done.
    - intros ->. simpl in Hk. lia.
    - lia. }
  unfold process_heart_disease_data, save_and_split, mbind, Py_bind, read_csv, pure.
  rewrite Htext, Hwine, Hy, Hfeat, HX, Hpca, Hdf. reflexivity.
Qed.

Lemma feature_selection_and_split_tail inp P n w text wine features X y imp
    X_selected X_selected_df :
  files w !! inp = Some text →
  parse_csv text = Ok wine →
  drop_column wine "quality" = Ok features →
  SimpleImputer_fit_transform features = Ok X →
  getitem wine "quality" = Ok y →
  forest_importances n 42 X (s_values y) = Ok imp →
  take_columns (selected_indices imp) X = Ok X_selected →
  DataFrame_of_array X_selected (Feature_names (num_features_of imp))
    = Ok X_selected_df →
  feature_selection_and_split inp P n w
  = save_and_split X_selected_df (y_df_selected y) P w.
Proof.
  intros Htext Hwine Hfeat HX Hy Himp Hsel Hdf.
  unfold feature_selection_and_split, save_and_split, mbind, Py_bind, read_csv, pure.
  rewrite Htext, Hwine, Hfeat, HX, Hy, Himp.
  unfold selected_indices, num_features_of in Hsel, Hdf.
  rewrite Hsel, Hdf. reflexivity.
Qed.

End Tail.

Section TailProps.

Context `{Runtime}.

Lemma save_and_split_intro X_df y_df P w combined_df
    X_train X_test y_train y_test train_df test_df :
  concat X_df y_df = Ok combined_df →
  train_test_split X_df y_df 42 = Ok (X_train, X_test, y_train, y_test) →
  concat X_train y_train = Ok train_df →
  concat X_test y_test = Ok test_df →
  writable (P +:+ ".csv") = true →
  writable (P +:+ "_train.csv") = true →
  writable (P +:+ "_test.csv") = true →
  save_and_split X_df y_df P w
  = (Ok (X_df, y_df, X_train, X_test, y_train, y_test),
     mkWorld
       (<[P +:+ "_test.csv" := csv_text false test_df]>
          (<[P +:+ "_train.csv" := csv_text false train_df]>
             (<[P +:+ ".csv" := csv_text false combined_df]> (files w))))
       (np_random w)).
Proof.
  intros Hc Hs Htr Hte H1 H2 H3.
  unfold save_and_split, mbind, Py_bind, pure, to_csv.
  rewrite Hc, H1, Hs, Htr, Hte, H2, H3. reflexivity.
Qed.

Lemma save_and_split_unwritable X_df y_df P w combined_df :
  concat X_df y_df = Ok combined_df →
  writable (P +:+ ".csv") = false →
  save_and_split X_df y_df P w = (Raise OSError, w).
Proof.
  intros Hc H1. unfold save_and_split, mbind, Py_bind, pure, to_csv.
  by rewrite Hc, H1.
Qed.

Lemma save_and_split_split_Raise X_df y_df P w combined_df e :
  concat X_df y_df = Ok combined_df →
  writable (P +:+ ".csv") = true →
  train_test_split X_df y_df 42 = Raise e →
  save_and_split X_df y_df P w
  = (Raise e,
     mkWorld (<[P +:+ ".csv" := csv_text false combined_df]> (files w))
       (np_random w)).
Proof.
  intros Hc H1 Hs. unfold save_and_split, mbind, Py_bind, pure, to_csv.
  by rewrite Hc, H1, Hs.
Qed.

Lemma save_and_split_concat_Raise X_df y_df P w e :
  concat X_df y_df = Raise e →
  save_and_split X_df y_df P w = (Raise e, w).
Proof.
  intros Hc. unfold save_and_split, mbind, Py_bind, pure. by rewrite Hc.
Qed.

Lemma iloc_returns (df : DataFrame R) rows :
  wf_frame df → Forall (λ i, i < nrows df) rows →
  ∃ df', iloc df rows = Ok df'.
Proof.
  intros [Hidx _] Hrows.
  assert (∃ labels, mapM (λ i, index df !! i) rows = Some labels) as [labels Hl].
  { apply mapM_is_Some. eapply Forall_impl; [exact Hrows|].
    intros i Hi; simpl in *. apply lookup_lt_is_Some. unfold nrows in Hi. lia. }
  assert (∃ vals, mapM (λ i, values df !! i) rows = Some vals) as [vals Hv].
  { apply mapM_is_Some. eapply Forall_impl; [exact Hrows|].
    intros i Hi; simpl in *. by apply lookup_lt_is_Some. }
  eexists. unfold iloc. rewrite Hl, Hv. reflexivity.
Qed.

Lemma positions_lt seed n :
  rng_permutation_permutation →
  Forall (λ i, i < n) (test_positions seed n)
  ∧ Forall (λ i, i < n) (train_positions seed n).
Proof.
  intros Hperm. pose proof (positions_partition seed n Hperm) as Hp.
  assert (Forall (λ i, i < n) (test_positions seed n ++ train_positions seed n))
    as Hall.
  { rewrite Hp. apply Forall_forall. intros i Hi%elem_of_seq. lia. }
  by apply Forall_app in Hall.
Qed.

Lemma positions_NoDup seed n :
  rng_permutation_permutation →
  NoDup (test_positions seed n) ∧ NoDup (train_positions seed n).
Proof.
  intros Hperm. pose proof (positions_partition seed n Hperm) as Hp.
  assert (NoDup (test_positions seed n ++ train_positions seed n)) as Hnd.
  { rewrite Hp. apply NoDup_seq. }
  apply NoDup_app in Hnd as (? & _ & ?). done.
Qed.

Lemma n_test_of_lt n : 2 ≤ n → n_test_of n < n.
Proof.
  intros Hn. unfold n_test_of.
  apply Nat.Div0.div_lt_upper_bound. lia.
Qed.

Lemma train_test_split_returns (X y : DataFrame R) seed :
  rng_permutation_permutation →
  wf_frame X → wf_frame y → nrows y = nrows X → 2 ≤ nrows X →
  ∃ X_train X_test y_train y_test,
    train_test_split X y seed = Ok (X_train, X_test, y_train, y_test).
Proof.
  intros Hperm HX Hy Hn H2.
  destruct (positions_lt seed (nrows X) Hperm) as [Hte Htr].
  destruct (iloc_returns X _ HX Htr) as [X_train HXtr].
  destruct (iloc_returns X _ HX Hte) as [X_test HXte].
  rewrite <-Hn in Hte, Htr.
  destruct (iloc_returns y _ Hy Htr) as [y_train Hytr].
  destruct (iloc_returns y _ Hy Hte) as [y_test Hyte].
  rewrite Hn in Hytr, Hyte.
  exists X_train, X_test, y_train, y_test.
  apply train_test_split_Ok. split_and!; try done.
  pose proof (n_test_of_lt _ H2). lia.
Qed.

Lemma concat_returns (a b : DataFrame R) :
  index a = index b ∨ (NoDup (index a) ∧ NoDup (index b)) →
  ∃ c, concat a b = Ok c.
Proof.
  intros Hidx. unfold concat.
  destruct (decide (index a = index b)); [by eexists|].
  destruct Hidx as [?|Hnd]; [done|].
  rewrite decide_True by done. by eexists.
Qed.

Lemma concat_Raise (a b : DataFrame R) e :
  concat a b = Raise e →
  e = InvalidIndexError ∧ index a ≠ index b
  ∧ ¬ (NoDup (index a) ∧ NoDup (index b)).
Proof.
  unfold concat. repeat case_decide; intros; by simplify_eq.
Qed.

Lemma iloc_index_NoDup (df df' : DataFrame R) rows :
  NoDup (index df) → NoDup rows → iloc df rows = Ok df' → NoDup (index df').
Proof.
  intros Hnd Hrows (labels & vals & Hl & _ & ->)%iloc_Ok. simpl.
  clear vals. induction Hl as [|i l rows labels Hi Hl IH]; [constructor|].
  apply NoDup_cons in Hrows as [Hni Hrows].
  apply NoDup_cons. split; [|by apply IH].
  intros Hin. apply Hni. clear IH Hrows Hni.
  apply list_elem_of_lookup in Hin as [k Hk].
  destruct (Forall2_lookup_r _ _ _ _ _ Hl Hk) as (j & Hj & Hjl).
  assert (j = i) as <- by (eapply NoDup_lookup; eauto).
  apply list_elem_of_lookup. eauto.
Qed.

Lemma save_and_split_returns (X_df y_df : DataFrame R) P w :
  rng_permutation_permutation →
  wf_frame X_df → wf_frame y_df → nrows y_df = nrows X_df → 2 ≤ nrows X_df →
  index X_df = index y_df ∨ (NoDup (index X_df) ∧ NoDup (index y_df)) →
  Forall (λ path, writable path = true) (output_paths P) →
  ∃ X_train X_test y_train y_test w',
    save_and_split X_df y_df P w
    = (Ok (X_df, y_df, X_train, X_test, y_train, y_test), w').
Proof.
  intros Hperm HX Hy Hn H2 Hidx Hw.
  destruct (concat_returns _ _ Hidx) as [combined_df Hc].
  destruct (train_test_split_returns X_df y_df 42 Hperm HX Hy Hn H2)
    as (X_train & X_test & y_train & y_test & Hs).
  pose proof Hs as (_ & _ & HXtr & HXte & Hytr & Hyte)%train_test_split_Ok.
  destruct (positions_NoDup 42 (nrows X_df) Hperm) as [Hndte Hndtr].
  assert (∃ train_df, concat X_train y_train = Ok train_df) as [train_df Htr].
  { apply concat_returns. destruct Hidx as [Heq | [HndX Hndy]].
    - left. exact (iloc_same_index _ _ _ _ _ Heq HXtr Hytr).
    - right. split; [exact (iloc_index_NoDup _ _ _ HndX Hndtr HXtr)
                    | exact (iloc_index_NoDup _ _ _ Hndy Hndtr Hytr)]. }
  assert (∃ test_df, concat X_test y_test = Ok test_df) as [test_df Hte].
  { apply concat_returns. destruct Hidx as [Heq | [HndX Hndy]].
    - left. exact (iloc_same_index _ _ _ _ _ Heq HXte Hyte).
    - right. split; [exact (iloc_index_NoDup _ _ _ HndX Hndte HXte)
                    | exact (iloc_index_NoDup _ _ _ Hndy Hndte Hyte)]. }
  unfold output_paths in Hw.
  apply Forall_cons in Hw as [H1 Hw]. apply Forall_cons in Hw as [H3 Hw].
  apply Forall_cons in Hw as [H4 _].
  exists X_train, X_test, y_train, y_test. eexists.
  by eapply save_and_split_intro.
Qed.

End TailProps.

(** ** When the PCA path returns *)

Section PcaReturns.

Context `{Runtime}.

Lemma impute_dense m (X0 X : ndarray R) :
  X0 ≠ [] → m ≠ 0 → rectangular m X0 → impute m X0 = Ok X →
  Forall (Forall is_Some) X
  ∧ rectangular (length (retained m X0)) X
  ∧ length X = length X0.
Proof.
  intros HX0 Hm Hrect HX. rewrite (impute_Ok m X0 HX0 Hm Hrect) in HX.
  injection HX as <-. split_and!.
  - apply Forall_fmap, Forall_forall. intros row _. apply fill_row_is_Some.
  - apply Forall_fmap. eapply Forall_impl; [exact Hrect|].
    intros row Hrow; simpl in *.
    rewrite length_fill_row; rewrite ?length_fmap, ?length_select; try done.
    all: apply Forall_forall; intros j Hj%retained_lt; lia.
  - by rewrite length_fmap.
Qed.

Lemma dense_rows m (X : ndarray R) :
  Forall (Forall is_Some) X → rectangular m X →
  ∃ Xr, mapM (mapM id) X = Some Xr ∧ rectangular m Xr ∧ length Xr = length X.
Proof.
  intros Hd Hrect.
  assert (is_Some (mapM (mapM id) X)) as [Xr HXr].
  { apply mapM_is_Some. eapply Forall_impl; [exact Hd|].
    intros row Hrow; simpl. apply mapM_is_Some.
    eapply Forall_impl; [exact Hrow|]. done. }
  exists Xr. split; [done|].
  apply mapM_Some in HXr. split; [|by apply Forall2_length in HXr].
  unfold rectangular in *.
  eapply Forall2_Forall_r; [exact HXr|].
  eapply Forall_impl; [exact Hrect|]. intros row Hrow row' Hrow'; simpl in *.
  apply mapM_Some, Forall2_length in Hrow'. congruence.
Qed.

(** The matrix the imputer hands on: one row per row of the frame, the
    same width in every row, no missing cell. *)
Lemma SimpleImputer_fit_transform_dense (features : DataFrame R) (X : ndarray R) :
  wf_frame features →
  SimpleImputer_fit_transform features = Ok X →
  ∃ Xr, mapM (mapM id) X = Some Xr
    ∧ rectangular (shape1 X) X ∧ rectangular (shape1 X) Xr
    ∧ length Xr = length X ∧ length X = nrows features ∧ X ≠ [].
Proof.
  intros Hwf HX.
  destruct (SimpleImputer_fit_transform_length _ _ HX) as [Hlen Hne].
  destruct (SimpleImputer_fit_transform_Ok _ _ Hwf HX)
    as (X0 & _ & Hrect & HX0 & Hm & Himp).
  destruct (impute_dense _ _ _ HX0 Hm Hrect Himp) as (Hd & HrX & _).
  rewrite <-(shape1_rectangular _ _ HrX Hne) in HrX.
  destruct (dense_rows _ _ Hd HrX) as (Xr & HXr & Hr & Hl).
  exists Xr. done.
Qed.

Lemma getitem_returns (df : DataFrame R) c :
  c ∈ columns df → ∃ s, getitem df c = Ok s.
Proof.
  intros Hc. unfold getitem.
  destruct (list_find (λ x, x = c) (columns df)) as [[j x]|] eqn:Hfind;
    [by eexists|].
  apply list_find_None in Hfind. rewrite Forall_forall in Hfind.
  by destruct (Hfind c Hc).
Qed.

Lemma drop_column_returns (df : DataFrame R) c :
  c ∈ columns df → ∃ df', drop_column df c = Ok df'.
Proof. intros Hc. unfold drop_column. rewrite decide_True by done. by eexists. Qed.

(** The feature frame of the PCA path, under the contracts of the
    decomposition. *)
Lemma X_pca_df_built (X : ndarray R) Xr Yr g g' :
  pca_kernel_rows → pca_kernel_columns →
  rectangular (shape1 X) Xr → 6 ≤ shape1 X →
  pca_kernel g 6 Xr = (Ok Yr, g') →
  ∃ X_pca_df,
    DataFrame_of_array ((λ row : list R, Some <$> row) <$> Yr) PC_names
      = Ok X_pca_df
    ∧ wf_frame X_pca_df
    ∧ nrows X_pca_df = length Xr
    ∧ index X_pca_df = RangeIndex (length Xr)
    ∧ columns X_pca_df = PC_names.
Proof.
  intros Hrows Hcols Hrect Hk Hkern.
  pose proof (Hrows _ _ _ _ _ Hkern) as Hlen.
  pose proof (Hcols _ _ _ _ _ _ Hrect Hk Hkern) as Hw.
  eexists. split.
  { apply DataFrame_of_array_Ok. split; [|reflexivity].
    apply Forall_fmap. eapply Forall_impl; [exact Hw|].
    intros row Hrow; simpl in *. by rewrite length_fmap. }
  split_and!.
  - eapply DataFrame_of_array_wf. apply DataFrame_of_array_Ok.
    split; [|reflexivity].
    apply Forall_fmap. eapply Forall_impl; [exact Hw|].
    intros row Hrow; simpl in *. by rewrite length_fmap.
  - unfold nrows; simpl. by rewrite !length_fmap.
  - simpl. by rewrite !length_fmap, Hlen.
  - done.
Qed.

Lemma process_heart_disease_data_reaches_tail inp P w text wine y features X :
  parse_csv_wf → pca_kernel_rows → pca_kernel_columns →
  files w !! inp = Some text →
  parse_csv text = Ok wine →
  getitem wine "quality" = Ok y →
  drop_column wine "quality" = Ok features →
  SimpleImputer_fit_transform features = Ok X →
  6 ≤ length X → 6 ≤ shape1 X →
  (∀ Xr, mapM (mapM id) X = Some Xr →
     ∃ Yr g, pca_kernel (np_random w) 6 Xr = (Ok Yr, g)) →
  ∃ X_pca_df g,
    process_heart_disease_data inp P w
    = save_and_split X_pca_df (y_df_pca y) P (mkWorld (files w) g)
    ∧ wf_frame X_pca_df ∧ wf_frame (y_df_pca y)
    ∧ nrows X_pca_df = nrows wine
    ∧ nrows (y_df_pca y) = nrows wine
    ∧ index X_pca_df = index (y_df_pca y)
    ∧ columns X_pca_df = PC_names
    ∧ 6 ≤ nrows wine.
Proof.
  intros Hparse Hrows Hcols Htext Hwine Hy Hfeat HX Hn Hm Hkern.
  destruct (Hparse _ _ Hwine) as [Hwf _].
  pose proof (drop_column_wf _ _ _ Hwf Hfeat) as Hwff.
  destruct (drop_column_Ok _ _ _ Hfeat) as (_ & _ & Hnf & _).
  destruct (SimpleImputer_fit_transform_dense _ _ Hwff HX)
    as (Xr & HXr & HrX & HrXr & HlXr & HlX & Hne).
  destruct (Hkern Xr HXr) as (Yr & g & Hk).
  destruct (X_pca_df_built X Xr Yr _ g Hrows Hcols HrXr Hm Hk)
    as (X_pca_df & Hdf & Hwfdf & Hnr & Hidx & Hc).
  destruct (y_df_pca_facts wine y Hwf Hy) as (Hwfy & Hny & Hiy & _).
  exists X_pca_df, g. split_and!; try done.
  - eapply process_heart_disease_data_tail; try done. lia.
  - congruence.
  - rewrite Hidx, Hiy. f_equal. congruence.
  - lia.
Qed.

(** [process_heart_disease_data] returns whenever the imputed matrix has at
    least six rows and six columns, the decomposition returns and the three
    paths can be written: the frames it builds always fit together, and the
    split of six or more rows never fails. *)
Theorem process_heart_disease_data_returns inp P w text wine y features X :
  parse_csv_wf → pca_kernel_rows → pca_kernel_columns →
  rng_permutation_permutation →
  files w !! inp = Some text →
  parse_csv text = Ok wine →
  getitem wine "quality" = Ok y →
  drop_column wine "quality" = Ok features →
  SimpleImputer_fit_transform features = Ok X →
  6 ≤ length X → 6 ≤ shape1 X →
  (∀ Xr, mapM (mapM id) X = Some Xr →
     ∃ Yr g, pca_kernel (np_random w) 6 Xr = (Ok Yr, g)) →
  Forall (λ path, writable path = true) (output_paths P) →
  ∃ X_pca_df X_train X_test y_train y_test w',
    process_heart_disease_data inp P w
    = (Ok (X_pca_df, y_df_pca y, X_train, X_test, y_train, y_test), w').
Proof.
  intros Hparse Hrows Hcols Hperm Htext Hwine Hy Hfeat HX Hn Hm Hkern Hw.
  destruct (process_heart_disease_data_reaches_tail inp P w text wine y
              features X Hparse Hrows Hcols Htext Hwine Hy Hfeat HX Hn Hm Hkern)
    as (X_pca_df & g & -> & HwfX & Hwfy & HnX & Hny & Hidx & _ & H6).
  destruct (save_and_split_returns X_pca_df (y_df_pca y) P
              (mkWorld (files w) g) Hperm HwfX Hwfy)
    as (X_train & X_test & y_train & y_test & w' & Hrun);
    [congruence | lia | by left | done |].
  by exists X_pca_df, X_train, X_test, y_train, y_test, w'.
Qed.

End PcaReturns.

(** ** When the selection path returns, and two inputs on which it stops *)

Section RfReturns.

Context `{Runtime}.

(** The feature frame of the selection path, under the contracts of the
    forest and of [argsort]. *)
Lemma X_selected_df_built (X : ndarray R) (imp : list R) :
  argsort_permutation →
  rectangular (shape1 X) X → length imp = shape1 X →
  ∃ X_selected_df,
    take_columns (selected_indices imp) X
      = Ok (select (selected_indices imp) <$> X)
    ∧ DataFrame_of_array (select (selected_indices imp) <$> X)
        (Feature_names (num_features_of imp)) = Ok X_selected_df
    ∧ wf_frame X_selected_df
    ∧ nrows X_selected_df = length X
    ∧ index X_selected_df = RangeIndex (length X)
    ∧ columns X_selected_df = Feature_names (length imp / 2)
    ∧ values X_selected_df
      = (λ row, cell_of_float <$> select (selected_indices imp) row) <$> X.
Proof.
  intros Hperm Hrect Himp.
  destruct (selected_indices_spec imp Hperm) as (Hlen & _ & Hlt).
  rewrite Himp in Hlt.
  assert (DataFrame_of_array (select (selected_indices imp) <$> X)
            (Feature_names (num_features_of imp))
          = Ok (mkDataFrame (Feature_names (num_features_of imp))
                  (RangeIndex (length (select (selected_indices imp) <$> X)))
                  ((λ row : list (float R), cell_of_float <$> row)
                     <$> (select (selected_indices imp) <$> X)))) as Hdf.
  { apply DataFrame_of_array_Ok. split; [|done].
    rewrite length_Feature_names, (num_features_of_length imp Hperm).
    apply Forall_fmap. eapply Forall_impl; [exact Hrect|].
    intros row Hrow; simpl in *. rewrite length_select; [done|].
    by rewrite Hrow. }
  eexists. split_and!; [by eapply take_columns_Ok | exact Hdf | ..].
  - by eapply DataFrame_of_array_wf.
  - unfold nrows; simpl. by rewrite !length_fmap.
  - simpl. by rewrite length_fmap.
  - simpl. by rewrite (num_features_of_length imp Hperm).
  - simpl. by rewrite <-list_fmap_compose.
Qed.

Lemma feature_selection_and_split_reaches_tail inp P n w text wine features
    X y imp :
  parse_csv_wf → forest_importances_length → argsort_permutation →
  files w !! inp = Some text →
  parse_csv text = Ok wine →
  drop_column wine "quality" = Ok features →
  SimpleImputer_fit_transform features = Ok X →
  getitem wine "quality" = Ok y →
  forest_importances n 42 X (s_values y) = Ok imp →
  ∃ X_selected_df,
    feature_selection_and_split inp P n w
    = save_and_split X_selected_df (y_df_selected y) P w
    ∧ wf_frame X_selected_df ∧ wf_frame (y_df_selected y)
    ∧ nrows X_selected_df = nrows wine
    ∧ nrows (y_df_selected y) = nrows wine
    ∧ index X_selected_df = RangeIndex (nrows wine)
    ∧ index (y_df_selected y) = index wine
    ∧ columns X_selected_df = Feature_names (length imp / 2)
    ∧ values X_selected_df
      = (λ row, cell_of_float <$> select (selected_indices imp) row) <$> X.
Proof.
  intros Hparse Hforest Hperm Htext Hwine Hfeat HX Hy Himp.
  destruct (Hparse _ _ Hwine) as [Hwf _].
  pose proof (drop_column_wf _ _ _ Hwf Hfeat) as Hwff.
  destruct (drop_column_Ok _ _ _ Hfeat) as (_ & _ & Hnf & _).
  destruct (SimpleImputer_fit_transform_dense _ _ Hwff HX)
    as (Xr & _ & HrX & _ & _ & HlX & Hne).
  destruct (X_selected_df_built X imp Hperm HrX (Hforest _ _ _ _ _ Himp))
    as (X_selected_df & Htake & Hdf & HwfX & Hnr & Hidx & Hc & Hv).
  destruct (y_df_selected_facts wine y Hwf Hy) as (Hwfy & Hny & Hiy & _).
  exists X_selected_df. split_and!; try done.
  - by eapply feature_selection_and_split_tail.
  - congruence.
  - rewrite Hidx. f_equal. congruence.
Qed.

(** [feature_selection_and_split] returns whenever the forest fits, the
    input has at least two rows, no two rows of the input carry the same
    label and the three paths can be written. *)
Theorem feature_selection_and_split_returns inp P n w text wine features
    X y imp :
  parse_csv_wf → forest_importances_length → argsort_permutation →
  rng_permutation_permutation →
  files w !! inp = Some text →
  parse_csv text = Ok wine →
  drop_column wine "quality" = Ok features →
  SimpleImputer_fit_transform features = Ok X →
  getitem wine "quality" = Ok y →
  forest_importances n 42 X (s_values y) = Ok imp →
  2 ≤ nrows wine →
  NoDup (index wine) →
  Forall (λ path, writable path = true) (output_paths P) →
  ∃ X_selected_df X_train X_test y_train y_test w',
    feature_selection_and_split inp P n w
    = (Ok (X_selected_df, y_df_selected y, X_train, X_test, y_train, y_test),
       w').
Proof.
  intros Hparse Hforest Hperm Hrng Htext Hwine Hfeat HX Hy Himp H2 Hnd Hw.
  destruct (feature_selection_and_split_reaches_tail inp P n w text wine
              features X y imp Hparse Hforest Hperm Htext Hwine Hfeat HX Hy Himp)
    as (X_selected_df & -> & HwfX & Hwfy & HnX & Hny & HiX & Hiy & _).
  destruct (save_and_split_returns X_selected_df (y_df_selected y) P w
              Hrng HwfX Hwfy)
    as (X_train & X_test & y_train & y_test & w' & Hrun);
    [congruence | lia | | done |].
  { right. rewrite HiX, Hiy. split; [apply NoDup_RangeIndex | done]. }
  by exists X_selected_df, X_train, X_test, y_train, y_test, w'.
Qed.

(** On an input with a single data row [feature_selection_and_split] writes
    [P.csv] and then raises the [ValueError] of [train_test_split], whose
    train set would be empty: the train and test files are not written. *)
Theorem single_row_selection_writes_full_table_only inp P n w text wine
    features X y imp :
  parse_csv_wf → forest_importances_length → argsort_permutation →
  files w !! inp = Some text →
  parse_csv text = Ok wine →
  drop_column wine "quality" = Ok features →
  SimpleImputer_fit_transform features = Ok X →
  getitem wine "quality" = Ok y →
  forest_importances n 42 X (s_values y) = Ok imp →
  nrows wine = 1 →
  writable (P +:+ ".csv") = true →
  ∃ combined_df,
    feature_selection_and_split inp P n w
    = (Raise ValueError,
       mkWorld (<[P +:+ ".csv" := csv_text false combined_df]> (files w))
         (np_random w))
    ∧ columns combined_df = Feature_names (length imp / 2) ++ ["quality"].
Proof.
  intros Hparse Hforest Hperm Htext Hwine Hfeat HX Hy Himp H1 Hw.
  destruct (feature_selection_and_split_reaches_tail inp P n w text wine
              features X y imp Hparse Hforest Hperm Htext Hwine Hfeat HX Hy Himp)
    as (X_selected_df & -> & HwfX & Hwfy & HnX & Hny & HiX & Hiy & Hc & _).
  destruct (Hparse _ _ Hwine) as [[Hlen _] _].
  assert (NoDup (index wine)) as Hnd.
  { unfold nrows in H1. rewrite H1 in Hlen.
    destruct (index wine) as [|l [|??]]; simplify_eq/=.
    apply NoDup_singleton. }
  destruct (concat_returns X_selected_df (y_df_selected y)) as [combined_df Hcc].
  { right. rewrite HiX, Hiy. split; [apply NoDup_RangeIndex | done]. }
  exists combined_df. split.
  - apply save_and_split_split_Raise; [done..|].
    unfold train_test_split. rewrite Hny, HnX, H1.
    rewrite bool_decide_true by done. reflexivity.
  - rewrite (concat_columns _ _ _ Hcc), Hc.
    by destruct (y_df_selected_facts wine y) as (_ & _ & _ & -> & _);
      [by destruct (Hparse _ _ Hwine)|done|].
Qed.

(** When two rows of the input carry the same label,
    [feature_selection_and_split] raises [InvalidIndexError] at the first
    [pd.concat], before any file is written: the label frame keeps the
    labels of the input, and [concat] cannot join them with the default
    labels of the feature frame. *)
Theorem repeated_labels_stop_selection inp P n w text wine features X y imp :
  parse_csv_wf → forest_importances_length → argsort_permutation →
  files w !! inp = Some text →
  parse_csv text = Ok wine →
  drop_column wine "quality" = Ok features →
  SimpleImputer_fit_transform features = Ok X →
  getitem wine "quality" = Ok y →
  forest_importances n 42 X (s_values y) = Ok imp →
  ¬ NoDup (index wine) →
  feature_selection_and_split inp P n w = (Raise InvalidIndexError, w).
Proof.
  intros Hparse Hforest Hperm Htext Hwine Hfeat HX Hy Himp Hnd.
  destruct (feature_selection_and_split_reaches_tail inp P n w text wine
              features X y imp Hparse Hforest Hperm Htext Hwine Hfeat HX Hy Himp)
    as (X_selected_df & -> & HwfX & Hwfy & HnX & Hny & HiX & Hiy & _).
  apply save_and_split_concat_Raise. unfold concat.
  rewrite decide_False.
  - rewrite decide_False; [done|]. rewrite Hiy. by intros [_ ?].
  - rewrite HiX, Hiy. intros Heq. apply Hnd. rewrite <-Heq.
    apply NoDup_RangeIndex.
Qed.

End RfReturns.

(** ** The join on the row labels *)

Section LabelJoin.

Context `{Runtime}.

Lemma list_find_RangeIndex n k :
  k < n →
  list_find (λ x, x = Z.of_nat k) (RangeIndex n) = Some (k, Z.of_nat k).
Proof.
  intros Hk. apply list_find_Some. split_and!.
  - by apply lookup_RangeIndex.
  - done.
  - intros j y Hj Hlt. unfold RangeIndex in Hj.
    rewrite list_lookup_fmap in Hj.
    destruct (seq 0 n !! j) as [j'|] eqn:Hs; simplify_eq/=.
    apply lookup_seq in Hs as [-> _]. lia.
Qed.

Lemma filter_none {A} (P : A → Prop) `{!∀ x, Decision (P x)} (l : list A) :
  Forall (λ x, ¬ P x) l → filter P l = [].
Proof.
  induction 1 as [|a l Ha _ IH]; [done|].
  by rewrite filter_cons_False.
Qed.

Lemma lookup_reindex labels (df : DataFrame R) k l :
  labels !! k = Some l →
  reindex labels df !! k
  = Some match list_find (λ x, x = l) (index df) with
         | Some (i, _) =>
             default (replicate (length (columns df)) CNaN) (values df !! i)
         | None => replicate (length (columns df)) CNaN
         end.
Proof. intros Hk. unfold reindex. by rewrite list_lookup_fmap, Hk. Qed.

Lemma label_row labels (q : list (cell R)) (yf : DataFrame R) l :
  index yf = labels → length (columns yf) = 1 →
  values yf = (λ c, [c]) <$> q →
  match list_find (λ x, x = l) (index yf) with
  | Some (i, _) =>
      default (replicate (length (columns yf)) CNaN) (values yf !! i)
  | None => replicate (length (columns yf)) CNaN
  end = [quality_of_label labels q l].
Proof.
  intros -> Hc Hv. unfold quality_of_label. rewrite Hc, Hv.
  destruct (list_find _ _) as [[i x]|]; [|done].
  rewrite list_lookup_fmap. by destruct (q !! i).
Qed.

(** [pd.concat([X, y], axis=1)] when [X] carries the default labels and [y]
    is one column: row [k] holds row [k] of [X] and the cell of [y] that is
    labelled [k]. *)
Lemma concat_RangeIndex_rows (X yf c : DataFrame R) (q : list (cell R)) :
  wf_frame X → wf_frame yf → index X = RangeIndex (nrows X) →
  nrows yf = nrows X → length (columns yf) = 1 →
  values yf = (λ c, [c]) <$> q →
  concat X yf = Ok c →
  nrows c
  = nrows X + length (filter (λ l, l ∉ RangeIndex (nrows X)) (index yf))
  ∧ ∀ k, k < nrows X →
      ∃ f, values X !! k = Some f
        ∧ values c !! k
          = Some (f ++ [quality_of_label (index yf) q (Z.of_nat k)]).
Proof.
  intros [HlX _] [Hly _] HiX Hn Hcol Hv. unfold concat.
  assert (∀ k, k < nrows X → ∃ f, values X !! k = Some f) as HXk.
  { intros k Hk. by apply lookup_lt_is_Some. }
  destruct (decide (index X = index yf)) as [Heq|Hne].
  - intros [= <-]. unfold nrows at 1; simpl. split.
    + rewrite <-Heq, HiX, filter_none by (apply Forall_forall; intros ???; done).
      rewrite length_zip_with. unfold nrows in *. simpl. lia.
    + intros k Hk. destruct (HXk k Hk) as [f Hf]. exists f. split; [done|].
      rewrite lookup_zip_with, Hf. simpl.
      rewrite <-Heq, HiX. unfold quality_of_label.
      rewrite list_find_RangeIndex by done.
      rewrite Hv, list_lookup_fmap.
      destruct (q !! k) as [c'|] eqn:Hqk; [done|].
      apply lookup_ge_None in Hqk. apply (f_equal length) in Hv.
      rewrite length_fmap in Hv. unfold nrows in *. lia.
  - case_decide as Hnd; [|done]. intros [= <-]. unfold nrows at 1; simpl. split.
    + rewrite length_zip_with, !length_reindex, length_app, HiX.
      rewrite length_RangeIndex. lia.
    + intros k Hk. destruct (HXk k Hk) as [f Hf]. exists f. split; [done|].
      assert ((index X ++ filter (λ l, l ∉ index X) (index yf)) !! k
              = Some (Z.of_nat k)) as Hlab.
      { rewrite lookup_app_l by (rewrite HiX, length_RangeIndex; done).
        rewrite HiX. by apply lookup_RangeIndex. }
      rewrite lookup_zip_with.
      rewrite (lookup_reindex _ X k _ Hlab), (lookup_reindex _ yf k _ Hlab).
      simpl. rewrite (label_row (index yf) q yf) by done.
      rewrite HiX at 1. rewrite list_find_RangeIndex by done.
      by rewrite Hf.
Qed.

End LabelJoin.

Section LabelJoinTheorem.

Context `{Runtime}.

(** What [feature_selection_and_split] writes to [P.csv], whatever the row
    labels of the input: row [k] holds the selected features of input row
    [k], followed by the quality of the input row whose label is [k], or by
    a missing value when no row has this label; the rows for the labels
    that are not a position come after these. *)
Theorem selection_pairs_rows_by_label inp P n w text wine y
    X y_df X_train X_test y_train y_test w' :
  parse_csv_wf →
  files w !! inp = Some text →
  parse_csv text = Ok wine →
  getitem wine "quality" = Ok y →
  feature_selection_and_split inp P n w
    = (Ok (X, y_df, X_train, X_test, y_train, y_test), w') →
  ∃ combined_df,
    files w' !! (P +:+ ".csv") = Some (csv_text false combined_df)
    ∧ nrows X = nrows wine
    ∧ nrows combined_df
      = nrows wine
        + length (filter (λ l, l ∉ RangeIndex (nrows wine)) (index wine))
    ∧ ∀ k, k < nrows wine →
        ∃ f, values X !! k = Some f
          ∧ values combined_df !! k
            = Some (f ++ [quality_of_label (index wine) (s_values y)
                            (Z.of_nat k)]).
Proof.
  intros Hwf Htext Hwine Hy Hrun.
  destruct (returns_files inp P w _ _ _ _ _ _ w' Hwf
              (or_intror (ex_intro _ n Hrun)))
    as (combined & train_df & test_df & Hc & _ & _ & Hf1 & _).
  exists combined. split; [done|].
  apply feature_selection_and_split_Ok in Hrun
    as (text' & wine' & features & X0 & y' & imp & Xsel & df & combined'
        & Xtr & Xte & ytr & yte & train_df' & test_df'
        & Htext' & Hwine' & _ & _ & Hy' & _ & _ & Hdf & _
        & Hsplit & _ & _ & _ & _ & _ & Hout & _).
  simplify_eq. assert (wine' = wine) as -> by congruence.
  assert (y' = y) as -> by congruence.
  destruct (Hwf _ _ Hwine) as [Hwfw _].
  destruct (y_df_selected_facts wine y Hwfw Hy)
    as (Hwfy & Hny & Hiy & Hcy & Hvy).
  pose proof Hsplit as (Hn & _)%train_test_split_Ok.
  pose proof (DataFrame_of_array_wf _ _ _ Hdf) as Hwfdf.
  assert (index df = RangeIndex (nrows df)) as Hidx.
  { apply DataFrame_of_array_Ok in Hdf as [_ ->]. unfold nrows; simpl.
    by rewrite length_fmap. }
  assert (nrows df = nrows wine) as HnX by congruence.
  destruct (concat_RangeIndex_rows df (y_df_selected y) combined (s_values y))
    as [Hrows Hcells]; try done.
  { by rewrite Hcy. }
  rewrite HnX, Hiy in Hrows. rewrite HnX, Hiy in Hcells. done.
Qed.

End LabelJoinTheorem.

(** ** The split of the two functions *)

Section SharedSplit.

Context `{Runtime}.

Lemma iloc_values (df df' : DataFrame R) ps :
  iloc df ps = Ok df' → values df' = omap (λ i, values df !! i) ps.
Proof.
  intros (labels & vals & _ & Hv & ->)%iloc_Ok. simpl.
  by apply Forall2_lookup_omap.
Qed.

(** The two functions split alike: on the same input file, the train and
    test frames of both are read at the same positions, in the same order,
    and hold the same labels. *)
Theorem both_functions_split_alike inp P1 P2 n w1 w2
    X1 y1 X_train1 X_test1 y_train1 y_test1 w1'
    X2 y2 X_train2 X_test2 y_train2 y_test2 w2' :
  files w1 !! inp = files w2 !! inp →
  process_heart_disease_data inp P1 w1
    = (Ok (X1, y1, X_train1, X_test1, y_train1, y_test1), w1') →
  feature_selection_and_split inp P2 n w2
    = (Ok (X2, y2, X_train2, X_test2, y_train2, y_test2), w2') →
  nrows X1 = nrows X2
  ∧ index X_train1 = Z.of_nat <$> train_positions 42 (nrows X1)
  ∧ index X_train2 = Z.of_nat <$> train_positions 42 (nrows X1)
  ∧ index X_test1 = Z.of_nat <$> test_positions 42 (nrows X1)
  ∧ index X_test2 = Z.of_nat <$> test_positions 42 (nrows X1)
  ∧ values y1 = values y2
  ∧ values y_train1 = values y_train2
  ∧ values y_test1 = values y_test2.
Proof.
  intros Hfiles Hrun1 Hrun2.
  apply process_heart_disease_data_Ok in Hrun1
    as (text & wine & y & features & X & Xr & Yr & g & df1 & combined1
        & Xtr1 & Xte1 & ytr1 & yte1 & train_df1 & test_df1
        & Htext & Hwine & Hy & _ & _ & _ & _ & _ & Hdf1 & _
        & Hsplit1 & _ & _ & _ & _ & _ & Hout1 & _).
  apply feature_selection_and_split_Ok in Hrun2
    as (text' & wine' & features' & X' & y' & imp & Xsel & df2 & combined2
        & Xtr2 & Xte2 & ytr2 & yte2 & train_df2 & test_df2
        & Htext' & Hwine' & _ & _ & Hy' & _ & _ & Hdf2 & _
        & Hsplit2 & _ & _ & _ & _ & _ & Hout2 & _).
  injection Hout1 as -> -> -> -> -> ->.
  injection Hout2 as -> -> -> -> -> ->.
  assert (text' = text) as -> by congruence.
  assert (wine' = wine) as -> by congruence.
  assert (y' = y) as -> by congruence.
  apply train_test_split_Ok in Hsplit1
    as (Hn1 & _ & HXtr1 & HXte1 & Hytr1 & Hyte1).
  apply train_test_split_Ok in Hsplit2
    as (Hn2 & _ & HXtr2 & HXte2 & Hytr2 & Hyte2).
  assert (nrows df1 = nrows df2) as Hn.
  { rewrite <-Hn1, <-Hn2. unfold nrows, y_df_pca, y_df_selected. simpl. done. }
  rewrite <-Hn in HXtr2, HXte2, Hytr2, Hyte2.
  assert (index df1 = RangeIndex (length Yr)) as Hi1.
  { apply DataFrame_of_array_Ok in Hdf1 as [_ ->]. simpl.
    by rewrite length_fmap. }
  assert (index df2 = RangeIndex (length Xsel)) as Hi2.
  { by apply DataFrame_of_array_Ok in Hdf2 as [_ ->]. }
  split_and!; try done.
  - exact (iloc_RangeIndex _ _ _ _ Hi1 HXtr1).
  - exact (iloc_RangeIndex _ _ _ _ Hi2 HXtr2).
  - exact (iloc_RangeIndex _ _ _ _ Hi1 HXte1).
  - exact (iloc_RangeIndex _ _ _ _ Hi2 HXte2).
  - by rewrite (iloc_values _ _ _ Hytr1), (iloc_values _ _ _ Hytr2).
  - by rewrite (iloc_values _ _ _ Hyte1), (iloc_values _ _ _ Hyte2).
Qed.

End SharedSplit.

(** ** The calling cells *)

Section NotebookProps.

Context `{Runtime}.

Lemma feature_selection_and_split_other_world inp P n w1 w2 out w1' :
  files w1 !! inp = files w2 !! inp →
  feature_selection_and_split inp P n w1 = (Ok out, w1') →
  ∃ w2', feature_selection_and_split inp P n w2 = (Ok out, w2').
Proof.
  intros Hfiles Hrun.
  apply feature_selection_and_split_Ok in Hrun
    as (text & wine & features & X & y & imp & Xsel & df & combined
        & Xtr & Xte & ytr & yte & train_df & test_df
        & Htext & Hwine & Hfeat & HX & Hy & Himp & Htake & Hdf & Hc
        & Hsplit & Htr & Hte & Hw1 & Hw2 & Hw3 & -> & _).
  rewrite Hfiles in Htext. eexists.
  rewrite (feature_selection_and_split_tail inp P n w2 text wine features X y
             imp Xsel df) by done.
  by eapply save_and_split_intro.
Qed.

Lemma output_paths_disjoint p :
  p ∈ output_paths "processed_wine_quality_pca" →
  p ∉ output_paths "processed_wine_quality_feature_selected".
Proof.
  unfold output_paths; simpl. rewrite !elem_of_cons, !elem_of_nil.
  intros [->|[->|[->|[]]]] [Hq|[Hq|[Hq|[]]]]; discriminate Hq.
Qed.

Lemma input_not_output :
  "processed_wine_quality.csv"
    ∉ output_paths "processed_wine_quality_pca"
      ++ output_paths "processed_wine_quality_feature_selected".
Proof.
  unfold output_paths; simpl. rewrite !elem_of_cons, !elem_of_nil.
  intros [Hq|[Hq|[Hq|[Hq|[Hq|[Hq|[]]]]]]]; discriminate Hq.
Qed.

(** The two calling cells do not interfere.  When the notebook runs
    through, the second call returns what it returns on the files as they
    were before the first; the six files are those the two calls write; the
    input file and every other file are unchanged; [X_pca] and [X_selected]
    are bound to the two feature frames, and [y], [X_train], [X_test],
    [y_train], [y_test] to the results of the second call, which replace
    those of the first. *)
Theorem notebook_cells_do_not_interfere w g w' :
  parse_csv_wf →
  notebook w = (Ok g, w') →
  ∃ X_pca y1 X_train1 X_test1 y_train1 y_test1 w1
    X_selected y2 X_train2 X_test2 y_train2 y_test2 w2,
    process_heart_disease_data
      "processed_wine_quality.csv" "processed_wine_quality_pca" w
    = (Ok (X_pca, y1, X_train1, X_test1, y_train1, y_test1), w1)
    ∧ feature_selection_and_split
        "processed_wine_quality.csv"
        "processed_wine_quality_feature_selected" 250 w
      = (Ok (X_selected, y2, X_train2, X_test2, y_train2, y_test2), w2)
    ∧ (∀ p, p ∈ output_paths "processed_wine_quality_pca" →
         files w' !! p = files w1 !! p)
    ∧ (∀ p, p ∈ output_paths "processed_wine_quality_feature_selected" →
         files w' !! p = files w2 !! p)
    ∧ (∀ p, p ∉ output_paths "processed_wine_quality_pca"
                ++ output_paths "processed_wine_quality_feature_selected" →
         files w' !! p = files w !! p)
    ∧ files w' !! "processed_wine_quality.csv"
      = files w !! "processed_wine_quality.csv"
    ∧ g !! "X_pca" = Some X_pca ∧ g !! "X_selected" = Some X_selected
    ∧ g !! "y" = Some y2
    ∧ g !! "X_train" = Some X_train2 ∧ g !! "X_test" = Some X_test2
    ∧ g !! "y_train" = Some y_train2 ∧ g !! "y_test" = Some y_test2.
Proof.
  intros Hwf Hrun. unfold notebook in Hrun.
  apply Py_bind_Ok in Hrun as (out1 & w1 & Hrun1 & Hrun).
  apply Py_bind_Ok in Hrun as (out2 & w1' & Hrun2 & Hret).
  injection Hret as <- <-.
  destruct out1 as [[[[[X_pca y1] Xtr1] Xte1] ytr1] yte1].
  destruct out2 as [[[[[X_sel y2] Xtr2] Xte2] ytr2] yte2].
  destruct (returns_files _ _ w _ _ _ _ _ _ w1 Hwf (or_introl Hrun1))
    as (c1 & tr1 & te1 & _ & _ & _ & _ & _ & _ & Hother1).
  destruct (returns_files _ _ w1 _ _ _ _ _ _ w1' Hwf
              (or_intror (ex_intro _ _ Hrun2)))
    as (c2 & tr2 & te2 & Hc2 & Htr2 & Hte2 & Hf1 & Hf2 & Hf3 & Hother2).
  pose proof input_not_output as Hin.
  apply not_elem_of_app in Hin as [Hin1 Hin2].
  destruct (feature_selection_and_split_other_world _ _ _ w1 w _ _
              (Hother1 _ Hin1) Hrun2) as [w2 Hrun2'].
  destruct (returns_files _ _ w _ _ _ _ _ _ w2 Hwf
              (or_intror (ex_intro _ _ Hrun2')))
    as (c2' & tr2' & te2' & Hc2' & Htr2' & Hte2' & Hf1' & Hf2' & Hf3' & _).
  assert (c2' = c2) as -> by congruence.
  assert (tr2' = tr2) as -> by congruence.
  assert (te2' = te2) as -> by congruence.
  exists X_pca, y1, Xtr1, Xte1, ytr1, yte1, w1.
  exists X_sel, y2, Xtr2, Xte2, ytr2, yte2, w2.
  split_and!; try done.
  - intros p Hp. apply Hother2. by apply output_paths_disjoint.
  - intros p Hp. unfold output_paths in Hp.
    rewrite !elem_of_cons, elem_of_nil in Hp.
    destruct Hp as [->|[->|[->|[]]]]; congruence.
  - intros p [Hp1 Hp2]%not_elem_of_app.
    rewrite (Hother2 p Hp2). by apply Hother1.
  - rewrite (Hother2 _ Hin2). by apply Hother1.
Qed.

End NotebookProps.

(** ** The inputs the imputer refuses *)

Section ImputerOutcome.

Context `{Runtime}.

Lemma mapM_result_cases {A B} (f : A → result B) (l : list A) :
  (∃ k, mapM f l = Ok k) ∨ (∃ x e, x ∈ l ∧ f x = Raise e ∧ mapM f l = Raise e).
Proof.
  induction l as [|a l IH]; [left; by exists []|].
  simpl. unfold mbind at 1, result_bind at 1.
  destruct (f a) as [b|e] eqn:Hfa.
  - destruct IH as [[k ->] | (x & e & Hx & Hfx & ->)].
    + left. by eexists.
    + right. exists x, e. split_and!; [by right | done | done].
  - right. exists a, e. split_and!; [by left | done | done].
Qed.

Lemma float_of_cell_Raise (c : cell R) e :
  float_of_cell c = Raise e → e = ValueError ∧ is_text c = true.
Proof. destruct c; simpl; intros; by simplify_eq. Qed.

Lemma float_of_cell_Ok (c : cell R) v :
  float_of_cell c = Ok v → is_text c = false ∧ v = as_float64 c.
Proof. destruct c; simpl; intros; by simplify_eq. Qed.

(** The conversion of the frame to float64 fails exactly on a text cell. *)
Lemma to_float_cases (rows : list (list (cell R))) :
  (∃ X0, mapM (mapM float_of_cell) rows = Ok X0
         ∧ Forall (Forall (λ c, is_text c = false)) rows)
  ∨ (mapM (mapM float_of_cell) rows = Raise ValueError
     ∧ Exists (Exists (λ c, is_text c = true)) rows).
Proof.
  destruct (mapM_result_cases (mapM float_of_cell) rows)
    as [[X0 HX0] | (row & e & Hrow & Hf & He)].
  - left. exists X0. split; [done|].
    apply mapM_result_Ok in HX0.
    eapply Forall2_Forall_l; [exact HX0|].
    apply Forall_forall. intros r _ row Hr.
    apply mapM_result_Ok in Hr.
    eapply Forall2_Forall_l; [exact Hr|].
    apply Forall_forall. intros v _ c Hc.
    by apply float_of_cell_Ok in Hc as [? _].
  - right.
    destruct (mapM_result_cases float_of_cell row)
      as [[r Hr] | (c & e' & Hc & Hfc & He')]; [congruence|].
    apply float_of_cell_Raise in Hfc as [-> Htext].
    assert (e = ValueError) as -> by congruence.
    split; [done|]. apply Exists_exists. exists row. split; [done|].
    apply Exists_exists. by exists c.
Qed.

Lemma SimpleImputer_fit_transform_cases (features : DataFrame R) :
  wf_frame features →
  (∃ X, SimpleImputer_fit_transform features = Ok X
        ∧ nrows features ≠ 0 ∧ columns features ≠ []
        ∧ Forall (Forall (λ c, is_text c = false)) (values features))
  ∨ (SimpleImputer_fit_transform features = Raise ValueError
     ∧ (nrows features = 0 ∨ columns features = []
        ∨ Exists (Exists (λ c, is_text c = true)) (values features))).
Proof.
  intros Hwf. unfold SimpleImputer_fit_transform.
  destruct (to_float_cases (values features)) as [(X0 & HX0 & Hnum) | [-> Htext]];
    [|right; split; [done | by right; right]].
  rewrite HX0. unfold mbind, result_bind.
  assert (length X0 = nrows features) as Hlen.
  { apply mapM_result_Ok, Forall2_length in HX0. done. }
  assert (rectangular (length (columns features)) X0) as Hrect.
  { destruct Hwf as [_ Hw]. apply mapM_result_Ok in HX0. unfold rectangular in *.
    eapply Forall2_Forall_r; [exact HX0|].
    eapply Forall_impl; [exact Hw|]. intros row Hrow row' Hrow'; simpl in *.
    apply mapM_result_Ok, Forall2_length in Hrow'. congruence. }
  destruct (decide (nrows features = 0)) as [Hn|Hn].
  { right. split; [|by left]. unfold impute.
    rewrite bool_decide_true; [done|]. left. congruence. }
  destruct (decide (columns features = [])) as [Hc|Hc].
  { right. split; [|by right; left]. unfold impute.
    rewrite bool_decide_true; [done|]. right. by rewrite Hc. }
  left. destruct (impute_shape (length (columns features)) X0) as (X & HX & _).
  - intros ->. simpl in Hlen. done.
  - by destruct (columns features).
  - done.
  - by exists X.
Qed.


End ImputerOutcome.

(** ** Complete data *)

Section CompleteData.

Context `{Runtime}.

Lemma fill_row_complete (vstats : list R) (row : list (float R)) :
  Forall is_Some row → length row ≤ length vstats →
  fill_row vstats row = row.
Proof.
  intros Hrow. revert vstats.
  induction Hrow as [|c row [v ->] _ IH]; intros [|st vstats] Hlen;
    simpl in *; try done; try lia.
  unfold fill_row in *. simpl. f_equal. apply IH. lia.
Qed.

Lemma select_all {A} (row : list A) : select (seq 0 (length row)) row = row.
Proof. apply omap_lookup_seq. Qed.

Lemma observed_complete m (X : ndarray R) j :
  X ≠ [] → rectangular m X → Forall (Forall is_Some) X → j < m →
  observed j X ≠ [].
Proof.
  intros HX Hrect Hd Hj. destruct X as [|row X]; [done|].
  apply Forall_cons in Hrect as [Hlen _]. apply Forall_cons in Hd as [Hrow _].
  unfold observed. simpl.
  destruct (lookup_lt_is_Some_2 row j) as [c Hc]; [lia|].
  rewrite Forall_lookup in Hrow. destruct (Hrow j c Hc) as [v ->].
  by rewrite Hc.
Qed.

(** An array without a missing cell goes through the imputer unchanged. *)
Lemma impute_complete m (X : ndarray R) :
  X ≠ [] → m ≠ 0 → rectangular m X → Forall (Forall is_Some) X →
  impute m X = Ok X.
Proof.
  intros HX Hm Hrect Hd. rewrite (impute_Ok m X HX Hm Hrect). f_equal.
  rewrite (retained_all m X)
    by (intros j Hj; by apply (observed_complete m)).
  transitivity (id <$> X); [|apply list_fmap_id]. apply Forall_fmap_ext.
  rewrite Forall_forall. intros row Hrow.
  unfold rectangular in Hrect.
  rewrite Forall_forall in Hrect. rewrite Forall_forall in Hd.
  rewrite <-(Hrect row Hrow), select_all. simpl.
  apply fill_row_complete; [by apply Hd|].
  by rewrite length_fmap, length_seq.
Qed.

Lemma to_float_numbers (row : list (cell R)) (r : list (float R)) :
  mapM float_of_cell row = Ok r →
  Forall (λ c, is_number c = true) row →
  r = as_float64 <$> row ∧ Forall is_Some r ∧ length r = length row.
Proof.
  intros Hr%mapM_result_Ok Hnum.
  induction Hr as [|c v row r Hc _ IH]; [done|].
  apply Forall_cons in Hnum as [Hn Hnum].
  destruct (IH Hnum) as (IH1 & IH2 & IH3).
  destruct c; simplify_eq/=. split_and!; [done | | by f_equal].
  constructor; [by eexists | done].
Qed.

Lemma as_float64_exact (row : list (cell R)) :
  Forall (λ c, is_number c = true) row →
  Forall (λ c, ∀ r, c = CNum r → to_float64 r = r) row →
  cell_of_float <$> (as_float64 <$> row) = row.
Proof.
  induction 1 as [|c row Hc _ IH]; intros Hex; [done|].
  apply Forall_cons in Hex as [He Hex].
  rewrite !fmap_cons, IH by done. f_equal.
  destruct c; simplify_eq/=. by rewrite He.
Qed.


(** Imputing the imputed array changes nothing, and is refused when every
    column was dropped. *)
Theorem impute_idempotent m (X Y : ndarray R) :
  rectangular m X → impute m X = Ok Y →
  (shape1 Y ≠ 0 → impute (shape1 Y) Y = Ok Y)
  ∧ (shape1 Y = 0 → impute (shape1 Y) Y = Raise ValueError).
Proof.
  intros Hrect HY.
  destruct (impute_length _ _ _ HY) as (Hlen & HX & Hm).
  destruct (impute_dense _ _ _ HX Hm Hrect HY) as (Hd & HrY & _).
  assert (Y ≠ []) as HYne.
  { intros ->. simpl in Hlen. by destruct X. }
  rewrite <-(shape1_rectangular _ _ HrY HYne) in HrY.
  split.
  - intros Hs. by apply impute_complete.
  - intros ->. unfold impute. rewrite bool_decide_true; [done|]. by right.
Qed.

End CompleteData.

(** ** The headers of the files *)

Section Headers.

Context `{Runtime}.

Lemma PC_names_NoDup : NoDup (PC_names ++ ["quality"]).
Proof. apply (bool_decide_unpack _). by vm_compute. Qed.

Lemma Feature_names_NoDup k : NoDup (Feature_names k ++ ["quality"]).
Proof.
  apply NoDup_app. split_and!.
  - unfold Feature_names. apply NoDup_fmap_2; [|apply NoDup_seq].
    intros i j Hij. simpl in Hij. simplify_eq. lia.
  - intros x Hx Hq. apply list_elem_of_singleton in Hq as ->.
    unfold Feature_names in Hx. apply list_elem_of_fmap in Hx as (i & Hi & _).
    simpl in Hi. discriminate Hi.
  - apply NoDup_singleton.
Qed.

Lemma iloc_columns (df df' : DataFrame R) rows :
  iloc df rows = Ok df' → columns df' = columns df.
Proof. by intros (labels & vals & _ & _ & ->)%iloc_Ok. Qed.

(** No table written has two columns of the same name: the columns are the
    feature names, which are distinct and never "quality", followed by
    "quality", whatever the columns of the input are called. *)
Theorem output_columns_distinct inp P w X y X_train X_test y_train y_test w' :
  parse_csv_wf →
  returns inp P w (X, y, X_train, X_test, y_train, y_test) w' →
  ∃ combined_df train_df test_df,
    files w' !! (P +:+ ".csv") = Some (csv_text false combined_df)
    ∧ files w' !! (P +:+ "_train.csv") = Some (csv_text false train_df)
    ∧ files w' !! (P +:+ "_test.csv") = Some (csv_text false test_df)
    ∧ Forall (λ df, columns df = columns X ++ ["quality"] ∧ NoDup (columns df))
        [combined_df; train_df; test_df]
    ∧ "quality" ∉ columns X.
Proof.
  intros Hwf Hret.
  destruct (returns_files inp P w _ _ _ _ _ _ w' Hwf Hret)
    as (combined & train_df & test_df & Hc & Htr & Hte & Hf1 & Hf2 & Hf3 & _).
  destruct (returns_inv inp P w _ _ _ _ _ _ w' Hwf Hret)
    as (_ & _ & _ & _ & _ & Hcy & Hsplit & _).
  assert (NoDup (columns X ++ ["quality"])) as Hnd.
  { destruct Hret as [Hrun | [n Hrun]].
    - apply process_heart_disease_data_Ok in Hrun
        as (text & wine & y0 & features & X0 & Xr & Yr & g & df & cdf
            & Xtr & Xte & ytr & yte & trdf & tedf
            & _ & _ & _ & _ & _ & _ & _ & _ & Hdf & _
            & _ & _ & _ & _ & _ & _ & Hout & _).
      injection Hout as -> _ _ _ _ _.
      apply DataFrame_of_array_Ok in Hdf as [_ ->]. apply PC_names_NoDup.
    - apply feature_selection_and_split_Ok in Hrun
        as (text & wine & features & X0 & y0 & imp & Xsel & df & cdf
            & Xtr & Xte & ytr & yte & trdf & tedf
            & _ & _ & _ & _ & _ & _ & _ & Hdf & _
            & _ & _ & _ & _ & _ & _ & Hout & _).
      injection Hout as -> _ _ _ _ _.
      apply DataFrame_of_array_Ok in Hdf as [_ ->]. apply Feature_names_NoDup. }
  apply train_test_split_Ok in Hsplit as (_ & _ & HXtr & HXte & Hytr & Hyte).
  exists combined, train_df, test_df.
  assert (columns combined = columns X ++ ["quality"]) as E1.
  { by rewrite (concat_columns _ _ _ Hc), Hcy. }
  assert (columns train_df = columns X ++ ["quality"]) as E2.
  { rewrite (concat_columns _ _ _ Htr).
    by rewrite (iloc_columns _ _ _ HXtr), (iloc_columns _ _ _ Hytr), Hcy. }
  assert (columns test_df = columns X ++ ["quality"]) as E3.
  { rewrite (concat_columns _ _ _ Hte).
    by rewrite (iloc_columns _ _ _ HXte), (iloc_columns _ _ _ Hyte), Hcy. }
  split_and!; try done.
  - repeat (apply Forall_cons_2; [split; [done | congruence]|]).
    apply Forall_nil_2.
  - apply NoDup_app in Hnd as (_ & Hd & _). intros Hq.
    apply (Hd _ Hq). by left.
Qed.

End Headers.

(** ** Paths that cannot be written *)

Section Unwritable.

Context `{Runtime}.

(** Up to [pd.concat], neither function writes: it raises, or it goes on
    with the statements the two functions share. *)
Lemma process_heart_disease_data_prefix inp P w :
  (∃ e w1, process_heart_disease_data inp P w = (Raise e, w1)
           ∧ files w1 = files w)
  ∨ (∃ X_df y_df w1,
       process_heart_disease_data inp P w = save_and_split X_df y_df P w1
       ∧ files w1 = files w).
Proof.
  unfold process_heart_disease_data, save_and_split, mbind, Py_bind, read_csv, pure.
  destruct (files w !! inp) as [text|]; [|left; by eexists _, _].
  destruct (parse_csv text) as [wine|e]; [|left; by eexists _, _].
  destruct (getitem wine "quality") as [y|e]; [|left; by eexists _, _].
  destruct (drop_column wine "quality") as [features|e]; [|left; by eexists _, _].
  destruct (SimpleImputer_fit_transform features) as [X|e];
    [|left; by eexists _, _].
  destruct (PCA_fit_transform 6 X w) as [[X_pca|e] w1] eqn:Hpca;
    apply PCA_fit_transform_files in Hpca; [|left; by eexists _, _].
  destruct (DataFrame_of_array X_pca PC_names) as [X_pca_df|e];
    [|left; by eexists _, _].
  right. by eexists _, _, _.
Qed.

Lemma feature_selection_and_split_prefix inp P n w :
  (∃ e, feature_selection_and_split inp P n w = (Raise e, w))
  ∨ (∃ X_df y_df,
       feature_selection_and_split inp P n w = save_and_split X_df y_df P w).
Proof.
  unfold feature_selection_and_split, save_and_split, mbind, Py_bind, read_csv, pure.
  destruct (files w !! inp) as [text|]; [|left; by eexists].
  destruct (parse_csv text) as [wine|e]; [|left; by eexists].
  destruct (drop_column wine "quality") as [features|e]; [|left; by eexists].
  destruct (SimpleImputer_fit_transform features) as [X|e]; [|left; by eexists].
  destruct (getitem wine "quality") as [y|e]; [|left; by eexists].
  destruct (forest_importances n 42 X (s_values y)) as [imp|e];
    [|left; by eexists].
  destruct (take_columns _ X) as [X_selected|e]; [|left; by eexists].
  destruct (DataFrame_of_array X_selected _) as [X_selected_df|e];
    [|left; by eexists].
  right. by eexists _, _.
Qed.

Lemma save_and_split_unwritable_Raise (X_df y_df : DataFrame R) P w :
  writable (P +:+ ".csv") = false →
  ∃ e, save_and_split X_df y_df P w = (Raise e, w).
Proof.
  intros Hw. destruct (concat X_df y_df) as [combined_df|e] eqn:Hc.
  - exists OSError. by eapply save_and_split_unwritable.
  - exists e. by apply save_and_split_concat_Raise.
Qed.

(** When [P.csv] cannot be opened for writing, neither function returns
    and neither writes any file. *)
Theorem unwritable_first_path_writes_nothing inp P n w :
  writable (P +:+ ".csv") = false →
  (∃ e w', process_heart_disease_data inp P w = (Raise e, w')
           ∧ files w' = files w)
  ∧ (∃ e, feature_selection_and_split inp P n w = (Raise e, w)).
Proof.
  intros Hw. split.
  - destruct (process_heart_disease_data_prefix inp P w)
      as [(e & w1 & Hrun & Hf) | (X_df & y_df & w1 & -> & Hf)].
    + by exists e, w1.
    + destruct (save_and_split_unwritable_Raise X_df y_df P w1 Hw) as [e He].
      by exists e, w1.
  - destruct (feature_selection_and_split_prefix inp P n w)
      as [[e Hrun] | (X_df & y_df & ->)].
    + by exists e.
    + by apply save_and_split_unwritable_Raise.
Qed.

End Unwritable.

(** ** Where a run can stop *)

Section PcaFailures.

Context `{Runtime}.

(** Once the frames are right, only a write can fail. *)
Lemma save_and_split_Raise (X_df y_df : DataFrame R) P w e w' :
  rng_permutation_permutation →
  wf_frame X_df → wf_frame y_df → nrows y_df = nrows X_df → 2 ≤ nrows X_df →
  index X_df = index y_df ∨ (NoDup (index X_df) ∧ NoDup (index y_df)) →
  save_and_split X_df y_df P w = (Raise e, w') → e = OSError.
Proof.
  intros Hperm HX Hy Hn H2 Hidx.
  destruct (concat_returns _ _ Hidx) as [combined_df Hc].
  destruct (train_test_split_returns X_df y_df 42 Hperm HX Hy Hn H2)
    as (X_train & X_test & y_train & y_test & Hs).
  pose proof Hs as (_ & _ & HXtr & HXte & Hytr & Hyte)%train_test_split_Ok.
  destruct (positions_NoDup 42 (nrows X_df) Hperm) as [Hndte Hndtr].
  assert (∃ train_df, concat X_train y_train = Ok train_df) as [train_df Htr].
  { apply concat_returns. destruct Hidx as [Heq | [HndX Hndy]].
    - left. exact (iloc_same_index _ _ _ _ _ Heq HXtr Hytr).
    - right. split; [exact (iloc_index_NoDup _ _ _ HndX Hndtr HXtr)
                    | exact (iloc_index_NoDup _ _ _ Hndy Hndtr Hytr)]. }
  assert (∃ test_df, concat X_test y_test = Ok test_df) as [test_df Hte].
  { apply concat_returns. destruct Hidx as [Heq | [HndX Hndy]].
    - left. exact (iloc_same_index _ _ _ _ _ Heq HXte Hyte).
    - right. split; [exact (iloc_index_NoDup _ _ _ HndX Hndte HXte)
                    | exact (iloc_index_NoDup _ _ _ Hndy Hndte Hyte)]. }
  unfold save_and_split, mbind, Py_bind, pure, to_csv.
  rewrite Hc. destruct (writable (P +:+ ".csv")); [|by intros [= <- _]].
  rewrite Hs, Htr, Hte.
  destruct (writable (P +:+ "_train.csv")); [|by intros [= <- _]].
  destruct (writable (P +:+ "_test.csv")); [|by intros [= <- _]].
  done.
Qed.

(** [process_heart_disease_data] never stops between its writes for a
    reason other than a write: a run that raises has left the files as they
    were, or the exception is the [OSError] of [to_csv]. *)
Theorem pca_failure_after_a_write_is_OSError inp P w e w' :
  parse_csv_wf → pca_kernel_rows → pca_kernel_columns →
  rng_permutation_permutation →
  process_heart_disease_data inp P w = (Raise e, w') →
  files w' = files w ∨ e = OSError.
Proof.
  intros Hparse Hrows Hcols Hperm Hrun.
  destruct (files w !! inp) as [text|] eqn:Htext.
  2:{ left. unfold process_heart_disease_data, mbind, Py_bind, read_csv in Hrun.
      rewrite Htext in Hrun. by simplify_eq. }
  destruct (parse_csv text) as [wine|e1] eqn:Hwine.
  2:{ left. unfold process_heart_disease_data, mbind, Py_bind, read_csv in Hrun.
      rewrite Htext, Hwine in Hrun. by simplify_eq. }
  destruct (getitem wine "quality") as [y|e1] eqn:Hy.
  2:{ left. unfold process_heart_disease_data, mbind, Py_bind, read_csv, pure in Hrun.
      rewrite Htext, Hwine, Hy in Hrun. by simplify_eq. }
  destruct (drop_column wine "quality") as [features|e1] eqn:Hfeat.
  2:{ left. unfold process_heart_disease_data, mbind, Py_bind, read_csv, pure in Hrun.
      rewrite Htext, Hwine, Hy, Hfeat in Hrun. by simplify_eq. }
  destruct (SimpleImputer_fit_transform features) as [X|e1] eqn:HX.
  2:{ left. unfold process_heart_disease_data, mbind, Py_bind, read_csv, pure in Hrun.
      rewrite Htext, Hwine, Hy, Hfeat, HX in Hrun. by simplify_eq. }
  destruct (PCA_fit_transform 6 X w) as [[X_pca|e1] w1] eqn:Hpca.
  2:{ left. unfold process_heart_disease_data, mbind, Py_bind, read_csv, pure in Hrun.
      rewrite Htext, Hwine, Hy, Hfeat, HX, Hpca in Hrun.
      apply PCA_fit_transform_files in Hpca. by simplify_eq. }
  apply PCA_fit_transform_Ok in Hpca
    as (Xr & Yr & g & HXr & _ & _ & Hk & Hkern & -> & ->).
  destruct (process_heart_disease_data_reaches_tail inp P w text wine y
              features X Hparse Hrows Hcols Htext Hwine Hy Hfeat HX)
    as (X_pca_df & g' & Hrun' & HwfX & Hwfy & HnX & Hny & Hidx & _ & H6);
    [lia | lia | |].
  { intros Xr' HXr'. assert (Xr' = Xr) as -> by congruence. by exists Yr, g. }
  right. rewrite Hrun' in Hrun.
  eapply (save_and_split_Raise X_pca_df (y_df_pca y)); try done.
  - congruence.
  - lia.
  - by left.
Qed.

End PcaFailures.

Section RfFailures.

Context `{Runtime}.

Lemma concat_Ok_index (a b c : DataFrame R) :
  concat a b = Ok c →
  index a = index b ∨ (NoDup (index a) ∧ NoDup (index b)).
Proof. unfold concat. repeat case_decide; intros; simplify_eq; auto. Qed.

Lemma train_test_split_single (X y : DataFrame R) seed :
  nrows y = nrows X → nrows X ≤ 1 →
  train_test_split X y seed = Raise ValueError.
Proof.
  intros Hn H1. unfold train_test_split.
  rewrite bool_decide_true by done.
  rewrite bool_decide_true; [done|].
  destruct (nrows X) as [|[|?]]; [done | done | lia].
Qed.

Lemma save_and_split_Raise_cases (X_df y_df : DataFrame R) P w e w' :
  rng_permutation_permutation →
  wf_frame X_df → wf_frame y_df → nrows y_df = nrows X_df →
  save_and_split X_df y_df P w = (Raise e, w') →
  files w' = files w ∨ e = OSError ∨ (e = ValueError ∧ nrows X_df ≤ 1).
Proof.
  intros Hperm HX Hy Hn Hrun.
  destruct (concat X_df y_df) as [combined_df|e1] eqn:Hc.
  2:{ left. rewrite (save_and_split_concat_Raise _ _ _ _ _ Hc) in Hrun.
      by simplify_eq. }
  destruct (writable (P +:+ ".csv")) eqn:Hw.
  2:{ left. rewrite (save_and_split_unwritable _ _ _ _ _ Hc Hw) in Hrun.
      by simplify_eq. }
  right. destruct (decide (nrows X_df ≤ 1)) as [H1|H1].
  - right. rewrite (save_and_split_split_Raise _ _ _ _ _ _ Hc Hw
                      (train_test_split_single _ _ _ Hn H1)) in Hrun.
    by simplify_eq.
  - left. eapply (save_and_split_Raise X_df y_df); try done; [lia|].
    by eapply concat_Ok_index.
Qed.

(** A run of [feature_selection_and_split] that raises has left the files
    as they were, or the exception is the [OSError] of [to_csv], or it is
    the [ValueError] of [train_test_split] on an input with a single
    row. *)
Theorem selection_failure_after_a_write inp P n w e w' :
  parse_csv_wf → forest_importances_length → argsort_permutation →
  rng_permutation_permutation →
  feature_selection_and_split inp P n w = (Raise e, w') →
  files w' = files w
  ∨ e = OSError
  ∨ (e = ValueError
     ∧ ∃ text wine, files w !! inp = Some text ∧ parse_csv text = Ok wine
                    ∧ nrows wine = 1).
Proof.
  intros Hparse Hforest Hperm Hrng Hrun.
  destruct (files w !! inp) as [text|] eqn:Htext.
  2:{ left. unfold feature_selection_and_split, mbind, Py_bind, read_csv in Hrun.
      rewrite Htext in Hrun. by simplify_eq. }
  destruct (parse_csv text) as [wine|e1] eqn:Hwine.
  2:{ left. unfold feature_selection_and_split, mbind, Py_bind, read_csv in Hrun.
      rewrite Htext, Hwine in Hrun. by simplify_eq. }
  destruct (drop_column wine "quality") as [features|e1] eqn:Hfeat.
  2:{ left. unfold feature_selection_and_split, mbind, Py_bind, read_csv, pure in Hrun.
      rewrite Htext, Hwine, Hfeat in Hrun. by simplify_eq. }
  destruct (SimpleImputer_fit_transform features) as [X|e1] eqn:HX.
  2:{ left. unfold feature_selection_and_split, mbind, Py_bind, read_csv, pure in Hrun.
      rewrite Htext, Hwine, Hfeat, HX in Hrun. by simplify_eq. }
  destruct (getitem wine "quality") as [y|e1] eqn:Hy.
  2:{ left. unfold feature_selection_and_split, mbind, Py_bind, read_csv, pure in Hrun.
      rewrite Htext, Hwine, Hfeat, HX, Hy in Hrun. by simplify_eq. }
  destruct (forest_importances n 42 X (s_values y)) as [imp|e1] eqn:Himp.
  2:{ left. unfold feature_selection_and_split, mbind, Py_bind, read_csv, pure in Hrun.
      rewrite Htext, Hwine, Hfeat, HX, Hy, Himp in Hrun. by simplify_eq. }
  destruct (feature_selection_and_split_reaches_tail inp P n w text wine
              features X y imp Hparse Hforest Hperm Htext Hwine Hfeat HX Hy Himp)
    as (X_df & Hrun' & HwfX & Hwfy & HnX & Hny & HiX & Hiy & _).
  rewrite Hrun' in Hrun.
  assert (nrows (y_df_selected y) = nrows X_df) as Hn by congruence.
  destruct (save_and_split_Raise_cases X_df (y_df_selected y) P w e w'
              Hrng HwfX Hwfy Hn Hrun) as [? | [? | [-> H1]]];
    [by left | by right; left |].
  right; right. split; [done|]. exists text, wine. split_and!; try done.
  destruct (drop_column_Ok _ _ _ Hfeat) as (_ & _ & Hnf & _).
  destruct (SimpleImputer_fit_transform_length _ _ HX) as [Hlen Hne].
  rewrite HnX in H1. destruct X; [done|]. simpl in Hlen. lia.
Qed.

End RfFailures.

(** ** What the generator can change *)

Section PcaScores.

Context `{Runtime}.

(** The decomposition is the only step of [process_heart_disease_data] that
    the state of the global generator reaches: two runs on the same input
    file that return can differ in the six score columns only.  They agree
    on the column names, on the row labels of the full, train and test
    features, and on the three label frames. *)
Theorem pca_runs_differ_only_in_scores inp P1 P2 w1 w2
    X1 y1 X_train1 X_test1 y_train1 y_test1 w1'
    X2 y2 X_train2 X_test2 y_train2 y_test2 w2' :
  files w1 !! inp = files w2 !! inp →
  process_heart_disease_data inp P1 w1
    = (Ok (X1, y1, X_train1, X_test1, y_train1, y_test1), w1') →
  process_heart_disease_data inp P2 w2
    = (Ok (X2, y2, X_train2, X_test2, y_train2, y_test2), w2') →
  columns X1 = columns X2 ∧ index X1 = index X2
  ∧ index X_train1 = index X_train2 ∧ index X_test1 = index X_test2
  ∧ y1 = y2 ∧ y_train1 = y_train2 ∧ y_test1 = y_test2.
Proof.
  intros Hfiles Hrun1 Hrun2.
  apply process_heart_disease_data_Ok in Hrun1
    as (text & wine & y & features & X & Xr & Yr & g & df1 & combined1
        & Xtr1 & Xte1 & ytr1 & yte1 & train_df1 & test_df1
        & Htext & Hwine & Hy & _ & _ & _ & _ & _ & Hdf1 & _
        & Hsplit1 & _ & _ & _ & _ & _ & Hout1 & _).
  apply process_heart_disease_data_Ok in Hrun2
    as (text' & wine' & y' & features' & X' & Xr' & Yr' & g' & df2 & combined2
        & Xtr2 & Xte2 & ytr2 & yte2 & train_df2 & test_df2
        & Htext' & Hwine' & Hy' & _ & _ & _ & _ & _ & Hdf2 & _
        & Hsplit2 & _ & _ & _ & _ & _ & Hout2 & _).
  injection Hout1 as -> -> -> -> -> ->.
  injection Hout2 as -> -> -> -> -> ->.
  assert (text' = text) as -> by congruence.
  assert (wine' = wine) as -> by congruence.
  assert (y' = y) as -> by congruence.
  apply train_test_split_Ok in Hsplit1
    as (Hn1 & _ & HXtr1 & HXte1 & Hytr1 & Hyte1).
  apply train_test_split_Ok in Hsplit2
    as (Hn2 & _ & HXtr2 & HXte2 & Hytr2 & Hyte2).
  assert (nrows df1 = nrows df2) as Hn by congruence.
  rewrite <-Hn in HXtr2, HXte2, Hytr2, Hyte2.
  assert (columns df1 = PC_names ∧ index df1 = RangeIndex (nrows df1))
    as [Hc1 Hi1].
  { apply DataFrame_of_array_Ok in Hdf1 as [_ ->]. unfold nrows; simpl.
    by rewrite !length_fmap. }
  assert (columns df2 = PC_names ∧ index df2 = RangeIndex (nrows df2))
    as [Hc2 Hi2].
  { apply DataFrame_of_array_Ok in Hdf2 as [_ ->]. unfold nrows; simpl.
    by rewrite !length_fmap. }
  split_and!; try congruence.
  - rewrite (iloc_RangeIndex _ _ _ _ Hi1 HXtr1).
    by rewrite (iloc_RangeIndex _ _ _ _ Hi2 HXtr2).
  - rewrite (iloc_RangeIndex _ _ _ _ Hi1 HXte1).
    by rewrite (iloc_RangeIndex _ _ _ _ Hi2 HXte2).
Qed.

End PcaScores.

(** ** The rows of a join on the row labels *)

Section JoinedRows.

Context `{Runtime}.

Lemma list_find_positions (ps : list nat) j p :
  NoDup ps → ps !! j = Some p →
  list_find (λ x, x = Z.of_nat p) (Z.of_nat <$> ps) = Some (j, Z.of_nat p).
Proof.
  intros Hnd Hj. apply list_find_Some. split_and!.
  - by rewrite list_lookup_fmap, Hj.
  - done.
  - intros i y Hi Hlt Hy. rewrite list_lookup_fmap in Hi.
    destruct (ps !! i) as [p'|] eqn:Hp'; [|done]. simpl in Hi.
    injection Hi as <-. apply Nat2Z.inj in Hy as ->.
    pose proof (NoDup_lookup _ _ _ _ Hnd Hj Hp'). lia.
Qed.

Lemma list_find_absent (l : Z) (ls : list Z) :
  l ∉ ls → list_find (λ x, x = l) ls = None.
Proof.
  intros Hl. apply list_find_None, Forall_forall. by intros x Hx ->.
Qed.

Lemma concat_joined_rows (Xs ys c : DataFrame R) ps (qs : list (cell R)) :
  wf_frame Xs → wf_frame ys →
  index Xs = Z.of_nat <$> ps → NoDup ps →
  nrows ys = nrows Xs → length (columns ys) = 1 →
  values ys = (λ c, [c]) <$> qs →
  concat Xs ys = Ok c →
  values c = joined_rows (length (columns Xs)) ps (values Xs) (index ys) qs.
Proof.
  intros [HlX _] [Hly _] HiX Hnd Hn Hcol Hv. unfold concat, joined_rows.
  assert (length (values Xs) = length ps) as Hlen.
  { rewrite <-HlX, HiX. by rewrite length_fmap. }
  assert (length qs = length ps) as Hq.
  { apply (f_equal length) in Hv. rewrite length_fmap in Hv.
    unfold nrows in Hn. lia. }
  destruct (decide (index Xs = index ys)) as [Heq|Hne].
  - intros [= <-]. simpl.
    rewrite <-Heq, HiX, filter_none by (apply Forall_forall; intros ???; done).
    rewrite fmap_nil, app_nil_r, Hv.
    apply list_eq. intros j. rewrite !lookup_zip_with.
    destruct (ps !! j) as [p|] eqn:Hp; simpl.
    + destruct (values Xs !! j) as [f|] eqn:Hf; simpl.
      2:{ apply lookup_ge_None in Hf. apply lookup_lt_Some in Hp. lia. }
      rewrite list_lookup_fmap. unfold quality_of_label.
      rewrite (list_find_positions ps j p Hnd Hp).
      destruct (qs !! j) as [c'|] eqn:Hqj; [done|].
      apply lookup_ge_None in Hqj. apply lookup_lt_Some in Hp. lia.
    + apply lookup_ge_None in Hp.
      destruct (values Xs !! j) as [f|] eqn:Hf; simpl; [|done].
      apply lookup_lt_Some in Hf. lia.
  - case_decide as Hnd2; [|done]. intros [= <-]. simpl.
    unfold reindex. rewrite zip_with_fmap_l, zip_with_fmap_r, zip_with_diag.
    rewrite fmap_app. f_equal.
    + rewrite HiX. apply list_eq. intros j.
      rewrite lookup_zip_with, !list_lookup_fmap.
      destruct (ps !! j) as [p|] eqn:Hp; simpl.
      * rewrite <-HiX at 1. rewrite HiX.
        rewrite (list_find_positions ps j p Hnd Hp).
        destruct (values Xs !! j) as [f|] eqn:Hf; simpl.
        2:{ apply lookup_ge_None in Hf. apply lookup_lt_Some in Hp. lia. }
        by rewrite (label_row (index ys) qs ys).
      * done.
    + rewrite <-HiX. apply Forall_fmap_ext, Forall_forall. intros l Hl.
      apply list_elem_of_filter in Hl as [Hl _]. simpl.
      rewrite (list_find_absent l (index Xs) Hl).
      by rewrite (label_row (index ys) qs ys).
Qed.

End JoinedRows.

Section WrittenTables.

Context `{Runtime}.

Lemma iloc_index (df df' : DataFrame R) ps :
  iloc df ps = Ok df' → index df' = select ps (index df).
Proof.
  intros (labels & vals & Hl & _ & ->)%iloc_Ok. simpl.
  by apply Forall2_lookup_omap.
Qed.

Lemma iloc_values_select (df df' : DataFrame R) ps :
  iloc df ps = Ok df' → values df' = select ps (values df).
Proof. apply iloc_values. Qed.

Lemma select_fmap {A B} (f : A → B) ps (l : list A) :
  select ps (f <$> l) = f <$> select ps l.
Proof.
  unfold select. induction ps as [|p ps IH]; [done|]. csimpl.
  rewrite list_lookup_fmap. destruct (l !! p); csimpl; by rewrite IH.
Qed.

Lemma select_RangeIndex n ps :
  Forall (λ p, p < n) ps → select ps (RangeIndex n) = Z.of_nat <$> ps.
Proof.
  unfold select. induction 1 as [|p ps Hp _ IH]; [done|]. csimpl.
  rewrite lookup_RangeIndex by done. csimpl. by rewrite IH.
Qed.

Lemma length_select_lt {A} ps (l : list A) :
  Forall (λ p, p < length l) ps → length (select ps l) = length ps.
Proof. apply length_select. Qed.

(** When the label cells carry the positions of the feature rows, every
    label cell stays with its feature row and no row is added. *)
Lemma joined_rows_same_labels width ps (fs : list (list (cell R))) qs :
  NoDup ps → length qs = length ps →
  joined_rows width ps fs (Z.of_nat <$> ps) qs
  = zip_with (λ f c, f ++ [c]) fs qs.
Proof.
  intros Hnd Hq. unfold joined_rows.
  rewrite filter_none by (apply Forall_forall; intros ???; done).
  rewrite fmap_nil, app_nil_r.
  apply list_eq. intros j. rewrite !lookup_zip_with.
  destruct (ps !! j) as [p|] eqn:Hp; simpl.
  - destruct (fs !! j) as [f|]; simpl; [|done].
    unfold quality_of_label. rewrite (list_find_positions ps j p Hnd Hp).
    destruct (qs !! j) as [c|] eqn:Hc; [done|].
    apply lookup_ge_None in Hc. apply lookup_lt_Some in Hp. lia.
  - destruct (fs !! j) as [f|]; simpl; [|done].
    destruct (qs !! j) as [c|] eqn:Hc; [|done].
    apply lookup_ge_None in Hp. apply lookup_lt_Some in Hc. lia.
Qed.

(** The table [pd.concat] makes of the rows that [iloc] takes at the
    positions [ps]. *)
Lemma concat_iloc_written_table (X y Xs ys t : DataFrame R) qs ps :
  wf_frame X → wf_frame y →
  index X = RangeIndex (nrows X) → nrows y = nrows X →
  columns y = ["quality"] → values y = (λ c, [c]) <$> qs →
  NoDup ps →
  iloc X ps = Ok Xs → iloc y ps = Ok ys →
  concat Xs ys = Ok t →
  columns t = columns X ++ ["quality"]
  ∧ values t = written_table X y qs ps
  ∧ wf_frame t.
Proof.
  intros HwfX Hwfy HiX Hn Hcy Hvy Hnd HXs Hys Hc.
  pose proof (iloc_wf _ _ _ HwfX HXs) as HwfXs.
  pose proof (iloc_wf _ _ _ Hwfy Hys) as Hwfys.
  split_and!.
  - rewrite (concat_columns _ _ _ Hc).
    by rewrite (iloc_columns _ _ _ HXs), (iloc_columns _ _ _ Hys), Hcy.
  - unfold written_table.
    rewrite <-(iloc_columns _ _ _ HXs), <-(iloc_values_select _ _ _ HXs).
    rewrite <-(iloc_index _ _ _ Hys).
    apply (concat_joined_rows Xs ys t ps); try done.
    + exact (iloc_RangeIndex _ _ _ _ HiX HXs).
    + by rewrite (iloc_nrows _ _ _ HXs), (iloc_nrows _ _ _ Hys).
    + by rewrite (iloc_columns _ _ _ Hys), Hcy.
    + by rewrite (iloc_values_select _ _ _ Hys), Hvy, select_fmap.
  - exact (concat_wf _ _ _ HwfXs Hwfys Hc).
Qed.

Lemma iloc_all (df : DataFrame R) :
  wf_frame df → iloc df (seq 0 (nrows df)) = Ok df.
Proof.
  intros [Hl Hw]. apply iloc_Ok. exists (index df), (values df).
  split_and!.
  - unfold nrows. rewrite <-Hl. apply Forall2_seq_lookup.
  - apply Forall2_seq_lookup.
  - by destruct df.
Qed.

End WrittenTables.

(** ** C6: the files *)

Section WrittenFiles.

Context `{Runtime}.

(** The frames a run returns: the features carry the default row labels,
    the label frame holds the quality cells of the input, under the default
    labels in the PCA path and under the labels of the input in the
    selection path. *)
Lemma returns_labels inp P w text wine ys
    X y X_train X_test y_train y_test w' :
  parse_csv_wf →
  files w !! inp = Some text →
  parse_csv text = Ok wine →
  getitem wine "quality" = Ok ys →
  returns inp P w (X, y, X_train, X_test, y_train, y_test) w' →
  index X = RangeIndex (nrows X)
  ∧ values y = (λ c, [c]) <$> s_values ys
  ∧ nrows y = nrows wine
  ∧ (process_heart_disease_data inp P w
       = (Ok (X, y, X_train, X_test, y_train, y_test), w') →
     index y = RangeIndex (nrows wine))
  ∧ ((∃ m, feature_selection_and_split inp P m w
             = (Ok (X, y, X_train, X_test, y_train, y_test), w')) →
     index y = index wine).
Proof.
  intros Hwf Htext Hwine Hy Hret.
  destruct (Hwf _ _ Hwine) as [Hwfw _].
  assert (∀ (df0 : DataFrame R) (data : ndarray R) cols,
            DataFrame_of_array data cols = Ok df0 →
            index df0 = RangeIndex (nrows df0)) as Hrange.
  { intros df0 data cols [_ ->]%DataFrame_of_array_Ok. unfold nrows; simpl.
    by rewrite length_fmap. }
  assert (∀ inp' P' w0 out w0' y0,
            process_heart_disease_data inp' P' w0 = (Ok out, w0') →
            files w0 !! inp' = Some text →
            out.1.1.1.1.2 = y0 → y0 = y_df_pca ys ∧ index out.1.1.1.1.1 = RangeIndex (nrows out.1.1.1.1.1))
    as Hpca.
  { intros inp' P' w0 out w0' y0 Hrun Ht Hy0.
    apply process_heart_disease_data_Ok in Hrun
      as (text' & wine' & y' & features & X0 & Xr & Yr & g & df & combined
          & Xtr & Xte & ytr & yte & train_df & test_df
          & Htext' & Hwine' & Hy' & _ & _ & _ & _ & _ & Hdf & _
          & _ & _ & _ & _ & _ & _ & -> & _).
    simpl in *. subst y0.
    assert (text' = text) as -> by congruence.
    assert (wine' = wine) as -> by congruence.
    assert (y' = ys) as -> by congruence.
    split; [done|]. by eapply Hrange. }
  assert (∀ inp' P' m w0 out w0' y0,
            feature_selection_and_split inp' P' m w0 = (Ok out, w0') →
            files w0 !! inp' = Some text →
            out.1.1.1.1.2 = y0 → y0 = y_df_selected ys ∧ index out.1.1.1.1.1 = RangeIndex (nrows out.1.1.1.1.1))
    as Hsel.
  { intros inp' P' m w0 out w0' y0 Hrun Ht Hy0.
    apply feature_selection_and_split_Ok in Hrun
      as (text' & wine' & features & X0 & y' & imp & Xsel & df & combined
          & Xtr & Xte & ytr & yte & train_df & test_df
          & Htext' & Hwine' & _ & _ & Hy' & _ & _ & Hdf & _
          & _ & _ & _ & _ & _ & _ & -> & _).
    simpl in *. subst y0.
    assert (text' = text) as -> by congruence.
    assert (wine' = wine) as -> by congruence.
    assert (y' = ys) as -> by congruence.
    split; [done|]. by eapply Hrange. }
  destruct (y_df_pca_facts wine ys Hwfw Hy) as (_ & Hn1 & Hi1 & _ & Hv1).
  destruct (y_df_selected_facts wine ys Hwfw Hy) as (_ & Hn2 & Hi2 & _ & Hv2).
  destruct Hret as [Hrun | [m Hrun]].
  - destruct (Hpca _ _ _ _ _ y Hrun Htext eq_refl) as [-> HiX]. simpl in HiX.
    split_and!; try done.
    intros [m' Hrun']. 
    destruct (Hsel _ _ _ _ _ _ (y_df_pca ys) Hrun' Htext eq_refl) as [Heq _].
    by rewrite Heq.
  - destruct (Hsel _ _ _ _ _ _ y Hrun Htext eq_refl) as [-> HiX]. simpl in HiX.
    split_and!; try done.
    intros Hrun'.
    destruct (Hpca _ _ _ _ _ (y_df_selected ys) Hrun' Htext eq_refl) as [Heq _].
    by rewrite Heq.
Qed.

Lemma subset_rows_all (X : DataFrame R) (q : list (cell R)) :
  length q = nrows X →
  subset_rows X q (seq 0 (nrows X)) = zip_with (λ f c, f ++ [c]) (values X) q.
Proof.
  intros Hq. unfold subset_rows. rewrite <-Hq at 2.
  unfold nrows. by rewrite !select_all.
Qed.

Lemma written_table_default_labels (X y : DataFrame R) (q : list (cell R)) ps :
  index y = RangeIndex (nrows X) → length q = nrows X →
  Forall (λ p, p < nrows X) ps → NoDup ps →
  written_table X y q ps = subset_rows X q ps.
Proof.
  intros Hiy Hq Hps Hnd. unfold written_table, subset_rows.
  rewrite Hiy, (select_RangeIndex _ _ Hps).
  apply joined_rows_same_labels; [done|].
  apply length_select. by rewrite Hq.
Qed.

(** The three files of a run that returns, as the tables the code joins. *)
Lemma returns_tables inp P w text wine ys
    X y X_train X_test y_train y_test w' :
  parse_csv_wf → rng_permutation_permutation →
  files w !! inp = Some text →
  parse_csv text = Ok wine →
  getitem wine "quality" = Ok ys →
  returns inp P w (X, y, X_train, X_test, y_train, y_test) w' →
  let header := columns X ++ ["quality"] in
  let q := s_values ys in
  let n := nrows X in
  files w' !! (P +:+ ".csv")
    = Some (csv_of header (written_table X y q (seq 0 n)))
  ∧ files w' !! (P +:+ "_train.csv")
    = Some (csv_of header (written_table X y q (train_positions 42 n)))
  ∧ files w' !! (P +:+ "_test.csv")
    = Some (csv_of header (written_table X y q (test_positions 42 n)))
  ∧ n = nrows wine ∧ length q = n.
Proof.
  intros Hwf Hperm Htext Hwine Hy Hret header q n.
  destruct (returns_labels inp P w text wine ys _ _ _ _ _ _ w'
              Hwf Htext Hwine Hy Hret) as (HiX & Hvy & Hny & _ & _).
  destruct (returns_files inp P w _ _ _ _ _ _ w' Hwf Hret)
    as (combined & train_df & test_df & Hc & Htr & Hte & Hf1 & Hf2 & Hf3 & _).
  destruct (returns_inv inp P w _ _ _ _ _ _ w' Hwf Hret)
    as (_ & _ & _ & HwfX & Hwfy & Hcy & Hsplit & _).
  apply train_test_split_Ok in Hsplit as (Hn & _ & HXtr & HXte & Hytr & Hyte).
  destruct (positions_NoDup 42 n Hperm) as [Hndte Hndtr].
  assert (length q = n) as Hq.
  { unfold q, n. apply (f_equal length) in Hvy. rewrite length_fmap in Hvy.
    unfold nrows in *. congruence. }
  pose proof (iloc_all X HwfX) as HXall.
  pose proof (iloc_all y Hwfy) as Hyall. rewrite Hn in Hyall.
  destruct (concat_iloc_written_table X y X y combined q (seq 0 n))
    as (C1 & V1 & W1); try done; [apply NoDup_seq|].
  destruct (concat_iloc_written_table X y X_train y_train train_df q
              (train_positions 42 n)) as (C2 & V2 & W2); try done.
  destruct (concat_iloc_written_table X y X_test y_test test_df q
              (test_positions 42 n)) as (C3 & V3 & W3); try done.
  rewrite (csv_text_no_index _ W1), C1, V1 in Hf1.
  rewrite (csv_text_no_index _ W2), C2, V2 in Hf2.
  rewrite (csv_text_no_index _ W3), C3, V3 in Hf3.
  split_and!; try done. unfold n. congruence.
Qed.

(** C6.  A run of either function that returns has written exactly the
    three files [P.csv], [P_train.csv] and [P_test.csv], replacing what was
    at those paths and leaving every other path as it was.  Each file is a
    header line with the names of the reduced columns followed by
    "quality", then one line per row of the table the code joins on the row
    labels, with no field for the row label.  Where the label frame carries
    the default row labels, as it always does in
    [process_heart_disease_data], the three tables are every row of the
    reduced features followed by its quality, and the rows at the train and
    at the test positions of the split.  In [feature_selection_and_split]
    the label frame keeps the row labels of the input, and for other labels
    the files hold the joined tables, not the subsets. *)
Theorem written_files_are_joined_tables inp P w text wine ys
    X y X_train X_test y_train y_test w' :
  parse_csv_wf → rng_permutation_permutation →
  files w !! inp = Some text →
  parse_csv text = Ok wine →
  getitem wine "quality" = Ok ys →
  returns inp P w (X, y, X_train, X_test, y_train, y_test) w' →
  let header := columns X ++ ["quality"] in
  let q := s_values ys in
  let n := nrows X in
  files w' !! (P +:+ ".csv")
    = Some (csv_of header (written_table X y q (seq 0 n)))
  ∧ files w' !! (P +:+ "_train.csv")
    = Some (csv_of header (written_table X y q (train_positions 42 n)))
  ∧ files w' !! (P +:+ "_test.csv")
    = Some (csv_of header (written_table X y q (test_positions 42 n)))
  ∧ NoDup (output_paths P)
  ∧ (∀ path, path ∉ output_paths P → files w' !! path = files w !! path)
  ∧ n = nrows wine ∧ length q = n
  ∧ (index y = RangeIndex n →
       written_table X y q (seq 0 n)
       = zip_with (λ f c, f ++ [c]) (values X) q
       ∧ written_table X y q (train_positions 42 n)
         = subset_rows X q (train_positions 42 n)
       ∧ written_table X y q (test_positions 42 n)
         = subset_rows X q (test_positions 42 n))
  ∧ (process_heart_disease_data inp P w
       = (Ok (X, y, X_train, X_test, y_train, y_test), w') →
     index y = RangeIndex n)
  ∧ ((∃ m, feature_selection_and_split inp P m w
             = (Ok (X, y, X_train, X_test, y_train, y_test), w')) →
     index y = index wine).
Proof.
  intros Hwf Hperm Htext Hwine Hy Hret header q n.
  destruct (returns_tables inp P w text wine ys _ _ _ _ _ _ w'
              Hwf Hperm Htext Hwine Hy Hret) as (Hf1 & Hf2 & Hf3 & Hn & Hq).
  destruct (returns_labels inp P w text wine ys _ _ _ _ _ _ w'
              Hwf Htext Hwine Hy Hret) as (_ & _ & _ & Hpca & Hsel).
  destruct (returns_files inp P w _ _ _ _ _ _ w' Hwf Hret)
    as (_ & _ & _ & _ & _ & _ & _ & _ & _ & Hother).
  destruct (positions_NoDup 42 n Hperm) as [Hndte Hndtr].
  destruct (positions_lt 42 n Hperm) as [Hltte Hlttr].
  split_and!; try done.
  - apply output_paths_NoDup.
  - intros Hiy. split_and!.
    + rewrite written_table_default_labels; try done.
      * by apply subset_rows_all.
      * apply Forall_forall. intros p Hp%elem_of_seq. lia.
      * apply NoDup_seq.
    + by apply written_table_default_labels.
    + by apply written_table_default_labels.
  - intros Hrun. rewrite (Hpca Hrun). by f_equal.
Qed.

End WrittenFiles.

(** ** C5: the generator reaches the files *)

Section GeneratorReachesFiles.

Context `{Runtime}.

#[local] Instance CNum_inj : Inj (=) (=) (@CNum R).
Proof. by intros r1 r2 [= ->]. Qed.

Lemma pca_rows_inj (Y1 Y2 : list (list R)) (q : list (cell R)) :
  length Y1 = length q → length Y2 = length q →
  pca_rows Y1 q = pca_rows Y2 q → Y1 = Y2.
Proof.
  unfold pca_rows. revert Y2 q.
  induction Y1 as [|r1 Y1 IH]; intros [|r2 Y2] [|c q] H1 H2 Heq;
    simplify_eq/=; [done|].
  apply app_inv_tail in H0. apply (inj (fmap CNum)) in H0 as ->.
  f_equal. by eapply IH.
Qed.

Lemma values_of_scores (Y : list (list R)) names (df : DataFrame R) :
  DataFrame_of_array ((λ row : list R, Some <$> row) <$> Y) names = Ok df →
  values df = (λ row : list R, CNum <$> row) <$> Y ∧ nrows df = length Y
  ∧ columns df = names.
Proof.
  intros [_ ->]%DataFrame_of_array_Ok. unfold nrows; simpl.
  rewrite !length_fmap. split_and!; try done.
  rewrite <-list_fmap_compose. apply list_fmap_ext. intros _ row _; simpl.
  rewrite <-list_fmap_compose. by apply list_fmap_ext.
Qed.

(** C5.  [process_heart_disease_data] calls [PCA(n_components=6)] without a
    [random_state]: the decomposition starts from the state of the global
    generator, which nothing in the notebook seeds, and its scores go
    unchanged into the returned frames and the files.  For two runs on the
    same input file that return, from the generator states of the worlds
    [w1] and [w2]: the returned features and the rows of [P.csv] are the
    scores [Y1] and [Y2] of the two decompositions of the same imputed
    matrix, each row followed by its quality; the runs return the same
    frames when the scores are equal, and different features and different
    rows in [P.csv] when they are not.  [feature_selection_and_split],
    whose forest and split are seeded with 42, returns the same from both
    worlds. *)
Theorem pca_output_follows_generator inp P w1 w2
    X1 y1 X_train1 X_test1 y_train1 y_test1 w1'
    X2 y2 X_train2 X_test2 y_train2 y_test2 w2' :
  parse_csv_wf → rng_permutation_permutation →
  files w1 !! inp = files w2 !! inp →
  process_heart_disease_data inp P w1
    = (Ok (X1, y1, X_train1, X_test1, y_train1, y_test1), w1') →
  process_heart_disease_data inp P w2
    = (Ok (X2, y2, X_train2, X_test2, y_train2, y_test2), w2') →
  ∃ text wine ys features X Xr Y1 Y2 g1 g2,
    files w1 !! inp = Some text
    ∧ parse_csv text = Ok wine
    ∧ getitem wine "quality" = Ok ys
    ∧ drop_column wine "quality" = Ok features
    ∧ SimpleImputer_fit_transform features = Ok X
    ∧ mapM (mapM id) X = Some Xr
    ∧ pca_kernel (np_random w1) 6 Xr = (Ok Y1, g1)
    ∧ pca_kernel (np_random w2) 6 Xr = (Ok Y2, g2)
    ∧ np_random w1' = g1 ∧ np_random w2' = g2
    ∧ values X1 = (λ row : list R, CNum <$> row) <$> Y1
    ∧ values X2 = (λ row : list R, CNum <$> row) <$> Y2
    ∧ files w1' !! (P +:+ ".csv")
      = Some (csv_of (PC_names ++ ["quality"]) (pca_rows Y1 (s_values ys)))
    ∧ files w2' !! (P +:+ ".csv")
      = Some (csv_of (PC_names ++ ["quality"]) (pca_rows Y2 (s_values ys)))
    ∧ (Y1 = Y2 →
       (X1, y1, X_train1, X_test1, y_train1, y_test1)
       = (X2, y2, X_train2, X_test2, y_train2, y_test2))
    ∧ (Y1 ≠ Y2 →
       X1 ≠ X2 ∧ pca_rows Y1 (s_values ys) ≠ pca_rows Y2 (s_values ys))
    ∧ ∀ Q m, (feature_selection_and_split inp Q m w1).1
             = (feature_selection_and_split inp Q m w2).1.
Proof.
  intros Hwf Hperm Hfiles Hrun1 Hrun2.
  pose proof Hrun1 as Hinv1. pose proof Hrun2 as Hinv2.
  apply process_heart_disease_data_Ok in Hinv1
    as (text & wine & ys & features & X & Xr & Y1 & g1 & df1 & combined1
        & Xtr1 & Xte1 & ytr1 & yte1 & train_df1 & test_df1
        & Htext & Hwine & Hy & Hdrop & HX & HXr & _ & Hk1 & Hdf1 & _
        & Hsplit1 & _ & _ & _ & _ & _ & Hout1 & Hw1).
  apply process_heart_disease_data_Ok in Hinv2
    as (text' & wine' & ys' & features' & X' & Xr' & Y2 & g2 & df2 & combined2
        & Xtr2 & Xte2 & ytr2 & yte2 & train_df2 & test_df2
        & Htext' & Hwine' & Hy' & Hdrop' & HX' & HXr' & _ & Hk2 & Hdf2 & _
        & Hsplit2 & _ & _ & _ & _ & _ & Hout2 & Hw2).
  injection Hout1 as -> -> -> -> -> ->.
  injection Hout2 as -> -> -> -> -> ->.
  assert (text' = text) as -> by congruence.
  assert (wine' = wine) as -> by congruence.
  assert (ys' = ys) as -> by congruence.
  assert (features' = features) as -> by congruence.
  assert (X' = X) as -> by congruence.
  assert (Xr' = Xr) as -> by congruence.
  assert (files w2 !! inp = Some text) as Htext2 by congruence.
  destruct (values_of_scores _ _ _ Hdf1) as (Hv1 & Hn1 & Hc1).
  destruct (values_of_scores _ _ _ Hdf2) as (Hv2 & Hn2 & Hc2).
  assert (∀ w (df : DataFrame R) (Y : list (list R)) Xtr Xte ytr yte w',
            files w !! inp = Some text →
            process_heart_disease_data inp P w
              = (Ok (df, y_df_pca ys, Xtr, Xte, ytr, yte), w') →
            values df = (λ row : list R, CNum <$> row) <$> Y →
            nrows df = length Y → columns df = PC_names →
            files w' !! (P +:+ ".csv")
              = Some (csv_of (PC_names ++ ["quality"]) (pca_rows Y (s_values ys)))
            ∧ length Y = length (s_values ys)) as Hfile.
  { intros w df Y Xtr Xte ytr yte w' Ht Hrun Hv Hn Hc.
    destruct (returns_tables inp P w text wine ys _ _ _ _ _ _ w'
                Hwf Hperm Ht Hwine Hy (or_introl Hrun))
      as (Hf & _ & _ & Hnw & Hq).
    destruct (returns_labels inp P w text wine ys _ _ _ _ _ _ w'
                Hwf Ht Hwine Hy (or_introl Hrun)) as (_ & _ & _ & Hpca & _).
    specialize (Hpca Hrun). rewrite <-Hnw in Hpca.
    split; [|congruence].
    rewrite Hf, Hc. do 2 f_equal.
    rewrite written_table_default_labels; try done.
    - rewrite subset_rows_all by done. rewrite Hv. unfold pca_rows.
      by rewrite zip_with_fmap_l.
    - apply Forall_forall. intros p Hp%elem_of_seq. lia.
    - apply NoDup_seq. }
  destruct (Hfile _ _ Y1 _ _ _ _ _ Htext Hrun1 Hv1 Hn1 Hc1) as [Hf1 Hl1].
  destruct (Hfile _ _ Y2 _ _ _ _ _ Htext2 Hrun2 Hv2 Hn2 Hc2) as [Hf2 Hl2].
  exists text, wine, ys, features, X, Xr, Y1, Y2, g1, g2.
  split_and!; try done.
  - by rewrite Hw1.
  - by rewrite Hw2.
  - intros <-. congruence.
  - intros Hne. split.
    + intros Heq. apply Hne. rewrite Heq, Hv2 in Hv1.
      apply (inj (fmap (fmap CNum))) in Hv1. done.
    + intros Heq. apply Hne. by eapply pca_rows_inj.
  - intros Q m.
    destruct (feature_selection_deterministic inp Q m (files w1 !! inp))
      as (r & ws & Hr).
    rewrite (Hr w1 eq_refl), (Hr w2 (eq_sym Hfiles)). done.
Qed.

End GeneratorReachesFiles.

(** ** Runs of the model *)

Module Examples.

Import Toy ToyContracts Inputs.

Lemma pca_run_eq :
  process_heart_disease_data "wine.csv" "out" wine_world = pca_run.
Proof. reflexivity. Qed.

Lemma selection_run_1_eq : selection_run 1 = selection_run_1.
Proof. reflexivity. Qed.

Lemma selection_run_2_eq : selection_run 2 = selection_run_2.
Proof. reflexivity. Qed.

Lemma selection_run_3_eq : selection_run 3 = selection_run_3.
Proof. reflexivity. Qed.

Lemma pca_output_shape_witness :
  ∃ X y X_train X_test y_train y_test w',
    process_heart_disease_data "wine.csv" "out" wine_world
      = (Ok (X, y, X_train, X_test, y_train, y_test), w')
    ∧ columns X = ["PC1"; "PC2"; "PC3"; "PC4"; "PC5"; "PC6"]
    ∧ rectangular 6 (values X)
    ∧ nrows X = nrows wine_frame.
Proof.
  pose proof pca_run_eq as Hrun. unfold pca_run in Hrun.
  do 7 eexists. split; [exact Hrun|].
  eapply (pca_output_shape "wine.csv" "out" wine_world wine_text wine_frame).
  - exact toy_pca_kernel_rows.
  - reflexivity.
  - reflexivity.
  - exact Hrun.
Defined.

Lemma selected_features_top_half_witness :
  ∃ X y X_train X_test y_train y_test w',
    feature_selection_and_split "wine.csv" "out" 3 wine_world
      = (Ok (X, y, X_train, X_test, y_train, y_test), w')
    ∧ top_half_selection wine_frame wine_features wine_X0 wine_X
        wine_importances X.
Proof.
  pose proof selection_run_3_eq as Hrun.
  unfold selection_run, selection_run_3 in Hrun.
  do 7 eexists. split; [exact Hrun|].
  eapply (selected_features_top_half "wine.csv" "out" 3 wine_world wine_text
            wine_frame wine_features wine_X0 wine_X wine_y wine_importances).
  - exact toy_parse_csv_wf.
  - exact toy_forest_importances_length.
  - exact toy_argsort_permutation.
  - exact toy_argsort_ascending.
  - reflexivity.
  - reflexivity.
  - reflexivity.
  - reflexivity.
  - reflexivity.
  - reflexivity.
  - reflexivity.
  - exact Hrun.
Defined.

Lemma split_partitions_rows_witness :
  ∃ X y X_train X_test y_train y_test w',
    process_heart_disease_data "wine.csv" "out" wine_world
      = (Ok (X, y, X_train, X_test, y_train, y_test), w')
    ∧ split_partitions X y X_train X_test y_train y_test.
Proof.
  pose proof pca_run_eq as Hrun. unfold pca_run in Hrun.
  do 7 eexists. split; [exact Hrun|].
  eapply (split_partitions_rows "wine.csv" "out" wine_world).
  - exact toy_rng_permutation_permutation.
  - left. exact Hrun.
Defined.

(** *** Imputation *)



(** *** An input with an empty column *)

Lemma gap_selection_run_eq :
  feature_selection_and_split "gap.csv" "out" 1 gap_world = gap_selection_run.
Proof. reflexivity. Qed.

(** The input has four feature columns and the run retains one feature,
    not two. *)
Lemma selection_count_counterexample :
  ∃ X y X_train X_test y_train y_test w',
    files gap_world !! "gap.csv" = Some gap_text
    ∧ parse_csv gap_text = Ok gap_frame
    ∧ length (columns gap_frame) - 1 = 4
    ∧ feature_selection_and_split "gap.csv" "out" 1 gap_world
      = (Ok (X, y, X_train, X_test, y_train, y_test), w')
    ∧ columns X = ["Feature_1"]
    ∧ length (columns X) ≠ 4 / 2.
Proof.
  pose proof gap_selection_run_eq as Hrun. unfold gap_selection_run in Hrun.
  do 7 eexists. split_and!; [reflexivity | reflexivity | reflexivity
                             | exact Hrun | reflexivity | discriminate].
Qed.

Lemma pca_fails_below_six_dimensions_witness :
  (length gap_X < 6 ∨ shape1 gap_X < 6)
  ∧ PCA_fit_transform 6 gap_X gap_world = (Raise ValueError, gap_world)
  ∧ process_heart_disease_data "gap.csv" "out" gap_world
    = (Raise ValueError, gap_world).
Proof.
  assert (length gap_X < 6 ∨ shape1 gap_X < 6) as Hdim.
  { left. vm_compute. lia. }
  split; [exact Hdim|].
  apply (pca_fails_below_six_dimensions "gap.csv" "out" gap_world gap_text
           gap_frame gap_y gap_features gap_X); [reflexivity.. | exact Hdim].
Defined.


(** *** The number of trees *)

Lemma split_independent_of_n_estimators_witness :
  ∃ X1 y1 X_train1 X_test1 y_train1 y_test1 w1
    X2 y2 X_train2 X_test2 y_train2 y_test2 w2,
    feature_selection_and_split "wine.csv" "out" 1 wine_world
      = (Ok (X1, y1, X_train1, X_test1, y_train1, y_test1), w1)
    ∧ feature_selection_and_split "wine.csv" "out" 2 wine_world
      = (Ok (X2, y2, X_train2, X_test2, y_train2, y_test2), w2)
    ∧ X1 ≠ X2
    ∧ nrows X1 = nrows X2
    ∧ index X_train1 = Z.of_nat <$> train_positions 42 (nrows X1)
    ∧ index X_test1 = Z.of_nat <$> test_positions 42 (nrows X1)
    ∧ index X_train1 = index X_train2
    ∧ index X_test1 = index X_test2
    ∧ y1 = y2 ∧ y_train1 = y_train2 ∧ y_test1 = y_test2.
Proof.
  pose proof selection_run_1_eq as Hrun1.
  pose proof selection_run_2_eq as Hrun2.
  unfold selection_run, selection_run_1 in Hrun1.
  unfold selection_run, selection_run_2 in Hrun2.
  do 14 eexists. split; [exact Hrun1|]. split; [exact Hrun2|].
  split; [discriminate|].
  exact (split_independent_of_n_estimators "wine.csv" "out" wine_world 1 2
           _ _ _ _ _ _ _ _ _ _ _ _ _ _ Hrun1 Hrun2).
Defined.

(** *** Row labels that are not the default *)

Lemma shuffled_selection_run_eq :
  feature_selection_and_split "shuffled.csv" "out" 1 shuffled_world
  = shuffled_selection_run.
Proof. reflexivity. Qed.

(** C8 at this input.  [feature_selection_and_split] builds the label frame
    without [reset_index(drop=True)], so it keeps the labels 1, 0 while the
    feature frame gets 0, 1; [concat] joins on the labels, and [P.csv]
    pairs the feature of the first input row with the quality of the
    second, and the other way round. *)
Lemma feature_selection_misaligns_labels :
  ∃ X y X_train X_test y_train y_test w' combined_df,
    parse_csv shuffled_text = Ok shuffled_frame
    ∧ index shuffled_frame = [1; 0]%Z
    ∧ getitem shuffled_frame "quality" = Ok shuffled_y
    ∧ s_values shuffled_y = [CNum 3; CNum 4]%Z
    ∧ feature_selection_and_split "shuffled.csv" "out" 1 shuffled_world
      = (Ok (X, y, X_train, X_test, y_train, y_test), w')
    ∧ values X = [ [CNum 5]; [CNum 7] ]%Z
    ∧ index X = [0; 1]%Z ∧ index y = [1; 0]%Z
    ∧ concat X y = Ok combined_df
    ∧ files w' !! "out.csv" = Some (csv_text false combined_df)
    ∧ values combined_df = [ [CNum 5; CNum 4]; [CNum 7; CNum 3] ]%Z
    ∧ ¬ aligned X (s_values shuffled_y) (seq 0 (nrows X)) combined_df.
Proof.
  pose proof shuffled_selection_run_eq as Hrun.
  unfold shuffled_selection_run in Hrun.
  do 8 eexists.
  split_and!;
    [ reflexivity | reflexivity | reflexivity | reflexivity | exact Hrun
    | reflexivity | reflexivity | reflexivity | reflexivity | reflexivity
    | reflexivity | ].
  intros Hal. unfold aligned in Hal.
  apply Forall2_cons_1 in Hal as [(f & c & Hf & Hc & Hrow) _].
  injection Hf as <-. injection Hc as <-. discriminate Hrow.
Qed.

(** *** Alignment *)

Lemma pca_labels_aligned_witness :
  ∃ X y_df X_train X_test y_train y_test w' combined_df train_df test_df,
    process_heart_disease_data "wine.csv" "out" wine_world
      = (Ok (X, y_df, X_train, X_test, y_train, y_test), w')
    ∧ files w' !! ("out" +:+ ".csv") = Some (csv_text false combined_df)
    ∧ files w' !! ("out" +:+ "_train.csv") = Some (csv_text false train_df)
    ∧ files w' !! ("out" +:+ "_test.csv") = Some (csv_text false test_df)
    ∧ length (s_values wine_y) = nrows wine_frame
    ∧ nrows X = nrows wine_frame
    ∧ aligned X (s_values wine_y) (seq 0 (nrows X)) combined_df
    ∧ aligned X (s_values wine_y) (train_positions 42 (nrows X)) train_df
    ∧ aligned X (s_values wine_y) (test_positions 42 (nrows X)) test_df.
Proof.
  pose proof pca_run_eq as Hrun. unfold pca_run in Hrun.
  pose proof (pca_labels_aligned "wine.csv" "out" wine_world wine_text
                wine_frame wine_y _ _ _ _ _ _ _ toy_parse_csv_wf
                eq_refl eq_refl eq_refl Hrun)
    as (combined_df & train_df & test_df & Hal).
  do 7 eexists. exists combined_df, train_df, test_df.
  split; [exact Hrun | exact Hal].
Defined.

Lemma selected_labels_aligned_witness :
  ∃ X y_df X_train X_test y_train y_test w' combined_df train_df test_df,
    feature_selection_and_split "wine.csv" "out" 3 wine_world
      = (Ok (X, y_df, X_train, X_test, y_train, y_test), w')
    ∧ files w' !! ("out" +:+ ".csv") = Some (csv_text false combined_df)
    ∧ files w' !! ("out" +:+ "_train.csv") = Some (csv_text false train_df)
    ∧ files w' !! ("out" +:+ "_test.csv") = Some (csv_text false test_df)
    ∧ length (s_values wine_y) = nrows wine_frame
    ∧ nrows X = nrows wine_frame
    ∧ aligned X (s_values wine_y) (seq 0 (nrows X)) combined_df
    ∧ aligned X (s_values wine_y) (train_positions 42 (nrows X)) train_df
    ∧ aligned X (s_values wine_y) (test_positions 42 (nrows X)) test_df.
Proof.
  pose proof selection_run_3_eq as Hrun.
  unfold selection_run, selection_run_3 in Hrun.
  pose proof (selected_labels_aligned "wine.csv" "out" 3 wine_world wine_text
                wine_frame wine_y _ _ _ _ _ _ _ toy_parse_csv_wf
                eq_refl eq_refl eq_refl eq_refl Hrun)
    as (combined_df & train_df & test_df & Hal).
  do 7 eexists. exists combined_df, train_df, test_df.
  split; [exact Hrun | exact Hal].
Defined.

(** *** Runs that return, runs that stop, and the cells *)

Lemma process_heart_disease_data_returns_witness :
  ∃ X_pca_df X_train X_test y_train y_test w',
    process_heart_disease_data "wine.csv" "out" wine_world
    = (Ok (X_pca_df, y_df_pca wine_y, X_train, X_test, y_train, y_test), w').
Proof.
  apply (process_heart_disease_data_returns "wine.csv" "out" wine_world
           wine_text wine_frame wine_y wine_features wine_X).
  - exact toy_parse_csv_wf.
  - exact toy_pca_kernel_rows.
  - exact toy_pca_kernel_columns.
  - exact toy_rng_permutation_permutation.
  - reflexivity.
  - reflexivity.
  - reflexivity.
  - reflexivity.
  - reflexivity.
  - vm_compute. lia.
  - vm_compute. lia.
  - intros Xr _. eexists _, _. reflexivity.
  - repeat constructor.
Defined.

Lemma feature_selection_and_split_returns_witness :
  ∃ X_selected_df X_train X_test y_train y_test w',
    feature_selection_and_split "wine.csv" "out" 3 wine_world
    = (Ok (X_selected_df, y_df_selected wine_y,
           X_train, X_test, y_train, y_test), w').
Proof.
  apply (feature_selection_and_split_returns "wine.csv" "out" 3 wine_world
           wine_text wine_frame wine_features wine_X wine_y wine_importances).
  - exact toy_parse_csv_wf.
  - exact toy_forest_importances_length.
  - exact toy_argsort_permutation.
  - exact toy_rng_permutation_permutation.
  - reflexivity.
  - reflexivity.
  - reflexivity.
  - reflexivity.
  - reflexivity.
  - reflexivity.
  - vm_compute. lia.
  - apply (NoDup_RangeIndex 7).
  - repeat constructor.
Defined.


Lemma single_row_selection_writes_full_table_only_witness :
  ∃ combined_df,
    feature_selection_and_split "single.csv" "out" 1 single_world
    = (Raise ValueError,
       mkWorld (<["out" +:+ ".csv" := csv_text false combined_df]>
                  (files single_world))
         (np_random single_world))
    ∧ columns combined_df
      = Feature_names (length single_importances / 2) ++ ["quality"].
Proof.
  apply (single_row_selection_writes_full_table_only "single.csv" "out" 1
           single_world single_text single_frame single_features single_X
           single_y single_importances).
  - exact toy_parse_csv_wf.
  - exact toy_forest_importances_length.
  - exact toy_argsort_permutation.
  - reflexivity.
  - reflexivity.
  - reflexivity.
  - reflexivity.
  - reflexivity.
  - reflexivity.
  - reflexivity.
  - reflexivity.
Defined.

Lemma repeated_labels_stop_selection_witness :
  index twin_frame = [1; 1]%Z
  ∧ feature_selection_and_split "twin.csv" "out" 1 twin_world
    = (Raise InvalidIndexError, twin_world).
Proof.
  split; [reflexivity|].
  apply (repeated_labels_stop_selection "twin.csv" "out" 1 twin_world
           twin_text twin_frame twin_features twin_X twin_y twin_importances).
  - exact toy_parse_csv_wf.
  - exact toy_forest_importances_length.
  - exact toy_argsort_permutation.
  - reflexivity.
  - reflexivity.
  - reflexivity.
  - reflexivity.
  - reflexivity.
  - reflexivity.
  - intros Hnd. apply NoDup_cons in Hnd as [Hn _]. apply Hn. by left.
Defined.

Lemma selection_pairs_rows_by_label_witness :
  ∃ X y_df X_train X_test y_train y_test w' combined_df,
    feature_selection_and_split "shuffled.csv" "out" 1 shuffled_world
      = (Ok (X, y_df, X_train, X_test, y_train, y_test), w')
    ∧ files w' !! ("out" +:+ ".csv") = Some (csv_text false combined_df)
    ∧ nrows X = nrows shuffled_frame
    ∧ nrows combined_df
      = nrows shuffled_frame
        + length (filter (λ l, l ∉ RangeIndex (nrows shuffled_frame))
                    (index shuffled_frame))
    ∧ ∀ k, k < nrows shuffled_frame →
        ∃ f, values X !! k = Some f
          ∧ values combined_df !! k
            = Some (f ++ [quality_of_label (index shuffled_frame)
                            (s_values shuffled_y) (Z.of_nat k)]).
Proof.
  pose proof shuffled_selection_run_eq as Hrun.
  unfold shuffled_selection_run in Hrun.
  pose proof (selection_pairs_rows_by_label "shuffled.csv" "out" 1
                shuffled_world shuffled_text shuffled_frame shuffled_y
                _ _ _ _ _ _ _ toy_parse_csv_wf eq_refl eq_refl eq_refl Hrun)
    as (combined_df & Hrows).
  do 7 eexists. exists combined_df. split; [exact Hrun | exact Hrows].
Defined.

Lemma both_functions_split_alike_witness :
  ∃ X1 y1 X_train1 X_test1 y_train1 y_test1 w1
    X2 y2 X_train2 X_test2 y_train2 y_test2 w2,
    process_heart_disease_data "wine.csv" "out" wine_world
      = (Ok (X1, y1, X_train1, X_test1, y_train1, y_test1), w1)
    ∧ feature_selection_and_split "wine.csv" "out" 3 wine_world
      = (Ok (X2, y2, X_train2, X_test2, y_train2, y_test2), w2)
    ∧ nrows X1 = nrows X2
    ∧ index X_train1 = Z.of_nat <$> train_positions 42 (nrows X1)
    ∧ index X_train2 = Z.of_nat <$> train_positions 42 (nrows X1)
    ∧ index X_test1 = Z.of_nat <$> test_positions 42 (nrows X1)
    ∧ index X_test2 = Z.of_nat <$> test_positions 42 (nrows X1)
    ∧ values y1 = values y2
    ∧ values y_train1 = values y_train2
    ∧ values y_test1 = values y_test2.
Proof.
  pose proof pca_run_eq as Hrun1. unfold pca_run in Hrun1.
  pose proof selection_run_3_eq as Hrun2.
  unfold selection_run, selection_run_3 in Hrun2.
  do 14 eexists. split; [exact Hrun1|]. split; [exact Hrun2|].
  exact (both_functions_split_alike "wine.csv" "out" "out" 3
           wine_world wine_world _ _ _ _ _ _ _ _ _ _ _ _ _ _
           eq_refl Hrun1 Hrun2).
Defined.

Lemma notebook_run_eq :
  notebook notebook_world = (Ok notebook_globals, notebook_end).
Proof. reflexivity. Qed.

Lemma notebook_cells_do_not_interfere_witness :
  notebook notebook_world = (Ok notebook_globals, notebook_end)
  ∧ ∃ X_pca y1 X_train1 X_test1 y_train1 y_test1 w1
      X_selected y2 X_train2 X_test2 y_train2 y_test2 w2,
      process_heart_disease_data
        "processed_wine_quality.csv" "processed_wine_quality_pca"
        notebook_world
      = (Ok (X_pca, y1, X_train1, X_test1, y_train1, y_test1), w1)
      ∧ feature_selection_and_split
          "processed_wine_quality.csv"
          "processed_wine_quality_feature_selected" 250 notebook_world
        = (Ok (X_selected, y2, X_train2, X_test2, y_train2, y_test2), w2)
      ∧ (∀ p, p ∈ output_paths "processed_wine_quality_pca" →
           files notebook_end !! p = files w1 !! p)
      ∧ (∀ p, p ∈ output_paths "processed_wine_quality_feature_selected" →
           files notebook_end !! p = files w2 !! p)
      ∧ (∀ p, p ∉ output_paths "processed_wine_quality_pca"
                  ++ output_paths "processed_wine_quality_feature_selected" →
           files notebook_end !! p = files notebook_world !! p)
      ∧ files notebook_end !! "processed_wine_quality.csv"
        = files notebook_world !! "processed_wine_quality.csv"
      ∧ notebook_globals !! "X_pca" = Some X_pca
      ∧ notebook_globals !! "X_selected" = Some X_selected
      ∧ notebook_globals !! "y" = Some y2
      ∧ notebook_globals !! "X_train" = Some X_train2
      ∧ notebook_globals !! "X_test" = Some X_test2
      ∧ notebook_globals !! "y_train" = Some y_train2
      ∧ notebook_globals !! "y_test" = Some y_test2.
Proof.
  split; [exact notebook_run_eq|].
  exact (notebook_cells_do_not_interfere notebook_world notebook_globals
           notebook_end toy_parse_csv_wf notebook_run_eq).
Defined.


Lemma impute_idempotent_witness :
  impute 2 sparse = Ok sparse_imputed
  ∧ (shape1 sparse_imputed ≠ 0 →
     impute (shape1 sparse_imputed) sparse_imputed = Ok sparse_imputed)
  ∧ (shape1 sparse_imputed = 0 →
     impute (shape1 sparse_imputed) sparse_imputed = Raise ValueError).
Proof.
  split; [reflexivity|].
  apply (impute_idempotent 2 sparse sparse_imputed).
  - repeat constructor.
  - reflexivity.
Defined.

Lemma output_columns_distinct_witness :
  ∃ X y X_train X_test y_train y_test w' combined_df train_df test_df,
    returns "wine.csv" "out" wine_world
      (X, y, X_train, X_test, y_train, y_test) w'
    ∧ files w' !! ("out" +:+ ".csv") = Some (csv_text false combined_df)
    ∧ files w' !! ("out" +:+ "_train.csv") = Some (csv_text false train_df)
    ∧ files w' !! ("out" +:+ "_test.csv") = Some (csv_text false test_df)
    ∧ Forall (λ df, columns df = columns X ++ ["quality"] ∧ NoDup (columns df))
        [combined_df; train_df; test_df]
    ∧ "quality" ∉ columns X.
Proof.
  pose proof pca_run_eq as Hrun. unfold pca_run in Hrun.
  pose proof (output_columns_distinct "wine.csv" "out" wine_world
                _ _ _ _ _ _ _ toy_parse_csv_wf (or_introl Hrun))
    as (combined_df & train_df & test_df & Hall).
  do 7 eexists. exists combined_df, train_df, test_df.
  split; [left; exact Hrun | exact Hall].
Defined.

Lemma unwritable_first_path_writes_nothing_witness :
  writable ("/proc/out" +:+ ".csv") = false
  ∧ (∃ e w', process_heart_disease_data "wine.csv" "/proc/out" wine_world
               = (Raise e, w')
             ∧ files w' = files wine_world)
  ∧ (∃ e, feature_selection_and_split "wine.csv" "/proc/out" 250 wine_world
          = (Raise e, wine_world)).
Proof.
  split; [reflexivity|].
  apply (unwritable_first_path_writes_nothing "wine.csv" "/proc/out" 250
           wine_world).
  reflexivity.
Defined.

Lemma pca_run_unwritable_eq :
  process_heart_disease_data "wine.csv" "/proc/out" wine_world
  = pca_run_unwritable.
Proof. reflexivity. Qed.

Lemma pca_failure_after_a_write_is_OSError_witness :
  ∃ e w', process_heart_disease_data "wine.csv" "/proc/out" wine_world
          = (Raise e, w')
    ∧ (files w' = files wine_world ∨ e = OSError).
Proof.
  pose proof pca_run_unwritable_eq as Hrun. unfold pca_run_unwritable in Hrun.
  do 2 eexists. split; [exact Hrun|].
  exact (pca_failure_after_a_write_is_OSError "wine.csv" "/proc/out"
           wine_world _ _ toy_parse_csv_wf toy_pca_kernel_rows
           toy_pca_kernel_columns toy_rng_permutation_permutation Hrun).
Defined.

Lemma single_selection_run_eq :
  feature_selection_and_split "single.csv" "out" 1 single_world
  = single_selection_run.
Proof. reflexivity. Qed.

Lemma selection_failure_after_a_write_witness :
  ∃ e w', feature_selection_and_split "single.csv" "out" 1 single_world
          = (Raise e, w')
    ∧ (files w' = files single_world
       ∨ e = OSError
       ∨ (e = ValueError
          ∧ ∃ text wine, files single_world !! "single.csv" = Some text
                         ∧ parse_csv text = Ok wine ∧ nrows wine = 1)).
Proof.
  pose proof single_selection_run_eq as Hrun.
  unfold single_selection_run in Hrun.
  do 2 eexists. split; [exact Hrun|].
  exact (selection_failure_after_a_write "single.csv" "out" 1
           single_world _ _ toy_parse_csv_wf toy_forest_importances_length
           toy_argsort_permutation toy_rng_permutation_permutation Hrun).
Defined.

Lemma pca_run_reseeded_eq :
  process_heart_disease_data "wine.csv" "out" reseeded_world = pca_run_reseeded.
Proof. reflexivity. Qed.

Lemma pca_runs_differ_only_in_scores_witness :
  ∃ X1 y1 X_train1 X_test1 y_train1 y_test1 w1
    X2 y2 X_train2 X_test2 y_train2 y_test2 w2,
    process_heart_disease_data "wine.csv" "out" wine_world
      = (Ok (X1, y1, X_train1, X_test1, y_train1, y_test1), w1)
    ∧ process_heart_disease_data "wine.csv" "out" reseeded_world
      = (Ok (X2, y2, X_train2, X_test2, y_train2, y_test2), w2)
    ∧ X1 ≠ X2
    ∧ columns X1 = columns X2 ∧ index X1 = index X2
    ∧ index X_train1 = index X_train2 ∧ index X_test1 = index X_test2
    ∧ y1 = y2 ∧ y_train1 = y_train2 ∧ y_test1 = y_test2.
Proof.
  pose proof pca_run_eq as Hrun1. unfold pca_run in Hrun1.
  pose proof pca_run_reseeded_eq as Hrun2. unfold pca_run_reseeded in Hrun2.
  do 14 eexists. split; [exact Hrun1|]. split; [exact Hrun2|].
  split; [discriminate|].
  exact (pca_runs_differ_only_in_scores "wine.csv" "out" "out"
           wine_world reseeded_world _ _ _ _ _ _ _ _ _ _ _ _ _ _
           eq_refl Hrun1 Hrun2).
Defined.

(** *** The files on row labels that are not the default *)

(** C6 at this input.  The train and the test file of
    [feature_selection_and_split] hold two data rows each, one without
    quality and one without feature, where the train and the test subset
    have one row. *)
Lemma written_files_are_joined_tables_witness :
  ∃ X y X_train X_test y_train y_test w',
    feature_selection_and_split "shuffled.csv" "out" 1 shuffled_world
      = (Ok (X, y, X_train, X_test, y_train, y_test), w')
    ∧ index shuffled_frame = [1; 0]%Z
    ∧ s_values shuffled_y = [CNum 3; CNum 4]%Z
    ∧ values X = [ [CNum 5]; [CNum 7] ]%Z
    ∧ written_table X y (s_values shuffled_y) (train_positions 42 (nrows X))
      = [ [CNum 5; CNaN]; [CNaN; CNum 3] ]%Z
    ∧ subset_rows X (s_values shuffled_y) (train_positions 42 (nrows X))
      = [ [CNum 5; CNum 3] ]%Z
    ∧ written_table X y (s_values shuffled_y) (test_positions 42 (nrows X))
      = [ [CNum 7; CNaN]; [CNaN; CNum 4] ]%Z
    ∧ subset_rows X (s_values shuffled_y) (test_positions 42 (nrows X))
      = [ [CNum 7; CNum 4] ]%Z
    ∧ let header := columns X ++ ["quality"] in
      let q := s_values shuffled_y in
      let n := nrows X in
      files w' !! ("out" +:+ ".csv")
        = Some (csv_of header (written_table X y q (seq 0 n)))
      ∧ files w' !! ("out" +:+ "_train.csv")
        = Some (csv_of header (written_table X y q (train_positions 42 n)))
      ∧ files w' !! ("out" +:+ "_test.csv")
        = Some (csv_of header (written_table X y q (test_positions 42 n)))
      ∧ NoDup (output_paths "out")
      ∧ (∀ path, path ∉ output_paths "out" →
           files w' !! path = files shuffled_world !! path)
      ∧ n = nrows shuffled_frame ∧ length q = n
      ∧ (index y = RangeIndex n →
           written_table X y q (seq 0 n)
           = zip_with (λ f c, f ++ [c]) (values X) q
           ∧ written_table X y q (train_positions 42 n)
             = subset_rows X q (train_positions 42 n)
           ∧ written_table X y q (test_positions 42 n)
             = subset_rows X q (test_positions 42 n))
      ∧ (process_heart_disease_data "shuffled.csv" "out" shuffled_world
           = (Ok (X, y, X_train, X_test, y_train, y_test), w') →
         index y = RangeIndex n)
      ∧ ((∃ m, feature_selection_and_split "shuffled.csv" "out" m
                 shuffled_world
                 = (Ok (X, y, X_train, X_test, y_train, y_test), w')) →
         index y = index shuffled_frame).
Proof.
  pose proof shuffled_selection_run_eq as Hrun.
  unfold shuffled_selection_run in Hrun.
  do 7 eexists.
  split_and!;
    [ exact Hrun | reflexivity | reflexivity | reflexivity | reflexivity
    | reflexivity | reflexivity | reflexivity | ].
  exact (written_files_are_joined_tables "shuffled.csv" "out" shuffled_world
           shuffled_text shuffled_frame shuffled_y _ _ _ _ _ _ _
           toy_parse_csv_wf toy_rng_permutation_permutation
           eq_refl eq_refl eq_refl (or_intror (ex_intro _ 1%Z Hrun))).
Defined.

(** *** Two states of the global generator *)

Lemma pca_output_follows_generator_witness :
  ∃ X1 y1 X_train1 X_test1 y_train1 y_test1 w1'
    X2 y2 X_train2 X_test2 y_train2 y_test2 w2',
    process_heart_disease_data "wine.csv" "out" wine_world
      = (Ok (X1, y1, X_train1, X_test1, y_train1, y_test1), w1')
    ∧ process_heart_disease_data "wine.csv" "out" reseeded_world
      = (Ok (X2, y2, X_train2, X_test2, y_train2, y_test2), w2')
    ∧ ∃ text wine ys features X Xr Y1 Y2 g1 g2,
        files wine_world !! "wine.csv" = Some text
        ∧ parse_csv text = Ok wine
        ∧ getitem wine "quality" = Ok ys
        ∧ drop_column wine "quality" = Ok features
        ∧ SimpleImputer_fit_transform features = Ok X
        ∧ mapM (mapM id) X = Some Xr
        ∧ pca_kernel (np_random wine_world) 6 Xr = (Ok Y1, g1)
        ∧ pca_kernel (np_random reseeded_world) 6 Xr = (Ok Y2, g2)
        ∧ np_random w1' = g1 ∧ np_random w2' = g2
        ∧ values X1 = (λ row : list R, CNum <$> row) <$> Y1
        ∧ values X2 = (λ row : list R, CNum <$> row) <$> Y2
        ∧ files w1' !! ("out" +:+ ".csv")
          = Some (csv_of (PC_names ++ ["quality"])
                    (pca_rows Y1 (s_values ys)))
        ∧ files w2' !! ("out" +:+ ".csv")
          = Some (csv_of (PC_names ++ ["quality"])
                    (pca_rows Y2 (s_values ys)))
        ∧ (Y1 = Y2 →
           (X1, y1, X_train1, X_test1, y_train1, y_test1)
           = (X2, y2, X_train2, X_test2, y_train2, y_test2))
        ∧ (Y1 ≠ Y2 →
           X1 ≠ X2 ∧ pca_rows Y1 (s_values ys) ≠ pca_rows Y2 (s_values ys))
        ∧ ∀ Q m, (feature_selection_and_split "wine.csv" Q m wine_world).1
                 = (feature_selection_and_split "wine.csv" Q m
                      reseeded_world).1.
Proof.
  pose proof pca_run_eq as Hrun1. unfold pca_run in Hrun1.
  pose proof pca_run_reseeded_eq as Hrun2. unfold pca_run_reseeded in Hrun2.
  do 14 eexists. split; [exact Hrun1|]. split; [exact Hrun2|].
  exact (pca_output_follows_generator "wine.csv" "out"
           wine_world reseeded_world _ _ _ _ _ _ _ _ _ _ _ _ _ _
           toy_parse_csv_wf toy_rng_permutation_permutation
           eq_refl Hrun1 Hrun2).
Defined.

(** *** Conversion to float64 *)

(** An int64 cell beyond 2^53 comes out of the imputation as the nearest
    float64. *)
Lemma float_of_cell_rounds :
  float_of_cell (CNum 9007199254740993%Z) = Ok (Some 9007199254740992%Z)
  ∧ float_of_cell (CNum 7%Z) = Ok (Some 7%Z).
Proof. split; reflexivity. Qed.

End Examples.
